(** * Moonstone: the connection/session engine of lib/Moonstone.js

    A shallow embedding of the client class of [lib/Moonstone.js] and the
    properties of its pending-request table, packet dispatcher, voice-state
    reconciler and connection manager.

    The client is a single-threaded, event-driven object: every method and
    every callback (socket events, timers, HTTP response) runs to completion
    on the fields of [this].  Each of them is embedded as a computation in a
    state-and-exception monad over one record [St], which holds the fields
    of [this] together with the part of the environment the code acts on
    (the sockets it created, the timers it armed, and the trace of what it
    emitted, sent or called). *)

From Stdlib Require Import ZArith QArith Qround Lia Lqa String Ascii List.
From stdpp Require Import base option list gmap strings pretty.
Import ListNotations.

Local Open Scope string_scope.
Local Open Scope Z_scope.
Local Open Scope list_scope.

Set Warnings "-register-all".

(** ** JavaScript values *)

Inductive ErrKind := KError | KTypeError | KSyntaxError.

(** Parsed JSON, plus [Error] instances, which the code creates, throws
    and passes to listeners.  The message of an engine-raised [TypeError]
    is engine specific and left empty. *)
Inductive value : Type :=
| VUndef
| VNull
| VBool (b : bool)
| VNum (n : Z)
| VStr (s : string)
| VArr (items : list value)
| VObj (fields : list (string * value))
| VErr (k : ErrKind) (msg : string).

Definition JsError (msg : string) : value := VErr KError msg.
Definition JsTypeError : value := VErr KTypeError "".

(** ToBoolean. *)
Definition truthy (v : value) : bool :=
  match v with
  | VUndef | VNull => false
  | VBool b => b
  | VNum n => negb (n =? 0)
  | VStr s => negb (String.eqb s "")
  | VArr _ | VObj _ | VErr _ _ => true
  end.

(** [a === b] between a value held by the client and a value of a freshly
    parsed packet: primitives compare by value, objects by reference, and
    two such objects are never the same reference. *)
Definition strict_eq (a b : value) : bool :=
  match a, b with
  | VUndef, VUndef | VNull, VNull => true
  | VBool x, VBool y => Bool.eqb x y
  | VNum x, VNum y => x =? y
  | VStr x, VStr y => String.eqb x y
  | _, _ => false
  end.

Fixpoint assoc (k : string) (fields : list (string * value)) : value :=
  match fields with
  | [] => VUndef
  | (k', v) :: rest => if String.eqb k k' then v else assoc k rest
  end.

(** [v.k]: reading a property of [undefined] or [null] raises a TypeError;
    reading a missing property gives [undefined]. *)
Definition prop (v : value) (k : string) : value + value :=
  match v with
  | VUndef | VNull => inr JsTypeError
  | VObj fields => inl (assoc k fields)
  | _ => inl VUndef
  end.

(** [s.startsWith(prefix)] *)
Definition startsWith (pre s : string) : bool :=
  String.prefix pre s.

(** An array index, as a property name: the canonical decimal form of an
    integer below 2^32 - 1.  [Array.prototype.forEach] visits the
    properties of an array that have such names, and no others. *)
Definition digit_of (a : ascii) : option N :=
  let n := N_of_ascii a in
  if ((48 <=? n) && (n <=? 57))%N then Some (n - 48)%N else None.

Fixpoint parse_digits (s : string) (acc : N) : option N :=
  match s with
  | EmptyString => Some acc
  | String a rest =>
      match digit_of a with
      | Some d => parse_digits rest (acc * 10 + d)%N
      | None => None
      end
  end.

Definition is_array_index (s : string) : bool :=
  match s with
  | EmptyString => false
  | String a rest =>
      match parse_digits s 0 with
      | Some n =>
          (negb (Ascii.eqb a "0"%char) || String.eqb rest "") && (n <? 4294967295)%N
      | None => false
      end
  end.

(** ** The mirror: rooms, users and voice states *)

(** Modelled from the spec: [lib/core/ActiveUser.js] is not part of the
    sources.  An ActiveUser has an identity, a voice state {muted,
    deafened, speaking, handRaised} and room permissions {isSpeaker, isMod,
    isCreator, askedToSpeak}.  The flags hold whatever the dispatcher
    assigns to them, which is a packet field.  [handRaised] is the property
    the HAND_RAISED handler writes on the user object itself. *)
Record VoiceState := mkVoiceState {
  muted : value;
  deafened : value;
  speaking : value;
  vs_handRaised : value
}.

Record RoomPermissions := mkRoomPermissions {
  isSpeaker : value;
  isMod : value;
  isCreator : value;
  askedToSpeak : value
}.

Record ActiveUser := mkActiveUser {
  user_id : string;
  voiceState : VoiceState;
  roomPermissions : RoomPermissions;
  handRaised : value
}.

Definition defaultVoiceState : VoiceState :=
  mkVoiceState (VBool false) (VBool false) (VBool false) (VBool false).

Definition defaultPermissions : RoomPermissions :=
  mkRoomPermissions (VBool false) (VBool false) (VBool false) (VBool false).

(** Modelled from the spec: the constructor of the absent ActiveUser class.
    A user that joins has the default voice state.  Identifiers are
    strings; data without one builds no user. *)
Definition ActiveUser_new (data : value) : option ActiveUser :=
  match prop data "id" with
  | inl (VStr id) => Some (mkActiveUser id defaultVoiceState defaultPermissions VUndef)
  | _ => None
  end.

(** Modelled from the spec: [lib/utils/Collection.js] is not part of the
    sources.  A collection holds entities keyed by their id; a user id is
    unique within a room's collection and a later entry with the same id
    supersedes the earlier one. *)
Abbreviation Collection := (gmap string).

Definition Collection_get {A} (c : Collection A) (id : value) : option A :=
  match id with
  | VStr k => c !! k
  | _ => None
  end.

(** Modelled from the spec: [lib/core/Room.js] and [lib/core/ActiveRoom.js]
    are not part of the sources.  A Room has static identifying attributes;
    an ActiveRoom owns in addition a collection of ActiveUser keyed by user
    id and the self-user's permission and voice state.  [audioConnection]
    tells whether the room object holds a voice transport. *)
Record Room := mkRoom {
  room_id : string;
  room_creatorId : value
}.

Record ActiveRoom := mkActiveRoom {
  ar_id : string;
  creatorId : value;
  users : Collection ActiveUser;
  selfUser : ActiveUser;
  audioConnection : bool
}.

Inductive RoomEntry :=
| PlainRoom (r : Room)
| Active (r : ActiveRoom).

Definition entry_id (r : RoomEntry) : string :=
  match r with
  | PlainRoom r => room_id r
  | Active r => ar_id r
  end.

(** Modelled from the spec: the constructor of the absent ActiveRoom class,
    applied to the payload of a join reply, whose [room] field carries the
    room's attributes.  The room starts with no user of its own: users
    enter it through USER_JOIN_ROOM. *)
Definition ActiveRoom_new (data : value) : option ActiveRoom :=
  match prop data "room" with
  | inl room =>
      match prop room "id", prop room "creatorId" with
      | inl (VStr id), inl creator =>
          Some (mkActiveRoom id creator ∅
                  (mkActiveUser "" defaultVoiceState defaultPermissions VUndef) false)
      | _, _ => None
      end
  | inr _ => None
  end.

(** *** The voice-state reconciler *)

(** One observation of a delta: the flags reported for a user. *)
Record VoiceObs := mkVoiceObs {
  obs_speaking : bool;
  obs_muted : bool;
  obs_deafened : bool
}.

(** A delta: a map user id -> observation, in the order of the delta. *)
Abbreviation Delta := (list (string * VoiceObs)).

Definition differs (old : value) (new : bool) : bool :=
  negb (strict_eq old (VBool new)).

Definition observe (u : ActiveUser) (o : VoiceObs) : ActiveUser :=
  mkActiveUser (user_id u)
    (mkVoiceState (VBool (obs_muted o)) (VBool (obs_deafened o))
       (VBool (obs_speaking o)) (vs_handRaised (voiceState u)))
    (roomPermissions u) (handRaised u).

(** The three lists of the reconciler: the users whose speaking, muted
    and deafened flag changed. *)
Record Updates := mkUpdates {
  updatedSpeaking : list string;
  updatedMuted : list string;
  updatedDeafened : list string
}.

Definition no_updates : Updates := mkUpdates [] [] [].

Definition snoc_if {A} (b : bool) (l : list A) (x : A) : list A :=
  if b then l ++ [x] else l.

(** Modelled from the spec: [ActiveRoom._updateVoiceStates] is not part of
    the sources.  For each user id present in the delta, in delta order:
    compare the observation against the mirror's current voice state of
    that user, update the mirror, and accumulate the user into each list
    whose flag differs from before.  Users not present in the delta, and
    ids the room does not know, are left untouched. *)
Fixpoint reconcile (us : Collection ActiveUser) (acc : Updates) (delta : Delta)
  : Collection ActiveUser * Updates :=
  match delta with
  | [] => (us, acc)
  | (uid, o) :: rest =>
      match us !! uid with
      | None => reconcile us acc rest
      | Some u =>
          let vs := voiceState u in
          reconcile (<[uid := observe u o]> us)
            (mkUpdates
               (snoc_if (differs (speaking vs) (obs_speaking o)) (updatedSpeaking acc) uid)
               (snoc_if (differs (muted vs) (obs_muted o)) (updatedMuted acc) uid)
               (snoc_if (differs (deafened vs) (obs_deafened o)) (updatedDeafened acc) uid))
            rest
      end
  end.

Definition _updateVoiceStates (room : ActiveRoom) (delta : Delta) : ActiveRoom * Updates :=
  let '(us, upd) := reconcile (users room) no_updates delta in
  (mkActiveRoom (ar_id room) (creatorId room) us (selfUser room) (audioConnection room), upd).

(** ** Packets *)

(** [lib/Constants.js], the table of operation codes, is not part of the
    sources.  An inbound operation code is kept decoded: one constructor
    per label of the switch of [wsEvent], and [Other v] for a value [v] of
    the [op] field that is none of these codes. *)
Inductive Op :=
| AUTH_REPLY | NEW_TOKENS | FETCH_DONE | USER_JOIN_ROOM | USER_LEFT_ROOM
| ACTIVE_SPEAKER_CHANGE | MUTE_CHANGED | DEAFEN_CHANGED | NEW_CHAT_MSG
| MSG_DELETED | JOINED_PEER | JOINED_SPEAKER | NOW_SPEAKER | HAND_RAISED
| SPEAKER_ADDED | SPEAKER_REMOVED | LEFT_ROOM | MOD_CHANGED | NEW_CREATOR
| Other (v : value).

(** The codes of the frames the client sends. *)
Inductive Request :=
| AUTH | TOP_ROOMS | JOIN_ROOM | CREATE_ROOM | CREATE_BOT | SET_ROLE
| SEND_CHAT_MSG | SET_SPEAKING | SET_AUTH | GET_PROFILE | EDIT_PROFILE.

(** An inbound frame after [JSON.parse]: an object with the fields the
    dispatcher reads.  A correlation id ([ref], [fetchId]) is a string when
    the field is present.  [voiceStates] is the map user id -> observation
    that the absent ActiveRoom class reads from the payload [d], decoded;
    it is empty for a payload that carries no voice state. *)
Module packet.
Record t := mk {
  op : Op;
  p : value;
  d : value;
  e : value;
  ref : option string;
  fetchId : option string;
  voiceStates : Delta
}.
End packet.

(** What arrives on the socket: the literal text [pong], a text that parses
    to a packet, or a text on which [JSON.parse] raises. *)
Inductive Message :=
| Pong
| Frame (pk : packet.t)
| Malformed.

(** ** State *)

(** The client's options, with the defaults of the constructor. *)
Record Options := mkOptions {
  socketUrl : string;
  autoReconnect : bool;
  connectionTimeout : Z;
  callbackTimeout : Z;
  logUnhandledPackets : bool;
  opt_pingInterval : Z
}.

Definition defaultOptions : Options :=
  mkOptions "wss://api.dogehouse.tv/socket" true 30000 2000 false 8000.

(** [this.token]: the raw API key when the client was built from a string,
    and the access and refresh tokens. *)
Record Token := mkToken {
  apiKey : option string;
  accessToken : value;
  refreshToken : value
}.

Record VoiceDataCache := mkVoiceDataCache {
  recvTransportOptions : value;
  sendTransportOptions : value;
  routerRtpCapabilities : value
}.

Definition emptyCache : VoiceDataCache := mkVoiceDataCache VUndef VUndef VUndef.

(** A continuation handed to [waitForRef], named by a number.  What a
    continuation does when called is up to the caller; the model records
    the call, and takes a continuation to return without calling back into
    the client. *)
Abbreviation Cont := nat.

(** An entry [[callback, errCallback, timer]] of [this.callbacks[ref]]. *)
Record Registration := mkRegistration {
  callback : Cont;
  errCallback : Cont;
  timer : nat
}.

(** What a timer runs when it fires. *)
Inductive TimerAction :=
| ConnectionTimeout            (* connect: the connection-timeout check *)
| Reconnect                    (* disconnect: [this.connect()] *)
| ReplyTimeout (err : Cont)    (* waitForRef: [errCallback("Reply timed out.")] *)
| Heartbeat.                   (* AUTH_REPLY: the ping interval *)

Record Timer := mkTimer {
  action : TimerAction;
  delay : Z;
  repeating : bool
}.

Inductive ReadyState := CONNECTING | OPEN | CLOSING | CLOSED.

Definition ReadyState_eqb (a b : ReadyState) : bool :=
  match a, b with
  | CONNECTING, CONNECTING | OPEN, OPEN | CLOSING, CLOSING | CLOSED, CLOSED => true
  | _, _ => false
  end.

(** The frames written to a socket. *)
Inductive Outbound :=
| Ping
| EnvelopeA (op : Request) (p : value) (version : string) (ref : string)
| EnvelopeB (op : Request) (d : value) (fetchId : string).

(** The arguments passed to listeners. *)
Inductive Arg :=
| AVal (v : value)
| AUser (id : string)           (* an ActiveUser of the mirror *)
| ARoom (id : string)           (* a room of the mirror *)
| ACache (c : VoiceDataCache)
| APacket (pk : packet.t)
| AFrame (f : Outbound).        (* the JSON text of a frame *)

(** The trace: what the client did that its environment observes. *)
Inductive Effect :=
| Emit (event : string) (args : list Arg)   (* [this.emit(event, ...args)] *)
| Call (k : Cont) (arg : value)             (* a continuation called *)
| NewSocket (sock : nat) (url : string)     (* [new WebSocket(url)] *)
| Send (sock : nat) (f : Outbound)          (* [ws.send(f)] *)
| Close (sock : nat) (arg : value)          (* [ws.close(arg)] *)
| HttpPost (host path : string) (key : string)
| AudioDisconnect (room : string)           (* [room.audioConnection.disconnect()] *)
| ConsoleLog (pk : packet.t).

Inductive Latency := Infinity | Millis (ms : Z).

(** The fields of [this], then the environment the code acts on: the
    rooms it allocated, the sockets it created with their ready state, the
    armed timers, the number of [rawWS] listeners and the trace. *)
Record St := mkSt {
  token : Token;
  options : Options;
  callbacks : gmap string (list Registration);
  voiceDataCache : VoiceDataCache;
  rooms : Collection nat;
  ws : option nat;
  ready : bool;
  connecting : bool;
  pingInterval : option nat;
  lastPingAck : bool;
  lastPingReceived : option Z;
  lastPingSent : option Z;
  latency : Latency;
  reconnectInterval : Z;
  connectAttempts : Z;
  user : option value;
  currentRoom : option nat;
  heap : gmap nat RoomEntry;
  nextRoom : nat;
  sockets : gmap nat ReadyState;
  nextSocket : nat;
  timers : gmap nat Timer;
  nextTimer : nat;
  rawWSListeners : nat;
  trace : list Effect
}.

(** Field updates. *)
Definition set_token x (s : St) : St :=
  mkSt x (options s) (callbacks s) (voiceDataCache s) (rooms s) (ws s)
    (ready s) (connecting s) (pingInterval s) (lastPingAck s)
    (lastPingReceived s) (lastPingSent s) (latency s) (reconnectInterval s)
    (connectAttempts s) (user s) (currentRoom s) (heap s) (nextRoom s)
    (sockets s) (nextSocket s) (timers s) (nextTimer s) (rawWSListeners s)
    (trace s).
Definition set_options x (s : St) : St :=
  mkSt (token s) x (callbacks s) (voiceDataCache s) (rooms s) (ws s) (ready
    s) (connecting s) (pingInterval s) (lastPingAck s) (lastPingReceived s)
    (lastPingSent s) (latency s) (reconnectInterval s) (connectAttempts s)
    (user s) (currentRoom s) (heap s) (nextRoom s) (sockets s) (nextSocket
    s) (timers s) (nextTimer s) (rawWSListeners s) (trace s).
Definition set_callbacks x (s : St) : St :=
  mkSt (token s) (options s) x (voiceDataCache s) (rooms s) (ws s) (ready s)
    (connecting s) (pingInterval s) (lastPingAck s) (lastPingReceived s)
    (lastPingSent s) (latency s) (reconnectInterval s) (connectAttempts s)
    (user s) (currentRoom s) (heap s) (nextRoom s) (sockets s) (nextSocket
    s) (timers s) (nextTimer s) (rawWSListeners s) (trace s).
Definition set_voiceDataCache x (s : St) : St :=
  mkSt (token s) (options s) (callbacks s) x (rooms s) (ws s) (ready s)
    (connecting s) (pingInterval s) (lastPingAck s) (lastPingReceived s)
    (lastPingSent s) (latency s) (reconnectInterval s) (connectAttempts s)
    (user s) (currentRoom s) (heap s) (nextRoom s) (sockets s) (nextSocket
    s) (timers s) (nextTimer s) (rawWSListeners s) (trace s).
Definition set_rooms x (s : St) : St :=
  mkSt (token s) (options s) (callbacks s) (voiceDataCache s) x (ws s)
    (ready s) (connecting s) (pingInterval s) (lastPingAck s)
    (lastPingReceived s) (lastPingSent s) (latency s) (reconnectInterval s)
    (connectAttempts s) (user s) (currentRoom s) (heap s) (nextRoom s)
    (sockets s) (nextSocket s) (timers s) (nextTimer s) (rawWSListeners s)
    (trace s).
Definition set_ws x (s : St) : St :=
  mkSt (token s) (options s) (callbacks s) (voiceDataCache s) (rooms s) x
    (ready s) (connecting s) (pingInterval s) (lastPingAck s)
    (lastPingReceived s) (lastPingSent s) (latency s) (reconnectInterval s)
    (connectAttempts s) (user s) (currentRoom s) (heap s) (nextRoom s)
    (sockets s) (nextSocket s) (timers s) (nextTimer s) (rawWSListeners s)
    (trace s).
Definition set_ready x (s : St) : St :=
  mkSt (token s) (options s) (callbacks s) (voiceDataCache s) (rooms s) (ws
    s) x (connecting s) (pingInterval s) (lastPingAck s) (lastPingReceived
    s) (lastPingSent s) (latency s) (reconnectInterval s) (connectAttempts
    s) (user s) (currentRoom s) (heap s) (nextRoom s) (sockets s)
    (nextSocket s) (timers s) (nextTimer s) (rawWSListeners s) (trace s).
Definition set_connecting x (s : St) : St :=
  mkSt (token s) (options s) (callbacks s) (voiceDataCache s) (rooms s) (ws
    s) (ready s) x (pingInterval s) (lastPingAck s) (lastPingReceived s)
    (lastPingSent s) (latency s) (reconnectInterval s) (connectAttempts s)
    (user s) (currentRoom s) (heap s) (nextRoom s) (sockets s) (nextSocket
    s) (timers s) (nextTimer s) (rawWSListeners s) (trace s).
Definition set_pingInterval x (s : St) : St :=
  mkSt (token s) (options s) (callbacks s) (voiceDataCache s) (rooms s) (ws
    s) (ready s) (connecting s) x (lastPingAck s) (lastPingReceived s)
    (lastPingSent s) (latency s) (reconnectInterval s) (connectAttempts s)
    (user s) (currentRoom s) (heap s) (nextRoom s) (sockets s) (nextSocket
    s) (timers s) (nextTimer s) (rawWSListeners s) (trace s).
Definition set_lastPingAck x (s : St) : St :=
  mkSt (token s) (options s) (callbacks s) (voiceDataCache s) (rooms s) (ws
    s) (ready s) (connecting s) (pingInterval s) x (lastPingReceived s)
    (lastPingSent s) (latency s) (reconnectInterval s) (connectAttempts s)
    (user s) (currentRoom s) (heap s) (nextRoom s) (sockets s) (nextSocket
    s) (timers s) (nextTimer s) (rawWSListeners s) (trace s).
Definition set_lastPingReceived x (s : St) : St :=
  mkSt (token s) (options s) (callbacks s) (voiceDataCache s) (rooms s) (ws
    s) (ready s) (connecting s) (pingInterval s) (lastPingAck s) x
    (lastPingSent s) (latency s) (reconnectInterval s) (connectAttempts s)
    (user s) (currentRoom s) (heap s) (nextRoom s) (sockets s) (nextSocket
    s) (timers s) (nextTimer s) (rawWSListeners s) (trace s).
Definition set_lastPingSent x (s : St) : St :=
  mkSt (token s) (options s) (callbacks s) (voiceDataCache s) (rooms s) (ws
    s) (ready s) (connecting s) (pingInterval s) (lastPingAck s)
    (lastPingReceived s) x (latency s) (reconnectInterval s)
    (connectAttempts s) (user s) (currentRoom s) (heap s) (nextRoom s)
    (sockets s) (nextSocket s) (timers s) (nextTimer s) (rawWSListeners s)
    (trace s).
Definition set_latency x (s : St) : St :=
  mkSt (token s) (options s) (callbacks s) (voiceDataCache s) (rooms s) (ws
    s) (ready s) (connecting s) (pingInterval s) (lastPingAck s)
    (lastPingReceived s) (lastPingSent s) x (reconnectInterval s)
    (connectAttempts s) (user s) (currentRoom s) (heap s) (nextRoom s)
    (sockets s) (nextSocket s) (timers s) (nextTimer s) (rawWSListeners s)
    (trace s).
Definition set_reconnectInterval x (s : St) : St :=
  mkSt (token s) (options s) (callbacks s) (voiceDataCache s) (rooms s) (ws
    s) (ready s) (connecting s) (pingInterval s) (lastPingAck s)
    (lastPingReceived s) (lastPingSent s) (latency s) x (connectAttempts s)
    (user s) (currentRoom s) (heap s) (nextRoom s) (sockets s) (nextSocket
    s) (timers s) (nextTimer s) (rawWSListeners s) (trace s).
Definition set_connectAttempts x (s : St) : St :=
  mkSt (token s) (options s) (callbacks s) (voiceDataCache s) (rooms s) (ws
    s) (ready s) (connecting s) (pingInterval s) (lastPingAck s)
    (lastPingReceived s) (lastPingSent s) (latency s) (reconnectInterval s)
    x (user s) (currentRoom s) (heap s) (nextRoom s) (sockets s) (nextSocket
    s) (timers s) (nextTimer s) (rawWSListeners s) (trace s).
Definition set_user x (s : St) : St :=
  mkSt (token s) (options s) (callbacks s) (voiceDataCache s) (rooms s) (ws
    s) (ready s) (connecting s) (pingInterval s) (lastPingAck s)
    (lastPingReceived s) (lastPingSent s) (latency s) (reconnectInterval s)
    (connectAttempts s) x (currentRoom s) (heap s) (nextRoom s) (sockets s)
    (nextSocket s) (timers s) (nextTimer s) (rawWSListeners s) (trace s).
Definition set_currentRoom x (s : St) : St :=
  mkSt (token s) (options s) (callbacks s) (voiceDataCache s) (rooms s) (ws
    s) (ready s) (connecting s) (pingInterval s) (lastPingAck s)
    (lastPingReceived s) (lastPingSent s) (latency s) (reconnectInterval s)
    (connectAttempts s) (user s) x (heap s) (nextRoom s) (sockets s)
    (nextSocket s) (timers s) (nextTimer s) (rawWSListeners s) (trace s).
Definition set_heap x (s : St) : St :=
  mkSt (token s) (options s) (callbacks s) (voiceDataCache s) (rooms s) (ws
    s) (ready s) (connecting s) (pingInterval s) (lastPingAck s)
    (lastPingReceived s) (lastPingSent s) (latency s) (reconnectInterval s)
    (connectAttempts s) (user s) (currentRoom s) x (nextRoom s) (sockets s)
    (nextSocket s) (timers s) (nextTimer s) (rawWSListeners s) (trace s).
Definition set_nextRoom x (s : St) : St :=
  mkSt (token s) (options s) (callbacks s) (voiceDataCache s) (rooms s) (ws
    s) (ready s) (connecting s) (pingInterval s) (lastPingAck s)
    (lastPingReceived s) (lastPingSent s) (latency s) (reconnectInterval s)
    (connectAttempts s) (user s) (currentRoom s) (heap s) x (sockets s)
    (nextSocket s) (timers s) (nextTimer s) (rawWSListeners s) (trace s).
Definition set_sockets x (s : St) : St :=
  mkSt (token s) (options s) (callbacks s) (voiceDataCache s) (rooms s) (ws
    s) (ready s) (connecting s) (pingInterval s) (lastPingAck s)
    (lastPingReceived s) (lastPingSent s) (latency s) (reconnectInterval s)
    (connectAttempts s) (user s) (currentRoom s) (heap s) (nextRoom s) x
    (nextSocket s) (timers s) (nextTimer s) (rawWSListeners s) (trace s).
Definition set_nextSocket x (s : St) : St :=
  mkSt (token s) (options s) (callbacks s) (voiceDataCache s) (rooms s) (ws
    s) (ready s) (connecting s) (pingInterval s) (lastPingAck s)
    (lastPingReceived s) (lastPingSent s) (latency s) (reconnectInterval s)
    (connectAttempts s) (user s) (currentRoom s) (heap s) (nextRoom s)
    (sockets s) x (timers s) (nextTimer s) (rawWSListeners s) (trace s).
Definition set_timers x (s : St) : St :=
  mkSt (token s) (options s) (callbacks s) (voiceDataCache s) (rooms s) (ws
    s) (ready s) (connecting s) (pingInterval s) (lastPingAck s)
    (lastPingReceived s) (lastPingSent s) (latency s) (reconnectInterval s)
    (connectAttempts s) (user s) (currentRoom s) (heap s) (nextRoom s)
    (sockets s) (nextSocket s) x (nextTimer s) (rawWSListeners s) (trace s).
Definition set_nextTimer x (s : St) : St :=
  mkSt (token s) (options s) (callbacks s) (voiceDataCache s) (rooms s) (ws
    s) (ready s) (connecting s) (pingInterval s) (lastPingAck s)
    (lastPingReceived s) (lastPingSent s) (latency s) (reconnectInterval s)
    (connectAttempts s) (user s) (currentRoom s) (heap s) (nextRoom s)
    (sockets s) (nextSocket s) (timers s) x (rawWSListeners s) (trace s).
Definition set_rawWSListeners x (s : St) : St :=
  mkSt (token s) (options s) (callbacks s) (voiceDataCache s) (rooms s) (ws
    s) (ready s) (connecting s) (pingInterval s) (lastPingAck s)
    (lastPingReceived s) (lastPingSent s) (latency s) (reconnectInterval s)
    (connectAttempts s) (user s) (currentRoom s) (heap s) (nextRoom s)
    (sockets s) (nextSocket s) (timers s) (nextTimer s) x (trace s).
Definition set_trace x (s : St) : St :=
  mkSt (token s) (options s) (callbacks s) (voiceDataCache s) (rooms s) (ws
    s) (ready s) (connecting s) (pingInterval s) (lastPingAck s)
    (lastPingReceived s) (lastPingSent s) (latency s) (reconnectInterval s)
    (connectAttempts s) (user s) (currentRoom s) (heap s) (nextRoom s)
    (sockets s) (nextSocket s) (timers s) (nextTimer s) (rawWSListeners s) x.

(** ** The monad of handlers *)

(** A handler runs on the state and either returns or throws; what it
    did to the state before throwing stays done. *)
Inductive Res (A : Type) :=
| Ret (a : A) (s : St)
| Throw (exn : value) (s : St).
Arguments Ret {A} a s.
Arguments Throw {A} exn s.

Definition M (A : Type) : Type := St -> Res A.

Definition ret {A} (a : A) : M A := fun s => Ret a s.

Definition bind {A B} (m : M A) (k : A -> M B) : M B :=
  fun s => match m s with
           | Ret a s' => k a s'
           | Throw exn s' => Throw exn s'
           end.

Definition throw {A} (exn : value) : M A := fun s => Throw exn s.

(** [try { m } catch (err) { h err }] *)
Definition try_catch {A} (m : M A) (h : value -> M A) : M A :=
  fun s => match m s with
           | Ret a s' => Ret a s'
           | Throw exn s' => h exn s'
           end.

Definition gets {A} (f : St -> A) : M A := fun s => Ret (f s) s.
Definition modify (f : St -> St) : M unit := fun s => Ret tt (f s).

Notation "x <- m ;; k" := (bind m (fun x => k))
  (at level 100, m at next level, right associativity).
Notation "m ;; k" := (bind m (fun _ => k))
  (at level 100, right associativity).

Definition state_of {A} (r : Res A) : St :=
  match r with
  | Ret _ s => s
  | Throw _ s => s
  end.

Definition thrown {A} (r : Res A) : option value :=
  match r with
  | Ret _ _ => None
  | Throw exn _ => Some exn
  end.

Definition when (b : bool) (m : M unit) : M unit :=
  if b then m else ret tt.

(** A property read that may raise. *)
Definition read (v : value) (k : string) : M value :=
  match prop v k with
  | inl x => ret x
  | inr exn => throw exn
  end.

Fixpoint forEach {A} (l : list A) (f : A -> M unit) : M unit :=
  match l with
  | [] => ret tt
  | x :: rest => f x ;; forEach rest f
  end.

Definition log (eff : Effect) : M unit :=
  modify (fun s => set_trace (trace s ++ [eff]) s).

(** [this.emit(event, ...args)].  A listener is what observes the event;
    the model records the emission, and takes the client to have an
    [error] listener (the events library raises an [error] event that
    nobody listens to). *)
Definition emit (event : string) (args : list Arg) : M unit :=
  log (Emit event args).

(** *** Timers *)

Definition arm (t : Timer) : M nat :=
  fun s =>
    let h := nextTimer s in
    Ret h (set_nextTimer (S h) (set_timers (<[h := t]> (timers s)) s)).

Definition setTimeout (a : TimerAction) (ms : Z) : M nat := arm (mkTimer a ms false).
Definition setInterval (a : TimerAction) (ms : Z) : M nat := arm (mkTimer a ms true).

(** [clearTimeout(h)] and [clearInterval(h)] *)
Definition clearTimeout (h : nat) : M unit :=
  modify (fun s => set_timers (delete h (timers s)) s).

(** *** What the environment supplies to one run of a handler *)

(** The clock, the random generator, the uuid generator and the socket
    library are outside the client.  A handler reads each of them at most
    once: [Date_now] is the result of [Date.now()], [Math_random] the
    result of [Math.random()], a rational in [0,1), [uuid] the result of
    [uuid()], and [close_raises] the exception [ws.close] raises, if any.
    Arithmetic on the interval is exact. *)
Record Ambient := mkAmbient {
  Date_now : Z;
  Math_random : Q;
  uuid : string;
  close_raises : option value
}.

(** [Math.round]: the nearest integer, ties towards +infinity. *)
Definition Math_round (x : Q) : Z := Qfloor (x + (1 # 2)).

(** ** The connection manager *)

Definition reset : M unit :=
  modify (fun s =>
    set_latency Infinity
      (set_lastPingSent None
         (set_lastPingReceived None
            (set_callbacks ∅
               (set_voiceDataCache emptyCache
                  (set_lastPingAck true
                     (set_ready false
                        (set_connecting false s)))))))).

Definition hardReset : M unit :=
  reset ;;
  modify (fun s =>
    set_pingInterval None
      (set_ws None
         (set_connectAttempts 0
            (set_reconnectInterval 1000 s)))).

(** [this.ws.readyState], for a socket the client holds; every socket the
    client created is in the store. *)
Definition readyState (socks : gmap nat ReadyState) (sock : nat) : ReadyState :=
  default CLOSED (socks !! sock).

(** [new WebSocket(url)] *)
Definition WebSocket_new (url : string) : M nat :=
  fun s =>
    let sock := nextSocket s in
    Ret sock
      (set_trace (trace s ++ [NewSocket sock url])
         (set_nextSocket (S sock)
            (set_sockets (<[sock := CONNECTING]> (sockets s)) s))).

(** [initWS]: open a socket and keep it in [this.ws].  The four listeners
    it attaches are [on_open], [on_message], [on_error] and [on_close]
    below; they act on [this], whichever socket calls them. *)
Definition initWS : M unit :=
  url <- gets (fun s => socketUrl (options s)) ;;
  sock <- WebSocket_new url ;;
  modify (set_ws (Some sock)).

Definition str_truthy (r : option string) : option string :=
  match r with
  | Some x => if String.eqb x "" then None else Some x
  | None => None
  end.

(** [sendWS(op, data, ref)]: envelope A.  Returns the correlation id, or
    nothing ([undefined]) when no open socket is held. *)
Definition sendWS (amb : Ambient) (op : Request) (data : value) (ref : option string)
  : M (option string) :=
  held <- gets ws ;;
  socks <- gets sockets ;;
  match held with
  | Some sock =>
      if ReadyState_eqb (readyState socks sock) OPEN then
        let ref := default (uuid amb) (str_truthy ref) in
        let data := EnvelopeA op data "0.2.0" ref in
        log (Send sock data) ;;
        emit "debug" [AFrame data] ;;
        ret (Some ref)
      else ret None
  | None => ret None
  end.

(** [sendWSLegacy(op, data, ref)]: envelope B. *)
Definition sendWSLegacy (amb : Ambient) (op : Request) (data : value) (ref : option string)
  : M (option string) :=
  held <- gets ws ;;
  socks <- gets sockets ;;
  match held with
  | Some sock =>
      if ReadyState_eqb (readyState socks sock) OPEN then
        let ref := default (uuid amb) (str_truthy ref) in
        let data := EnvelopeB op data ref in
        log (Send sock data) ;;
        emit "debug" [AFrame data] ;;
        ret (Some ref)
      else ret None
  | None => ret None
  end.

Definition auth (amb : Ambient) : M unit :=
  t <- gets token ;;
  let auth := VObj [("accessToken", accessToken t);
                    ("refreshToken", refreshToken t);
                    ("deafened", VBool false);
                    ("muted", VBool false);
                    ("reconnectToVoice", VBool false)] in
  sendWS amb AUTH auth None ;;
  ret tt.

(** ** The pending-request table *)

(** [this.callbacks[ref]]: a correlation id names a property of the
    table; [undefined], which [sendWS] returns without an open socket,
    names the property ["undefined"].  The table is an array used as a
    map: ids that name a member of arrays ([length], [push], ...) are
    outside the model. *)
Definition key_of (ref : option string) : string := default "undefined" ref.

(** [waitForRef(ref, callback, errCallback)] *)
Definition waitForRef (ref : option string) (callback errCallback : Cont) : M unit :=
  let k := key_of ref in
  modify (fun s =>
    match callbacks s !! k with
    | None => set_callbacks (<[k := []]> (callbacks s)) s
    | Some _ => s
    end) ;;
  ms <- gets (fun s => callbackTimeout (options s)) ;;
  h <- setTimeout (ReplyTimeout errCallback) ms ;;
  modify (fun s =>
    set_callbacks
      (<[k := default [] (callbacks s !! k) ++ [mkRegistration callback errCallback h]]>
         (callbacks s)) s).

(** The entries [this.callbacks.forEach] visits: [this.callbacks] is an
    array, and [forEach] visits its index properties only.  The visits
    cancel timers, so their order does not matter.  A timer handle is an
    object, so the test [if (callback[2])] holds for every entry. *)
Definition indexed_registrations (cbs : gmap string (list Registration))
  : list Registration :=
  concat (map snd (filter (fun kv => is_array_index (fst kv) = true) (map_to_list cbs))).

(** ** Disconnect *)

(** [ws.close(arg)]: the socket, unless closed, starts its closing
    handshake; the call may raise. *)
Definition closing (sock : nat) (socks : gmap nat ReadyState) : gmap nat ReadyState :=
  match socks !! sock with
  | Some CLOSED | None => socks
  | Some _ => <[sock := CLOSING]> socks
  end.

Definition WebSocket_close (amb : Ambient) (sock : nat) (arg : value) : M unit :=
  log (Close sock arg) ;;
  modify (fun s => set_sockets (closing sock (sockets s)) s) ;;
  match close_raises amb with
  | Some exn => throw exn
  | None => ret tt
  end.

(** [error || null] *)
Definition or_null (v : value) : value := if truthy v then v else VNull.

Definition grow (interval : Z) (random : Q) : Z :=
  Z.min (Math_round (inject_Z interval * (random * 2 + 1))%Q) 60000.

(** [disconnect(options, error)], with [reconnect] the field
    [options.reconnect]. *)
Definition disconnect (amb : Ambient) (reconnect : value) (error : value) : M unit :=
  ws0 <- gets ws ;;
  modify (set_ws None) ;;
  modify (fun s => set_ready false (set_connecting false s)) ;;
  pi <- gets pingInterval ;;
  match pi with Some h => clearTimeout h | None => ret tt end ;;
  cbs <- gets callbacks ;;
  forEach (indexed_registrations cbs) (fun cb => clearTimeout (timer cb)) ;;
  match ws0 with
  | Some sock =>
      try_catch (WebSocket_close amb sock reconnect)
        (fun err => emit "error" [AVal err]) ;;
      emit "disconnect" [AVal (or_null error)]
  | None => ret tt
  end ;;
  reset ;;
  auto <- gets (fun s => autoReconnect (options s)) ;;
  if strict_eq reconnect (VStr "auto") && auto then
    interval <- gets reconnectInterval ;;
    attempts <- gets connectAttempts ;;
    emit "debug"
      [AVal (VStr ("Queueing reconnect in " +:+ pretty interval
                   +:+ "ms | Attempt " +:+ pretty attempts))] ;;
    setTimeout Reconnect interval ;;
    modify (set_reconnectInterval (grow interval (Math_random amb)))
  else if negb (truthy reconnect) then hardReset
  else ret tt.

(** ** Connect *)

(** [connect()].  With a raw API key the socket is opened by
    [bootstrap_end], when the HTTP exchange completes. *)
Definition connect : M unit :=
  held <- gets ws ;;
  socks <- gets sockets ;;
  when (match held with
        | Some sock => negb (ReadyState_eqb (readyState socks sock) CLOSED)
        | None => false
        end)
    (emit "error" [AVal (JsError "Existing connection detected")]) ;;
  modify (fun s => set_connectAttempts (connectAttempts s + 1) s) ;;
  modify (set_connecting true) ;;
  key <- gets (fun s => apiKey (token s)) ;;
  match str_truthy key with
  | Some key => log (HttpPost "api.dogehouse.tv" "/bot/auth" key)
  | None => initWS
  end ;;
  ms <- gets (fun s => connectionTimeout (options s)) ;;
  setTimeout ConnectionTimeout ms ;;
  ret tt.

(** The message of [new Error(v)], for a string [v]. *)
Definition message_of (v : value) : string :=
  match v with
  | VStr m => m
  | _ => ""
  end.

(** The listener of the end of the HTTP response: [str] is the body and
    [parsed] the result of [JSON.parse(str)], or nothing when it raises
    (the parser is outside the model: the caller supplies both). *)
Definition bootstrap_end (str : string) (parsed : option value) : M unit :=
  try_catch
    (response <- match parsed with
                 | Some v => ret v
                 | None => throw (VErr KSyntaxError "")
                 end ;;
     err <- read response "error" ;;
     (if truthy err then throw (JsError (message_of err)) else ret tt) ;;
     access <- read response "accessToken" ;;
     modify (fun s => set_token (mkToken (apiKey (token s)) access (refreshToken (token s))) s) ;;
     refresh <- read response "refreshToken" ;;
     modify (fun s => set_token (mkToken (apiKey (token s)) (accessToken (token s)) refresh) s) ;;
     initWS)
    (fun _ => throw (JsError ("Failed to get bot token: " +:+ str))).

(** The callback of the timer armed by [connect]. *)
Definition connection_timeout (amb : Ambient) : M unit :=
  c <- gets connecting ;;
  when c (disconnect amb (VStr "auto") (JsError "Connection timeout")).

(** ** The packet dispatcher *)

Definition with_users (us : Collection ActiveUser) (a : ActiveRoom) : ActiveRoom :=
  mkActiveRoom (ar_id a) (creatorId a) us (selfUser a) (audioConnection a).

Definition with_selfUser (u : ActiveUser) (a : ActiveRoom) : ActiveRoom :=
  mkActiveRoom (ar_id a) (creatorId a) (users a) u (audioConnection a).

Definition with_creatorId (v : value) (entry : RoomEntry) : RoomEntry :=
  match entry with
  | PlainRoom r => PlainRoom (mkRoom (room_id r) v)
  | Active a =>
      Active (mkActiveRoom (ar_id a) v (users a) (selfUser a) (audioConnection a))
  end.

Definition with_voiceState (vs : VoiceState) (u : ActiveUser) : ActiveUser :=
  mkActiveUser (user_id u) vs (roomPermissions u) (handRaised u).

Definition with_roomPermissions (rp : RoomPermissions) (u : ActiveUser) : ActiveUser :=
  mkActiveUser (user_id u) (voiceState u) rp (handRaised u).

Definition with_handRaised (v : value) (u : ActiveUser) : ActiveUser :=
  mkActiveUser (user_id u) (voiceState u) (roomPermissions u) v.

Definition with_muted (v : value) (vs : VoiceState) : VoiceState :=
  mkVoiceState v (deafened vs) (speaking vs) (vs_handRaised vs).

Definition with_deafened (v : value) (vs : VoiceState) : VoiceState :=
  mkVoiceState (muted vs) v (speaking vs) (vs_handRaised vs).

Definition with_isSpeaker (v : value) (rp : RoomPermissions) : RoomPermissions :=
  mkRoomPermissions v (isMod rp) (isCreator rp) (askedToSpeak rp).

Definition with_isMod (v : value) (rp : RoomPermissions) : RoomPermissions :=
  mkRoomPermissions (isSpeaker rp) v (isCreator rp) (askedToSpeak rp).

Definition with_askedToSpeak (v : value) (rp : RoomPermissions) : RoomPermissions :=
  mkRoomPermissions (isSpeaker rp) (isMod rp) (isCreator rp) v.

(** [this.rooms.get(id)]: the room object, by its place in the heap. *)
Definition rooms_get (s : St) (id : value) : option (nat * RoomEntry) :=
  r ← Collection_get (rooms s) id;
  entry ← heap s !! r;
  Some (r, entry).

(** [this.rooms.get(packet.d.roomId)] *)
Definition the_room (pk : packet.t) : M (option (nat * RoomEntry)) :=
  rid <- read (packet.d pk) "roomId" ;;
  gets (fun s => rooms_get s rid).

(** [room.users.get(id)]: the user and its key, or nothing ([undefined]). *)
Definition users_get (a : ActiveRoom) (id : value) : option (string * ActiveUser) :=
  match id with
  | VStr k => u ← users a !! k; Some (k, u)
  | _ => None
  end.

(** A plain Room has no [users], [selfUser] or [_updateVoiceStates]:
    reaching through them raises a TypeError. *)
Definition active (entry : RoomEntry) : M ActiveRoom :=
  match entry with
  | Active a => ret a
  | PlainRoom _ => throw JsTypeError
  end.

(** Reaching through [undefined] raises a TypeError. *)
Definition defined {A} (o : option A) : M A :=
  match o with
  | Some x => ret x
  | None => throw JsTypeError
  end.

Definition put_room (r : nat) (entry : RoomEntry) : M unit :=
  modify (fun s => set_heap (<[r := entry]> (heap s)) s).

(** [this.rooms.add(room)] *)
Definition rooms_add (a : ActiveRoom) : M nat :=
  fun s =>
    let r := nextRoom s in
    Ret r (set_nextRoom (S r)
             (set_heap (<[r := Active a]> (heap s))
                (set_rooms (<[ar_id a := r]> (rooms s)) s))).

(** Modelled from the spec: [lib/core/User.js] is not part of the sources.
    A User is a plain data container; [this.user] keeps the payload it is
    built from, and [this.user.id] is its [id]. *)
Definition self_id : M value :=
  u <- gets user ;;
  match u with
  | Some data => ret (match prop data "id" with inl v => v | inr _ => VUndef end)
  | None => throw JsTypeError
  end.

(** [id == this.user.id], both ids being strings on the wire; a self id
    that is not a string is taken to differ from every user id. *)
Definition loose_eq_id (id : string) (v : value) : bool :=
  match v with
  | VStr x => String.eqb id x
  | _ => false
  end.

Definition update_cache (field : string)
    (set : value -> VoiceDataCache -> VoiceDataCache) (pk : packet.t) : M unit :=
  v <- read (packet.d pk) field ;;
  when (truthy v) (modify (fun s => set_voiceDataCache (set v (voiceDataCache s)) s)).

Definition set_recv (v : value) (c : VoiceDataCache) : VoiceDataCache :=
  mkVoiceDataCache v (sendTransportOptions c) (routerRtpCapabilities c).
Definition set_send (v : value) (c : VoiceDataCache) : VoiceDataCache :=
  mkVoiceDataCache (recvTransportOptions c) v (routerRtpCapabilities c).
Definition set_router (v : value) (c : VoiceDataCache) : VoiceDataCache :=
  mkVoiceDataCache (recvTransportOptions c) (sendTransportOptions c) v.

(** How a case of the switch ends: [break] goes on to the resolution of
    pending requests, [return] leaves [wsEvent]. *)
Inductive Completion := Break | Return.

(** [if (room.audioConnection && user.id == this.user.id)
       room.audioConnection.disconnect()] *)
Definition drop_audio (a : ActiveRoom) (uid : M string) : M unit :=
  if audioConnection a then
    id <- uid ;;
    me <- self_id ;;
    when (loose_eq_id id me) (log (AudioDisconnect (ar_id a)))
  else ret tt.

Definition user_arg (u : option (string * ActiveUser)) : Arg :=
  match u with
  | Some (_, u) => AUser (user_id u)
  | None => AVal VUndef
  end.

(** Data from which the absent constructors build no entity makes the
    handler raise. *)
Definition construct {A} (o : option A) : M A := defined o.

(** The heartbeat: [setInterval(..., this.options.pingInterval)]. *)
Definition start_heartbeat : M unit :=
  pi <- gets pingInterval ;;
  match pi with Some h => clearTimeout h | None => ret tt end ;;
  ms <- gets (fun s => opt_pingInterval (options s)) ;;
  h <- setInterval Heartbeat ms ;;
  modify (set_pingInterval (Some h)).

(** The switch of [wsEvent], case by case in the order of the source. *)
Definition wsEvent_switch (pk : packet.t) : M Completion :=
  match packet.op pk with
  | AUTH_REPLY =>
      modify (set_connectAttempts 0) ;;
      modify (set_reconnectInterval 1000) ;;
      modify (set_connecting false) ;;
      modify (set_ready true) ;;
      modify (set_user (Some (packet.p pk))) ;;
      modify (set_lastPingAck true) ;;
      start_heartbeat ;;
      emit "ready" [AVal (packet.p pk)] ;;
      ret Break
  | NEW_TOKENS =>
      access <- read (packet.d pk) "accessToken" ;;
      refresh <- read (packet.d pk) "refreshToken" ;;
      when (truthy access && truthy refresh)
        (modify (fun s => set_token (mkToken (apiKey (token s)) access refresh) s)) ;;
      emit "newTokens" [AVal (packet.d pk)] ;;
      ret Break
  | FETCH_DONE =>
      room <- read (packet.d pk) "room" ;;
      speakers <- (if truthy room then read (packet.d pk) "activeSpeakerMap" else ret VUndef) ;;
      if truthy room && truthy speakers then
        a <- construct (ActiveRoom_new (packet.d pk)) ;;
        rooms_add a ;;
        emit "joinedRoom" [ARoom (ar_id a)] ;;
        ret Break
      else ret Break
  | USER_JOIN_ROOM =>
      room <- the_room pk ;;
      match room with
      | Some (r, entry) =>
          a <- active entry ;;
          data <- read (packet.d pk) "user" ;;
          u <- construct (ActiveUser_new data) ;;
          let a := with_users (<[user_id u := u]> (users a)) a in
          put_room r (Active a) ;;
          put_room r (Active (fst (_updateVoiceStates a (packet.voiceStates pk)))) ;;
          emit "userJoinRoom" [AUser (user_id u); ARoom (ar_id a)] ;;
          ret Break
      | None => ret Break
      end
  | USER_LEFT_ROOM =>
      room <- the_room pk ;;
      match room with
      | Some (r, entry) =>
          a <- active entry ;;
          uid <- read (packet.d pk) "userId" ;;
          let user := users_get a uid in
          put_room r (Active (match user with
                              | Some (k, _) => with_users (delete k (users a)) a
                              | None => a
                              end)) ;;
          emit "userLeftRoom" [user_arg user; ARoom (ar_id a)] ;;
          ret Break
      | None => ret Break
      end
  | ACTIVE_SPEAKER_CHANGE =>
      room <- the_room pk ;;
      match room with
      | Some (r, entry) =>
          a <- active entry ;;
          let '(a', updates) := _updateVoiceStates a (packet.voiceStates pk) in
          put_room r (Active a') ;;
          forEach (updatedSpeaking updates)
            (fun u => emit "activeSpeakerChange" [AUser u; ARoom (ar_id a)]) ;;
          forEach (updatedMuted updates)
            (fun u => emit "muteChange" [AUser u; ARoom (ar_id a)]) ;;
          forEach (updatedDeafened updates)
            (fun u => emit "deafenChange" [AUser u; ARoom (ar_id a)]) ;;
          ret Break
      | None => ret Break
      end
  | MUTE_CHANGED =>
      room <- the_room pk ;;
      match room with
      | Some (r, entry) =>
          a <- active entry ;;
          uid <- read (packet.d pk) "userId" ;;
          let user := users_get a uid in
          ku <- defined user ;;
          let '(k, u) := ku in
          v <- read (packet.d pk) "value" ;;
          let u := with_voiceState (with_muted v (voiceState u)) u in
          put_room r (Active (with_users (<[k := u]> (users a)) a)) ;;
          emit "muteChange" [AUser (user_id u); ARoom (ar_id a)] ;;
          ret Break
      | None => ret Break
      end
  | DEAFEN_CHANGED =>
      room <- the_room pk ;;
      match room with
      | Some (r, entry) =>
          a <- active entry ;;
          uid <- read (packet.d pk) "userId" ;;
          let user := users_get a uid in
          ku <- defined user ;;
          let '(k, u) := ku in
          v <- read (packet.d pk) "value" ;;
          let u := with_voiceState (with_deafened v (voiceState u)) u in
          put_room r (Active (with_users (<[k := u]> (users a)) a)) ;;
          emit "deafenChange" [AUser (user_id u); ARoom (ar_id a)] ;;
          ret Break
      | None => ret Break
      end
  | NEW_CHAT_MSG =>
      msg <- read (packet.d pk) "msg" ;;
      emit "newChatMsg" [AVal msg] ;;
      ret Break
  | MSG_DELETED =>
      messageId <- read (packet.d pk) "messageId" ;;
      current <- gets (fun s => r ← currentRoom s; heap s !! r) ;;
      entry <- defined current ;;
      a <- active entry ;;
      deleterId <- read (packet.d pk) "deleterId" ;;
      emit "msgDeleted" [AVal messageId; user_arg (users_get a deleterId)] ;;
      ret Break
  | JOINED_PEER =>
      room <- the_room pk ;;
      match room with
      | Some (r, entry) =>
          update_cache "recvTransportOptions" set_recv pk ;;
          update_cache "routerRtpCapabilities" set_router pk ;;
          cache <- gets voiceDataCache ;;
          emit "joinedAsPeer" [ARoom (entry_id entry); ACache cache] ;;
          ret Break
      | None => ret Break
      end
  | JOINED_SPEAKER =>
      room <- the_room pk ;;
      match room with
      | Some (r, entry) =>
          update_cache "recvTransportOptions" set_recv pk ;;
          update_cache "sendTransportOptions" set_send pk ;;
          update_cache "routerRtpCapabilities" set_router pk ;;
          cache <- gets voiceDataCache ;;
          emit "joinedAsSpeaker" [ARoom (entry_id entry); ACache cache] ;;
          ret Break
      | None => ret Break
      end
  | NOW_SPEAKER =>
      room <- the_room pk ;;
      match room with
      | Some (r, entry) =>
          update_cache "sendTransportOptions" set_send pk ;;
          a <- active entry ;;
          let me := selfUser a in
          put_room r (Active (with_selfUser
            (with_roomPermissions (with_isSpeaker (VBool true) (roomPermissions me)) me) a)) ;;
          cache <- gets voiceDataCache ;;
          emit "becameSpeaker" [ARoom (ar_id a); ACache cache] ;;
          ret Break
      | None => ret Break
      end
  | HAND_RAISED =>
      room <- the_room pk ;;
      match room with
      | Some (r, entry) =>
          a <- active entry ;;
          uid <- read (packet.d pk) "userId" ;;
          ku <- defined (users_get a uid) ;;
          let '(k, u) := ku in
          let u := with_handRaised (VBool true) u in
          let u := with_roomPermissions (with_askedToSpeak (VBool true) (roomPermissions u)) u in
          let a := with_users (<[k := u]> (users a)) a in
          put_room r (Active a) ;;
          put_room r (Active (fst (_updateVoiceStates a (packet.voiceStates pk)))) ;;
          emit "handRaised" [AUser (user_id u); ARoom (ar_id a)] ;;
          ret Break
      | None => ret Break
      end
  | SPEAKER_ADDED =>
      room <- the_room pk ;;
      match room with
      | Some (r, entry) =>
          a <- active entry ;;
          uid <- read (packet.d pk) "userId" ;;
          ku <- defined (users_get a uid) ;;
          let '(k, u) := ku in
          let u := with_roomPermissions (with_isSpeaker (VBool true) (roomPermissions u)) u in
          let a := with_users (<[k := u]> (users a)) a in
          put_room r (Active a) ;;
          put_room r (Active (fst (_updateVoiceStates a (packet.voiceStates pk)))) ;;
          emit "speakerAdded" [AUser (user_id u); ARoom (ar_id a)] ;;
          ret Break
      | None => ret Break
      end
  | SPEAKER_REMOVED =>
      room <- the_room pk ;;
      match room with
      | Some (r, entry) =>
          a <- active entry ;;
          uid <- read (packet.d pk) "userId" ;;
          ku <- defined (users_get a uid) ;;
          let '(k, u) := ku in
          let u := with_roomPermissions (with_isSpeaker (VBool false) (roomPermissions u)) u in
          let a := with_users (<[k := u]> (users a)) a in
          put_room r (Active a) ;;
          put_room r (Active (fst (_updateVoiceStates a (packet.voiceStates pk)))) ;;
          drop_audio a (ret (user_id u)) ;;
          emit "speakerRemoved" [AUser (user_id u); ARoom (ar_id a)] ;;
          ret Break
      | None => ret Break
      end
  | LEFT_ROOM =>
      room <- the_room pk ;;
      match room with
      | Some (r, entry) =>
          a <- active entry ;;
          uid <- read (packet.d pk) "userId" ;;
          let user := users_get a uid in
          drop_audio a (xu <- defined user ;;
          let '(_, u) := xu in ret (user_id u)) ;;
          kicked <- read (packet.d pk) "kicked" ;;
          emit "leftRoom" [ARoom (ar_id a); AVal (VBool (truthy kicked))] ;;
          ret Break
      | None => ret Break
      end
  | MOD_CHANGED =>
      room <- the_room pk ;;
      match room with
      | Some (r, entry) =>
          a <- active entry ;;
          uid <- read (packet.d pk) "userId" ;;
          ku <- defined (users_get a uid) ;;
          let '(k, u) := ku in
          v <- read (packet.d pk) "isMod" ;;
          if strict_eq (isMod (roomPermissions u)) v then ret Return
          else
            let u := with_roomPermissions (with_isMod v (roomPermissions u)) u in
            put_room r (Active (with_users (<[k := u]> (users a)) a)) ;;
            emit "modChange" [AUser (user_id u); ARoom (ar_id a)] ;;
            ret Break
      | None => ret Break
      end
  | NEW_CREATOR =>
      room <- the_room pk ;;
      rentry <- defined room ;;
          let '(r, entry) := rentry in
      uid <- read (packet.d pk) "userId" ;;
      put_room r (with_creatorId uid entry) ;;
      ret Break
  | Other op =>
      match op with
      | VStr name =>
          if startsWith "@" name then
            emit name [AVal (packet.d pk)] ;; ret Break
          else
            verbose <- gets (fun s => logUnhandledPackets (options s)) ;;
            when verbose (log (ConsoleLog pk)) ;;
            ret Break
      | _ => throw JsTypeError
      end
  end.

(** The resolution of the pending requests of one correlation id:
    [if (id && this.callbacks[id]) { ... }], with [err] the field [e] of
    the packet and [ok] its payload. *)
Definition resolve (id : option string) (err ok : value) : M unit :=
  match str_truthy id with
  | Some k =>
      fs <- gets (fun s => callbacks s !! k) ;;
      match fs with
      | Some fs =>
          when (truthy err) (forEach fs (fun f => log (Call (errCallback f) err))) ;;
          when (truthy ok) (forEach fs (fun f => log (Call (callback f) ok))) ;;
          forEach fs (fun f => clearTimeout (timer f))
      | None => ret tt
      end
  | None => ret tt
  end.

(** [wsEvent(packet)] *)
Definition wsEvent (pk : packet.t) : M unit :=
  c <- wsEvent_switch pk ;;
  match c with
  | Return => ret tt
  | Break =>
      resolve (packet.ref pk) (packet.e pk) (packet.p pk) ;;
      resolve (packet.fetchId pk) (packet.e pk) (packet.d pk)
  end.

(** ** Listeners and timers *)

(** The listener of the socket's [open] event. *)
Definition on_open (amb : Ambient) : M unit := auth amb.

(** The listener of the socket's [message] event. *)
Definition on_message (amb : Ambient) (m : Message) : M unit :=
  match m with
  | Pong =>
      modify (set_lastPingAck true) ;;
      modify (set_lastPingReceived (Some (Date_now amb))) ;;
      modify (fun s => set_latency (Millis (Date_now amb - default 0 (lastPingSent s))) s)
  | Malformed => throw (VErr KSyntaxError "")
  | Frame pk =>
      n <- gets rawWSListeners ;;
      when (0 <? n)%nat (emit "rawWS" [APacket pk]) ;;
      wsEvent pk
  end.

(** The listener of the socket's [error] event; [msg] is a string when
    present. *)
Definition on_error (amb : Ambient) (err : value) (msg : option string) : M unit :=
  match str_truthy msg with
  | Some m => emit "debug" [AVal (VStr ("WS error: " +:+ m))]
  | None => ret tt
  end ;;
  disconnect amb (VStr "auto") err.

(** The listener of the socket's [close] event. *)
Definition on_close (amb : Ambient) (code : Z) (err : value) : M unit :=
  err <- (if negb (code =? 0) then
            emit "warn" [AVal (VStr ("WS close: " +:+ pretty code))] ;;
            ret (if code =? 4001 then JsError "Invalid authentication."
                 else if code =? 4003 then
                   JsError "WebSocket was killed by the server. This usually happens when you open the website in another tab."
                 else if code =? 1006 then JsError "Connection timeout. (Ping or network)"
                 else err)
          else ret err) ;;
  held <- gets ws ;;
  disconnect amb (match held with Some _ => VStr "auto" | None => VBool true end) err.

(** The callback of the ping interval armed by AUTH_REPLY. *)
Definition heartbeat (amb : Ambient) : M unit :=
  ack <- gets lastPingAck ;;
  when (negb ack)
    (disconnect amb (VStr "auto")
       (JsError "Server didn't acknowledge previous ping, possible lost connection")) ;;
  modify (set_lastPingAck false) ;;
  modify (set_lastPingSent (Some (Date_now amb))) ;;
  held <- gets ws ;;
  sock <- defined held ;;
  log (Send sock Ping).

(** A timer fires: a timeout is spent by firing, an interval stays armed.
    A handle that is not armed (cleared, or spent) runs nothing. *)
Definition fire (amb : Ambient) (h : nat) : M unit :=
  t <- gets (fun s => timers s !! h) ;;
  match t with
  | None => ret tt
  | Some t =>
      (if repeating t then ret tt else clearTimeout h) ;;
      match action t with
      | ConnectionTimeout => connection_timeout amb
      | Reconnect => connect
      | ReplyTimeout k => log (Call k (VStr "Reply timed out."))
      | Heartbeat => heartbeat amb
      end
  end.

(** ** The client in its environment *)

(** What can happen to a client: a call of its interface, or a callback
    run by the event loop.  A socket event comes with the ready state the
    socket library has given the socket by then. *)
Inductive Event :=
| CallConnect
| CallSendWS (op : Request) (data : value) (ref : option string)
| CallSendWSLegacy (op : Request) (data : value) (ref : option string)
| CallWaitForRef (ref : option string) (callback errCallback : Cont)
| CallDisconnect (reconnect : value) (error : value)
| BootstrapEnd (str : string) (parsed : option value)
| SocketOpen (sock : nat)
| SocketMessage (sock : nat) (m : Message)
| SocketError (sock : nat) (err : value) (msg : option string)
| SocketClose (sock : nat) (code : Z) (err : value)
| TimerFires (h : nat).

Definition set_readyState (sock : nat) (rs : ReadyState) : M unit :=
  modify (fun s => set_sockets (<[sock := rs]> (sockets s)) s).

Definition step (amb : Ambient) (ev : Event) : M unit :=
  match ev with
  | CallConnect => connect
  | CallSendWS op data ref => sendWS amb op data ref ;; ret tt
  | CallSendWSLegacy op data ref => sendWSLegacy amb op data ref ;; ret tt
  | CallWaitForRef ref k kerr => waitForRef ref k kerr
  | CallDisconnect reconnect error => disconnect amb reconnect error
  | BootstrapEnd str parsed => bootstrap_end str parsed
  | SocketOpen sock => set_readyState sock OPEN ;; on_open amb
  | SocketMessage sock m => on_message amb m
  | SocketError sock err msg => on_error amb err msg
  | SocketClose sock code err => set_readyState sock CLOSED ;; on_close amb code err
  | TimerFires h => fire amb h
  end.

(** A run of events; an exception that escapes a callback ends it. *)
Fixpoint run (evs : list (Ambient * Event)) : M unit :=
  match evs with
  | [] => ret tt
  | (amb, ev) :: rest => step amb ev ;; run rest
  end.

(** The client as its constructor leaves it, for a token [t] (the
    constructor raises without one) and the options after the caller's have
    been merged into the defaults. *)
Definition Moonstone_new (t : Token) (o : Options) : St :=
  mkSt t o ∅ emptyCache ∅ None false false None true None None Infinity 1000 0
    None None ∅ 0 ∅ 0 ∅ 0 0 [].

(** ** Observations on states and traces *)

(** The sockets that are not closed. *)
Definition live_sockets (s : St) : list nat :=
  (filter (fun kv => ReadyState_eqb (snd kv) CLOSED = false) (map_to_list (sockets s))).*1.

(** [this.ws && this.ws.readyState != WebSocket.CLOSED] *)
Definition existing_connection (s : St) : bool :=
  match ws s with
  | Some sock => negb (ReadyState_eqb (readyState (sockets s) sock) CLOSED)
  | None => false
  end.

(** The calls of continuations in a trace, in order. *)
Definition calls (tr : list Effect) : list (Cont * value) :=
  omap (fun eff => match eff with Call k v => Some (k, v) | _ => None end) tr.

(** The emissions in a trace, in order. *)
Definition emissions (tr : list Effect) : list (string * list Arg) :=
  omap (fun eff => match eff with Emit ev args => Some (ev, args) | _ => None end) tr.

(** How many times the continuations of a registration were called. *)
Definition firings (f : Registration) (tr : list Effect) : nat :=
  length (filter (fun kv => fst kv = callback f \/ fst kv = errCallback f) (calls tr)).

(** ** Sample clients, packets and runs *)

Module Sample.

Definition amb : Ambient := mkAmbient 5000 (1 # 2) "ref-1" None.

(** A client built from a token pair, with the default options. *)
Definition client : St :=
  Moonstone_new (mkToken None (VStr "access") (VStr "refresh")) defaultOptions.

Definition auth_reply : packet.t :=
  packet.mk AUTH_REPLY (VObj [("id", VStr "me")]) VUndef VUndef None None [].

(** Connected and authenticated: socket 0 is open, timer 0 is the
    connection-timeout check and timer 1 the heartbeat. *)
Definition connected : St :=
  state_of (run [(amb, CallConnect); (amb, SocketOpen 0);
                 (amb, SocketMessage 0 (Frame auth_reply))] client).

(** One request pending under the id [ref-1]: continuations 0 and 1,
    timer 2. *)
Definition pending1 : St :=
  state_of (run [(amb, CallSendWS TOP_ROOMS (VObj [("cursor", VNum 0)]) None);
                 (amb, CallWaitForRef (Some "ref-1") 0 1)] connected).

(** A second request pending under the same id: continuations 2 and 3,
    timer 3. *)
Definition pending2 : St :=
  state_of (run [(amb, CallWaitForRef (Some "ref-1") 2 3)] pending1).

Definition reg1 : Registration := mkRegistration 0 1 2.
Definition reg2 : Registration := mkRegistration 2 3 3.

(** A reply to [ref-1] in envelope A, with a payload and no error. *)
Definition reply : packet.t :=
  packet.mk (Other (VStr "reply")) (VObj [("rooms", VArr [])]) VUndef VUndef
    (Some "ref-1") None [].

(** The first heartbeat was sent and no pong has come back. *)
Definition awaiting : St :=
  state_of (run [(amb, TimerFires 1)] connected).

(** A packet for a room the mirror does not know. *)
Definition new_creator_nowhere : packet.t :=
  packet.mk NEW_CREATOR VUndef
    (VObj [("roomId", VStr "nowhere"); ("userId", VStr "U")]) VUndef None None [].

(** The join of room [A], and user [U] entering it. *)
Definition joined : packet.t :=
  packet.mk FETCH_DONE VUndef
    (VObj [("room", VObj [("id", VStr "A"); ("creatorId", VStr "C")]);
           ("activeSpeakerMap", VObj [])])
    VUndef None None [].

Definition user_joined : packet.t :=
  packet.mk USER_JOIN_ROOM VUndef
    (VObj [("roomId", VStr "A"); ("user", VObj [("id", VStr "U")])])
    VUndef None None [].

(** In room [A] with user [U], the request [ref-1] still pending. *)
Definition in_room : St :=
  state_of (run [(amb, SocketMessage 0 (Frame joined));
                 (amb, SocketMessage 0 (Frame user_joined))] pending1).

(** A moderator change that changes nothing ([U] is no moderator), in
    envelope B, carrying the id of the pending request. *)
Definition mod_unchanged : packet.t :=
  packet.mk MOD_CHANGED VUndef
    (VObj [("roomId", VStr "A"); ("userId", VStr "U"); ("isMod", VBool false)])
    VUndef None (Some "ref-1") [].

(** A client built from a raw API key, after [connect()]: the bootstrap
    exchange is under way and no socket exists yet. *)
Definition bootstrapping : St :=
  state_of (connect (Moonstone_new (mkToken (Some "key") VUndef VUndef) defaultOptions)).

(** The body of an error response of the bootstrap exchange,
    [{"error":"Invalid API key"}], and what it parses to. *)
Definition quote : string := String "034"%char EmptyString.

Definition error_body : string :=
  "{" +:+ quote +:+ "error" +:+ quote +:+ ":" +:+ quote +:+ "Invalid API key"
  +:+ quote +:+ "}".

Definition error_response : value := VObj [("error", VStr "Invalid API key")].

(** A delta for room [A]: [U], who is in the room and silent, is seen
    speaking; [V] is not in the room. *)
Definition speaking_delta : packet.t :=
  packet.mk ACTIVE_SPEAKER_CHANGE VUndef (VObj [("roomId", VStr "A")]) VUndef None None
    [("U", mkVoiceObs true false false); ("V", mkVoiceObs true true true)].

Definition room_A : ActiveRoom :=
  mkActiveRoom "A" (VStr "C")
    {["U" := mkActiveUser "U" defaultVoiceState defaultPermissions VUndef]}
    (mkActiveUser "" defaultVoiceState defaultPermissions VUndef) false.

End Sample.

(** Cancelling the timers of a list of registrations. *)
Definition cancel_all (fs : list Registration) (tm : gmap nat Timer) : gmap nat Timer :=
  foldl (fun tm f => delete (timer f) tm) tm fs.

(** What [disconnect] adds to the trace for the socket it held, and the
    timers it leaves armed before it queues a reconnect. *)
Definition close_effects (amb : Ambient) (held : option nat) (reconnect error : value)
  : list Effect :=
  match held with
  | Some sock =>
      [Close sock reconnect]
      ++ match close_raises amb with
         | Some exn => [Emit "error" [AVal exn]]
         | None => []
         end
      ++ [Emit "disconnect" [AVal (or_null error)]]
  | None => []
  end.

Definition timers_after_disconnect (s : St) : gmap nat Timer :=
  cancel_all (indexed_registrations (callbacks s))
    (match pingInterval s with
     | Some h => delete h (timers s)
     | None => timers s
     end).

Definition queueing (s : St) : Effect :=
  Emit "debug"
    [AVal (VStr ("Queueing reconnect in " +:+ pretty (reconnectInterval s)
                 +:+ "ms | Attempt " +:+ pretty (connectAttempts s)))].

(** The cases of the switch that look the room up and test it with
    [if (room)] before they use it. *)
Definition room_guarded (op : Op) : bool :=
  match op with
  | USER_JOIN_ROOM | USER_LEFT_ROOM | ACTIVE_SPEAKER_CHANGE | MUTE_CHANGED
  | DEAFEN_CHANGED | JOINED_PEER | JOINED_SPEAKER | NOW_SPEAKER | HAND_RAISED
  | SPEAKER_ADDED | SPEAKER_REMOVED | LEFT_ROOM | MOD_CHANGED => true
  | _ => false
  end.

(** The error the [close] listener passes on, for a close code. *)
Definition close_error (code : Z) (err : value) : value :=
  if code =? 4001 then JsError "Invalid authentication."
  else if code =? 4003 then
    JsError "WebSocket was killed by the server. This usually happens when you open the website in another tab."
  else if code =? 1006 then JsError "Connection timeout. (Ping or network)"
  else err.

Definition close_warning (code : Z) : Effect :=
  Emit "warn" [AVal (VStr ("WS close: " +:+ pretty code))].

(** The users of a delta whose flag ([speaking], [muted] or [deafened])
    differs from the one the collection holds for them, in delta order. *)
Definition changed_users (flag : VoiceState -> value) (obs : VoiceObs -> bool)
    (us : Collection ActiveUser) (delta : Delta) : list string :=
  omap (fun uo : string * VoiceObs =>
          match us !! fst uo with
          | Some u =>
              if differs (flag (voiceState u)) (obs (snd uo)) then Some (fst uo) else None
          | None => None
          end) delta.

(** The events of the ACTIVE_SPEAKER_CHANGE handler for the three lists
    of the reconciler. *)
Definition voice_events (room : string) (upd : Updates) : list (string * list Arg) :=
  map (fun u => ("activeSpeakerChange", [AUser u; ARoom room])) (updatedSpeaking upd)
  ++ map (fun u => ("muteChange", [AUser u; ARoom room])) (updatedMuted upd)
  ++ map (fun u => ("deafenChange", [AUser u; ARoom room])) (updatedDeafened upd).

(** The calls a reply makes on the registrations of its id. *)
Definition reply_calls (fs : list Registration) (err ok : value) : list Effect :=
  (if truthy err then map (fun f => Call (errCallback f) err) fs else [])
  ++ (if truthy ok then map (fun f => Call (callback f) ok) fs else []).

(** The error of a heartbeat timeout. *)
Definition missed_pong : value :=
  JsError "Server didn't acknowledge previous ping, possible lost connection".

(** The [activeSpeakerChange] events of a trace for a user of a room. *)
Definition is_speaking_event (u room : string) (e : string * list Arg) : bool :=
  match e with
  | (ev, [AUser x; ARoom y]) =>
      String.eqb ev "activeSpeakerChange" && String.eqb x u && String.eqb y room
  | _ => false
  end.

Definition speaking_events (u room : string) (tr : list Effect) : nat :=
  length (filter (fun e => is_speaking_event u room e = true) (emissions tr)).

(** The number of deltas of a sequence, applied in order to a room, in
    which the speaking flag observed for [u] differs from the value the
    mirror holds just before that delta. *)
Fixpoint speaking_changes (u : string) (a : ActiveRoom) (deltas : list Delta) : nat :=
  match deltas with
  | [] => 0
  | delta :: rest =>
      (if bool_decide (u ∈ changed_users speaking obs_speaking (users a) delta)
       then 1 else 0)%nat
      + speaking_changes u (fst (_updateVoiceStates a delta)) rest
  end.

(** ** The listeners of the [error] event *)

(** [emit] takes the client to have a listener of the [error] event.  The
    constructor attaches none, and [EventEmitter.prototype.emit] raises an
    [error] event that has no listener: the emitted value itself when it is
    an Error, and an Error of its own otherwise (its message is the
    library's and left empty). *)
Definition unhandled (err : value) : value :=
  match err with
  | VErr _ _ => err
  | _ => VErr KError ""
  end.

(** [this.emit("error", err)] on a client with [listeners] listeners of
    the [error] event. *)
Definition emit_error (listeners : nat) (err : value) : M unit :=
  match listeners with
  | O => throw (unhandled err)
  | S _ => emit "error" [AVal err]
  end.

(** The two functions of the client that emit [error], for a client with
    [listeners] listeners of the event: [connect()] ... *)
Definition connect_on (listeners : nat) : M unit :=
  held <- gets ws ;;
  socks <- gets sockets ;;
  when (match held with
        | Some sock => negb (ReadyState_eqb (readyState socks sock) CLOSED)
        | None => false
        end)
    (emit_error listeners (JsError "Existing connection detected")) ;;
  modify (fun s => set_connectAttempts (connectAttempts s + 1) s) ;;
  modify (set_connecting true) ;;
  key <- gets (fun s => apiKey (token s)) ;;
  match str_truthy key with
  | Some key => log (HttpPost "api.dogehouse.tv" "/bot/auth" key)
  | None => initWS
  end ;;
  ms <- gets (fun s => connectionTimeout (options s)) ;;
  setTimeout ConnectionTimeout ms ;;
  ret tt.

(** ... and [disconnect(options, error)]. *)
Definition disconnect_on (listeners : nat) (amb : Ambient) (reconnect : value)
    (error : value) : M unit :=
  ws0 <- gets ws ;;
  modify (set_ws None) ;;
  modify (fun s => set_ready false (set_connecting false s)) ;;
  pi <- gets pingInterval ;;
  match pi with Some h => clearTimeout h | None => ret tt end ;;
  cbs <- gets callbacks ;;
  forEach (indexed_registrations cbs) (fun cb => clearTimeout (timer cb)) ;;
  match ws0 with
  | Some sock =>
      try_catch (WebSocket_close amb sock reconnect)
        (fun err => emit_error listeners err) ;;
      emit "disconnect" [AVal (or_null error)]
  | None => ret tt
  end ;;
  reset ;;
  auto <- gets (fun s => autoReconnect (options s)) ;;
  if strict_eq reconnect (VStr "auto") && auto then
    interval <- gets reconnectInterval ;;
    attempts <- gets connectAttempts ;;
    emit "debug"
      [AVal (VStr ("Queueing reconnect in " +:+ pretty interval
                   +:+ "ms | Attempt " +:+ pretty attempts))] ;;
    setTimeout Reconnect interval ;;
    modify (set_reconnectInterval (grow interval (Math_random amb)))
  else if negb (truthy reconnect) then hardReset
  else ret tt.

(** ** Requests *)

(** The calls of the interface that send one request and wait for its
    reply have the shape
    [new Promise((resolve, reject) =>
       this.waitForRef(this.sendWS(...), (response) => { ... }, reject))].
    The executor of a promise runs at once, so the request is sent and
    registered within the call.  The closure registered for the reply adds
    the entities it builds from the response to the mirror and resolves
    the promise with them.  The model names that closure by [callback], as
    it names the rejection of the promise by [reject], and records its
    call: what it does once called is outside the model, as for every
    continuation. *)

(** [getTopRooms(cursor = 0)] *)
Definition default_cursor (cursor : value) : value :=
  match cursor with
  | VUndef => VNum 0
  | _ => cursor
  end.

Definition getTopRooms (amb : Ambient) (cursor : value) (callback reject : Cont) : M unit :=
  ref <- sendWS amb TOP_ROOMS (VObj [("cursor", default_cursor cursor)]) None ;;
  waitForRef ref callback reject.

(** [typeof room === "string" ? room : room.id || room.roomId] *)
Definition room_id_of (room : value) : value + value :=
  match room with
  | VStr _ => inl room
  | _ =>
      match prop room "id" with
      | inl id => if truthy id then inl id else prop room "roomId"
      | inr exn => inr exn
      end
  end.

(** [joinRoom(room)]: the room id is computed before the promise is
    created, so what it raises is raised by the call. *)
Definition joinRoom (amb : Ambient) (room : value) (callback reject : Cont) : M unit :=
  roomId <- match room_id_of room with
            | inl v => ret v
            | inr exn => throw exn
            end ;;
  ref <- sendWSLegacy amb JOIN_ROOM (VObj [("roomId", roomId)]) None ;;
  waitForRef ref callback reject.

(** [createRoom({ name, description = "", privacy = "public" })] *)
Definition createRoom (amb : Ambient) (options : value) (callback reject : Cont) : M unit :=
  name <- read options "name" ;;
  description <- read options "description" ;;
  privacy <- read options "privacy" ;;
  let description := match description with VUndef => VStr "" | _ => description end in
  let privacy := match privacy with VUndef => VStr "public" | _ => privacy end in
  ref <- sendWS amb CREATE_ROOM
           (VObj [("name", name); ("description", description); ("privacy", privacy)])
           None ;;
  waitForRef ref callback reject.

(** [this.ws && this.ws.readyState === WebSocket.OPEN] *)
Definition connection_open (s : St) : bool :=
  match ws s with
  | Some sock => ReadyState_eqb (readyState (sockets s) sock) OPEN
  | None => false
  end.

(** The frame [auth()] sends for a token. *)
Definition auth_frame (amb : Ambient) (t : Token) : Outbound :=
  EnvelopeA AUTH
    (VObj [("accessToken", accessToken t); ("refreshToken", refreshToken t);
           ("deafened", VBool false); ("muted", VBool false);
           ("reconnectToVoice", VBool false)])
    "0.2.0" (uuid amb).

(** ** Frames and invariants *)

(** A handler preserves [P] when it leaves [P] true, however it ends. *)
Definition preserves {A} (P : St -> Prop) (m : M A) : Prop :=
  forall s, P s -> P (state_of (m s)).

(** The fields of the session: everything but the tokens, the mirror, the
    voice transport cache and the trace. *)
Definition session_fields (s : St) :=
  (options s, callbacks s, ws s, ready s, connecting s, pingInterval s,
   lastPingAck s, lastPingReceived s, lastPingSent s, latency s,
   reconnectInterval s, connectAttempts s, user s, currentRoom s,
   sockets s, nextSocket s, timers s, nextTimer s, rawWSListeners s).

Definition backoff_bounds (s : St) : Prop :=
  1000 <= reconnectInterval s <= 60000 /\ 0 <= connectAttempts s.

(** Every armed heartbeat is the one [this.pingInterval] holds. *)
Definition one_heartbeat (s : St) : Prop :=
  forall h t, timers s !! h = Some t -> action t = Heartbeat -> pingInterval s = Some h.

(** [Math.random()] is in [0,1). *)
Definition random_ok (amb : Ambient) : Prop :=
  (0 <= Math_random amb)%Q /\ (Math_random amb < 1)%Q.

(** The cases of the switch that use the user [room.users.get] gives
    without testing it. *)
Definition user_required (op : Op) : bool :=
  match op with
  | MUTE_CHANGED | DEAFEN_CHANGED | HAND_RAISED | SPEAKER_ADDED | SPEAKER_REMOVED
  | MOD_CHANGED => true
  | _ => false
  end.

(** [if (packet.d.x) this.voiceDataCache.x = packet.d.x] *)
Definition merge_field (new old : value) : value := if truthy new then new else old.

Module Scenario.

(** An environment in which [ws.close] raises. *)
Definition raising : Ambient :=
  mkAmbient 5000 (1 # 2) "ref-1" (Some (JsError "close failed")).

(** A request registered by hand under the id [0], an array index:
    continuations 4 and 5, timer 2. *)
Definition indexed : St :=
  state_of (run [(Sample.amb, CallWaitForRef (Some "0") 4 5)] Sample.connected).

Definition new_tokens : packet.t :=
  packet.mk NEW_TOKENS VUndef
    (VObj [("accessToken", VStr "access-2"); ("refreshToken", VStr "refresh-2")])
    VUndef None None [].

(** The parsed body of a successful bootstrap response. *)
Definition bot_tokens : value :=
  VObj [("accessToken", VStr "access"); ("refreshToken", VStr "refresh")].

(** A mute toggle for a user [Z] that room [A] does not hold. *)
Definition mute_unknown : packet.t :=
  packet.mk MUTE_CHANGED VUndef
    (VObj [("roomId", VStr "A"); ("userId", VStr "Z"); ("value", VBool true)])
    VUndef None None [].

Definition joined_peer : packet.t :=
  packet.mk JOINED_PEER VUndef
    (VObj [("roomId", VStr "A"); ("recvTransportOptions", VStr "recv");
           ("routerRtpCapabilities", VStr "router")])
    VUndef None None [].

Definition now_speaker : packet.t :=
  packet.mk NOW_SPEAKER VUndef
    (VObj [("roomId", VStr "A"); ("sendTransportOptions", VStr "send")])
    VUndef None None [].

End Scenario.

(** * Properties *)

(** ** Symbolic execution of handlers *)

Arguments bind {A B} m k s /.
Arguments ret {A} a s /.
Arguments gets {A} f s /.
Arguments modify f s /.
Arguments throw {A} exn s /.
Arguments try_catch {A} m h s /.
Arguments when b m /.
Arguments log eff s /.
Arguments emit event args s /.
Arguments clearTimeout h s /.
Arguments arm t s /.
Arguments setTimeout a ms s /.
Arguments setInterval a ms s /.
Arguments reset s /.
Arguments hardReset s /.
Arguments WebSocket_close amb sock arg s /.
Arguments WebSocket_new url s /.
Arguments initWS s /.
Arguments put_room r entry s /.

(** Runs the monad and the field updates, and nothing else. *)
Ltac msimpl :=
  cbn [bind ret gets modify throw try_catch when log emit clearTimeout arm
    setTimeout setInterval reset hardReset WebSocket_close WebSocket_new
    initWS read defined active construct put_room state_of thrown
    Date_now Math_random uuid close_raises token
    options callbacks voiceDataCache rooms ws ready connecting pingInterval
    lastPingAck lastPingReceived lastPingSent latency reconnectInterval
    connectAttempts user currentRoom heap nextRoom sockets nextSocket timers
    nextTimer rawWSListeners trace set_token set_options set_callbacks
    set_voiceDataCache set_rooms set_ws set_ready set_connecting
    set_pingInterval set_lastPingAck set_lastPingReceived set_lastPingSent
    set_latency set_reconnectInterval set_connectAttempts set_user
    set_currentRoom set_heap set_nextRoom set_sockets set_nextSocket
    set_timers set_nextTimer set_rawWSListeners set_trace].

Tactic Notation "msimpl" "in" hyp(H) :=
  cbn [bind ret gets modify throw try_catch when log emit clearTimeout arm
    setTimeout setInterval reset hardReset WebSocket_close WebSocket_new
    initWS read defined active construct put_room state_of thrown
    Date_now Math_random uuid close_raises token
    options callbacks voiceDataCache rooms ws ready connecting pingInterval
    lastPingAck lastPingReceived lastPingSent latency reconnectInterval
    connectAttempts user currentRoom heap nextRoom sockets nextSocket timers
    nextTimer rawWSListeners trace set_token set_options set_callbacks
    set_voiceDataCache set_rooms set_ws set_ready set_connecting
    set_pingInterval set_lastPingAck set_lastPingReceived set_lastPingSent
    set_latency set_reconnectInterval set_connectAttempts set_user
    set_currentRoom set_heap set_nextRoom set_sockets set_nextSocket
    set_timers set_nextTimer set_rawWSListeners set_trace] in H.


(** ** Values *)

Lemma strict_eq_bool (v : value) (b : bool) :
  strict_eq v (VBool b) = true <-> v = VBool b.
Proof.
  destruct v as [| |x| | | | |]; simpl; try (split; [discriminate | discriminate]).
  destruct x, b; simpl; split; intros H; try reflexivity; try discriminate;
    inversion H.
Qed.

Lemma differs_spec (old : value) (new : bool) :
  differs old new = true <-> old <> VBool new.
Proof.
  unfold differs. rewrite negb_true_iff.
  destruct (strict_eq old (VBool new)) eqn:E.
  - apply strict_eq_bool in E. split; [discriminate | congruence].
  - split; [| reflexivity]. intros _ H.
    apply strict_eq_bool in H. congruence.
Qed.

Lemma str_truthy_some (k : string) : k <> "" -> str_truthy (Some k) = Some k.
Proof.
  intros H. unfold str_truthy.
  destruct (String.eqb_spec k ""); [contradiction | reflexivity].
Qed.

(** ** The monad *)

Lemma set_trace_id (s : St) : set_trace (trace s) s = s.
Proof. destruct s; reflexivity. Qed.

Lemma set_timers_id (s : St) : set_timers (timers s) s = s.
Proof. destruct s; reflexivity. Qed.

Lemma forEach_clearTimeout (fs : list Registration) (s : St) :
  forEach fs (fun f => clearTimeout (timer f)) s
  = Ret tt (set_timers (cancel_all fs (timers s)) s).
Proof.
  revert s. induction fs as [|f fs IH]; intros s.
  - simpl. unfold ret. now rewrite set_timers_id.
  - simpl. unfold bind, clearTimeout, modify at 1. rewrite IH.
    destruct s; reflexivity.
Qed.

Lemma forEach_log {A} (g : A -> Effect) (l : list A) (s : St) :
  forEach l (fun x => log (g x)) s = Ret tt (set_trace (trace s ++ map g l) s).
Proof.
  revert s. induction l as [|x l IH]; intros s.
  - simpl. unfold ret. now rewrite app_nil_r, set_trace_id.
  - simpl. unfold bind, log, modify at 1. rewrite IH.
    destruct s; simpl. now rewrite <- app_assoc.
Qed.

Lemma cancel_all_keeps_none (fs : list Registration) (tm : gmap nat Timer) (h : nat) :
  tm !! h = None -> cancel_all fs tm !! h = None.
Proof.
  revert tm. induction fs as [|g fs IH]; intros tm Hh; simpl; [assumption|].
  apply IH. destruct (decide (timer g = h)) as [->|Hne].
  - apply lookup_delete_eq.
  - now rewrite lookup_delete_ne.
Qed.

Lemma cancel_all_lookup_in (fs : list Registration) (tm : gmap nat Timer) (f : Registration) :
  f ∈ fs -> cancel_all fs tm !! timer f = None.
Proof.
  revert tm. induction fs as [|g fs IH]; intros tm Hin.
  - inversion Hin.
  - simpl. apply elem_of_cons in Hin as [->|Hin].
    + apply cancel_all_keeps_none, lookup_delete_eq.
    + now apply IH.
Qed.

Lemma cancel_all_lookup_other (fs : list Registration) (tm : gmap nat Timer) (h : nat) :
  (forall f, f ∈ fs -> timer f <> h) -> cancel_all fs tm !! h = tm !! h.
Proof.
  revert tm. induction fs as [|g fs IH]; intros tm Hne; simpl; [reflexivity|].
  rewrite IH.
  - apply lookup_delete_ne. apply Hne. left.
  - intros f Hf. apply Hne. now right.
Qed.

(** ** The pending-request table *)

Lemma resolve_spec (k : string) (err ok : value) (fs : list Registration) (s : St) :
  k <> "" -> callbacks s !! k = Some fs ->
  resolve (Some k) err ok s
  = Ret tt (set_timers (cancel_all fs (timers s))
              (set_trace (trace s ++ reply_calls fs err ok) s)).
Proof.
  intros Hk Hfs. unfold resolve. rewrite (str_truthy_some k Hk).
  unfold bind at 1, gets at 1. rewrite Hfs.
  unfold reply_calls, bind, when.
  destruct (truthy err), (truthy ok);
    repeat (rewrite ?forEach_log, ?forEach_clearTimeout; unfold ret; cbn beta iota);
    destruct s; simpl; rewrite ?app_nil_r, <- ?app_assoc; reflexivity.
Qed.

Lemma resolve_none (err ok : value) (s : St) :
  resolve None err ok s = Ret tt s.
Proof. reflexivity. Qed.

Lemma resolve_unknown (k : string) (err ok : value) (s : St) :
  callbacks s !! k = None -> resolve (Some k) err ok s = Ret tt s.
Proof.
  intros H. unfold resolve, str_truthy.
  destruct (String.eqb k ""); [reflexivity|].
  unfold bind, gets. now rewrite H.
Qed.

Lemma fire_unarmed (amb : Ambient) (h : nat) (s : St) :
  timers s !! h = None -> fire amb h s = Ret tt s.
Proof. intros H. unfold fire, bind, gets. now rewrite H. Qed.

Lemma fire_reply_timeout (amb : Ambient) (h : nat) (k : Cont) (ms : Z) (s : St) :
  timers s !! h = Some (mkTimer (ReplyTimeout k) ms false) ->
  fire amb h s
  = Ret tt (set_trace (trace s ++ [Call k (VStr "Reply timed out.")])
              (set_timers (delete h (timers s)) s)).
Proof. intros H. unfold fire, bind, gets. rewrite H. reflexivity. Qed.

Lemma waitForRef_spec (ref : option string) (cb err : Cont) (s : St) :
  exists s',
    waitForRef ref cb err s = Ret tt s' /\
    callbacks s' !! key_of ref
    = Some (default [] (callbacks s !! key_of ref) ++ [mkRegistration cb err (nextTimer s)]) /\
    (forall k, k <> key_of ref -> callbacks s' !! k = callbacks s !! k) /\
    timers s' = <[nextTimer s := mkTimer (ReplyTimeout err) (callbackTimeout (options s)) false]> (timers s) /\
    nextTimer s' = S (nextTimer s) /\
    trace s' = trace s.
Proof.
  unfold waitForRef, bind, modify, gets, setTimeout, arm.
  destruct (callbacks s !! key_of ref) as [fs|] eqn:E.
  - eexists. split; [reflexivity|]. simpl. rewrite E.
    repeat split.
    + apply lookup_insert_eq.
    + intros k Hk. now rewrite lookup_insert_ne.
  - eexists. split; [reflexivity|]. simpl. rewrite !lookup_insert_eq. simpl.
    repeat split.
    intros k Hk. now rewrite !lookup_insert_ne.
Qed.

Lemma wsEvent_break (pk : packet.t) (s0 s : St) :
  wsEvent_switch pk s0 = Ret Break s ->
  wsEvent pk s0
  = (resolve (packet.ref pk) (packet.e pk) (packet.p pk) ;;
     resolve (packet.fetchId pk) (packet.e pk) (packet.d pk)) s.
Proof. intros H. unfold wsEvent, bind at 1. now rewrite H. Qed.

(** C1 (as amended).  A registration made by [waitForRef] is appended to
    the entries of its id and gets a timer of [callbackTimeout] ms.  For
    the entries [fs] of an id [k]: a reply that matches [k] calls, for
    every pair, the error continuation when the reply has an [e] field and
    the success continuation when it has a payload ([p] for [ref], [d] for
    [fetchId]) -- only the error continuations when it has [e] and no
    payload, only the success continuations when it has a payload and no
    [e] -- and cancels the timers of the pairs, which then call nothing; the
    timer of a pair, when it fires, calls the error continuation of that
    pair with the timeout condition once, and is spent.  Neither the reply
    nor the timer removes the entries from the table. *)
Theorem C1_pending_request_lifecycle
    (amb : Ambient) (k : string) (fs : list Registration) (s : St) :
  k <> "" ->
  callbacks s !! k = Some fs ->
  (forall cb err, exists s',
      waitForRef (Some k) cb err s = Ret tt s' /\
      callbacks s' !! k = Some (fs ++ [mkRegistration cb err (nextTimer s)]) /\
      timers s' !! nextTimer s
      = Some (mkTimer (ReplyTimeout err) (callbackTimeout (options s)) false)) /\
  (forall pk s0,
      wsEvent_switch pk s0 = Ret Break s ->
      packet.ref pk = Some k -> packet.fetchId pk = None ->
      exists s',
        wsEvent pk s0 = Ret tt s' /\
        trace s' = trace s ++ reply_calls fs (packet.e pk) (packet.p pk) /\
        (forall f, f ∈ fs -> timers s' !! timer f = None /\ fire amb (timer f) s' = Ret tt s') /\
        callbacks s' = callbacks s) /\
  (forall pk s0,
      wsEvent_switch pk s0 = Ret Break s ->
      packet.ref pk = None -> packet.fetchId pk = Some k ->
      exists s',
        wsEvent pk s0 = Ret tt s' /\
        trace s' = trace s ++ reply_calls fs (packet.e pk) (packet.d pk) /\
        (forall f, f ∈ fs -> timers s' !! timer f = None /\ fire amb (timer f) s' = Ret tt s') /\
        callbacks s' = callbacks s) /\
  (forall err ok,
      (truthy err = true -> truthy ok = false ->
       reply_calls fs err ok = map (fun f => Call (errCallback f) err) fs) /\
      (truthy err = false -> truthy ok = true ->
       reply_calls fs err ok = map (fun f => Call (callback f) ok) fs)) /\
  (forall f ms,
      f ∈ fs ->
      timers s !! timer f = Some (mkTimer (ReplyTimeout (errCallback f)) ms false) ->
      exists s',
        fire amb (timer f) s = Ret tt s' /\
        trace s' = trace s ++ [Call (errCallback f) (VStr "Reply timed out.")] /\
        fire amb (timer f) s' = Ret tt s' /\
        callbacks s' = callbacks s).
Proof.
  intros Hk Hfs. repeat apply conj.
  - intros cb err.
    destruct (waitForRef_spec (Some k) cb err s) as (s' & Hw & Hcb & _ & Htm & _).
    exists s'. simpl in Hcb. rewrite Hfs in Hcb. simpl in Hcb.
    repeat split; [assumption | assumption |].
    rewrite Htm. apply lookup_insert_eq.
  - intros pk s0 Hsw Href Hfetch.
    rewrite (wsEvent_break pk s0 s Hsw), Href, Hfetch.
    unfold bind. rewrite (resolve_spec k _ _ fs s Hk Hfs), resolve_none.
    eexists. split; [reflexivity|].
    split; [destruct s; reflexivity|].
    split; [| destruct s; reflexivity].
    intros f Hf.
    assert (Hnone : timers (set_timers (cancel_all fs (timers s))
                     (set_trace (trace s ++ reply_calls fs (packet.e pk) (packet.p pk)) s))
                    !! timer f = None).
    { destruct s; simpl. now apply cancel_all_lookup_in. }
    split; [assumption | now apply fire_unarmed].
  - intros pk s0 Hsw Href Hfetch.
    rewrite (wsEvent_break pk s0 s Hsw), Href, Hfetch.
    unfold bind. rewrite resolve_none, (resolve_spec k _ _ fs s Hk Hfs).
    eexists. split; [reflexivity|].
    split; [destruct s; reflexivity|].
    split; [| destruct s; reflexivity].
    intros f Hf.
    assert (Hnone : timers (set_timers (cancel_all fs (timers s))
                     (set_trace (trace s ++ reply_calls fs (packet.e pk) (packet.d pk)) s))
                    !! timer f = None).
    { destruct s; simpl. now apply cancel_all_lookup_in. }
    split; [assumption | now apply fire_unarmed].
  - intros err ok.
    split; intros He Hok; unfold reply_calls; rewrite He, Hok;
      [apply app_nil_r | reflexivity].
  - intros f ms Hf Htm.
    rewrite (fire_reply_timeout amb _ _ _ s Htm).
    eexists. split; [reflexivity|].
    split; [destruct s; reflexivity|].
    split; [| destruct s; reflexivity].
    apply fire_unarmed. destruct s; simpl. apply lookup_delete_eq.
Qed.

Lemma C1_pending_request_lifecycle_witness :
  "ref-1" <> "" /\
  callbacks Sample.pending1 !! "ref-1" = Some [Sample.reg1] /\
  exists s',
    wsEvent Sample.reply Sample.pending1 = Ret tt s' /\
    trace s' = trace Sample.pending1 ++ [Call 0 (packet.p Sample.reply)] /\
    timers s' !! 2%nat = None.
Proof.
  assert (Hk : "ref-1" <> "") by discriminate.
  assert (Hfs : callbacks Sample.pending1 !! "ref-1" = Some [Sample.reg1])
    by (vm_compute; reflexivity).
  split; [exact Hk|]. split; [exact Hfs|].
  destruct (C1_pending_request_lifecycle Sample.amb "ref-1" [Sample.reg1]
              Sample.pending1 Hk Hfs) as (_ & Hreply & _).
  destruct (Hreply Sample.reply Sample.pending1) as (s' & Hev & Htr & Htm & _);
    try (vm_compute; reflexivity).
  exists s'. split; [exact Hev|]. split; [exact Htr|].
  apply (Htm Sample.reg1). apply list_elem_of_here.
Defined.

(** C1, as stated, fails: the timer of a pending request fires and calls
    the error continuation; the entry stays in the table, so the reply that
    arrives afterwards calls the success continuation of the same pair. *)
Lemma C1_late_reply_fires_again :
  let s' := state_of (run [(Sample.amb, TimerFires 2);
                           (Sample.amb, SocketMessage 0 (Frame Sample.reply))]
                        Sample.pending1) in
  callbacks Sample.pending1 !! "ref-1" = Some [Sample.reg1] /\
  calls (trace s')
  = [(1%nat, VStr "Reply timed out."); (0%nat, packet.p Sample.reply)] /\
  ~ (firings Sample.reg1 (trace s') <= 1)%nat /\
  callbacks s' !! "ref-1" = Some [Sample.reg1].
Proof.
  cbv zeta. repeat split; try (vm_compute; reflexivity).
  assert (H : firings Sample.reg1
                (trace (state_of (run [(Sample.amb, TimerFires 2);
                                       (Sample.amb, SocketMessage 0 (Frame Sample.reply))]
                                    Sample.pending1))) = 2%nat)
    by (vm_compute; reflexivity).
  rewrite H. lia.
Qed.

(** ** Fan-out *)

Lemma calls_app (a b : list Effect) : calls (a ++ b) = calls a ++ calls b.
Proof. apply omap_app. Qed.

Lemma calls_map_Call (g : Registration -> Cont) (v : value) (fs : list Registration) :
  calls (map (fun f => Call (g f) v) fs) = map (fun f => (g f, v)) fs.
Proof. induction fs as [|f fs IH]; simpl; [reflexivity | now rewrite <- IH]. Qed.

Lemma calls_reply_calls (fs : list Registration) (err ok : value) :
  calls (reply_calls fs err ok)
  = (if truthy err then map (fun f => (errCallback f, err)) fs else [])
    ++ (if truthy ok then map (fun f => (callback f, ok)) fs else []).
Proof.
  unfold reply_calls. rewrite calls_app.
  destruct (truthy err), (truthy ok); now rewrite ?calls_map_Call.
Qed.

(** C4 (as amended).  When several continuation pairs are registered under
    one shared correlation id, a single reply for that id calls the
    continuations of all of them together, in the order of registration
    -- every error continuation when the reply has an [e] field, every
    success continuation when it has a payload -- and cancels all of their
    timers at that point.  A timeout belongs to one registration: the timer
    of a pair calls the error continuation of that pair alone, and the
    timers of the other pairs stay as they were. *)
Theorem C4_fan_out
    (amb : Ambient) (k : string) (fs : list Registration) (s : St) :
  k <> "" ->
  callbacks s !! k = Some fs ->
  (forall pk s0,
      wsEvent_switch pk s0 = Ret Break s ->
      packet.ref pk = Some k -> packet.fetchId pk = None ->
      exists s',
        wsEvent pk s0 = Ret tt s' /\
        calls (trace s')
        = calls (trace s)
          ++ (if truthy (packet.e pk)
              then map (fun f => (errCallback f, packet.e pk)) fs else [])
          ++ (if truthy (packet.p pk)
              then map (fun f => (callback f, packet.p pk)) fs else []) /\
        (forall f, f ∈ fs -> timers s' !! timer f = None)) /\
  (forall pk s0,
      wsEvent_switch pk s0 = Ret Break s ->
      packet.ref pk = None -> packet.fetchId pk = Some k ->
      exists s',
        wsEvent pk s0 = Ret tt s' /\
        calls (trace s')
        = calls (trace s)
          ++ (if truthy (packet.e pk)
              then map (fun f => (errCallback f, packet.e pk)) fs else [])
          ++ (if truthy (packet.d pk)
              then map (fun f => (callback f, packet.d pk)) fs else []) /\
        (forall f, f ∈ fs -> timers s' !! timer f = None)) /\
  (forall f ms,
      f ∈ fs ->
      timers s !! timer f = Some (mkTimer (ReplyTimeout (errCallback f)) ms false) ->
      exists s',
        fire amb (timer f) s = Ret tt s' /\
        calls (trace s') = calls (trace s) ++ [(errCallback f, VStr "Reply timed out.")] /\
        (forall g, g ∈ fs -> timer g <> timer f ->
                   timers s' !! timer g = timers s !! timer g)).
Proof.
  intros Hk Hfs. repeat apply conj.
  - intros pk s0 Hsw Href Hfetch.
    rewrite (wsEvent_break pk s0 s Hsw), Href, Hfetch.
    unfold bind. rewrite (resolve_spec k _ _ fs s Hk Hfs), resolve_none.
    eexists. split; [reflexivity|]. split.
    + destruct s; simpl. now rewrite calls_app, calls_reply_calls.
    + intros f Hf. destruct s; simpl. now apply cancel_all_lookup_in.
  - intros pk s0 Hsw Href Hfetch.
    rewrite (wsEvent_break pk s0 s Hsw), Href, Hfetch.
    unfold bind. rewrite resolve_none, (resolve_spec k _ _ fs s Hk Hfs).
    eexists. split; [reflexivity|]. split.
    + destruct s; simpl. now rewrite calls_app, calls_reply_calls.
    + intros f Hf. destruct s; simpl. now apply cancel_all_lookup_in.
  - intros f ms Hf Htm.
    rewrite (fire_reply_timeout amb _ _ _ s Htm).
    eexists. split; [reflexivity|]. split.
    + destruct s; simpl. now rewrite calls_app.
    + intros g Hg Hne. destruct s; simpl. now apply lookup_delete_ne.
Qed.

Lemma C4_fan_out_witness :
  "ref-1" <> "" /\
  callbacks Sample.pending2 !! "ref-1" = Some [Sample.reg1; Sample.reg2] /\
  exists s',
    wsEvent Sample.reply Sample.pending2 = Ret tt s' /\
    calls (trace s')
    = calls (trace Sample.pending2)
      ++ [(0%nat, packet.p Sample.reply); (2%nat, packet.p Sample.reply)] /\
    timers s' !! 2%nat = None /\ timers s' !! 3%nat = None.
Proof.
  assert (Hk : "ref-1" <> "") by discriminate.
  assert (Hfs : callbacks Sample.pending2 !! "ref-1" = Some [Sample.reg1; Sample.reg2])
    by (vm_compute; reflexivity).
  split; [exact Hk|]. split; [exact Hfs|].
  destruct (C4_fan_out Sample.amb "ref-1" [Sample.reg1; Sample.reg2]
              Sample.pending2 Hk Hfs) as (Hreply & _).
  destruct (Hreply Sample.reply Sample.pending2) as (s' & Hev & Hcalls & Htm);
    try (vm_compute; reflexivity).
  exists s'. split; [exact Hev|]. split; [exact Hcalls|]. split.
  - apply (Htm Sample.reg1). apply list_elem_of_here.
  - apply (Htm Sample.reg2). apply list_elem_of_further, list_elem_of_here.
Defined.

(** C4, as stated, fails for a timeout: with two pairs registered under
    one id, the timer of the first calls the error continuation of the
    first only; the second pair is not called and its timer stays armed. *)
Lemma C4_timeout_is_per_registration :
  let s' := state_of (fire Sample.amb 2 Sample.pending2) in
  callbacks Sample.pending2 !! "ref-1" = Some [Sample.reg1; Sample.reg2] /\
  calls (trace s') = [(1%nat, VStr "Reply timed out.")] /\
  timers s' !! 3%nat = Some (mkTimer (ReplyTimeout 3) 2000 false).
Proof. cbv zeta. repeat split; vm_compute; reflexivity. Qed.

(** ** Disconnect *)

Ltac destruct_state s :=
  destruct s as [tok opts cbs cache rms held rdy cing pi ack lpr lps lat
                 interval attempts usr cur hp nr socks ns tms nt raw tr].

Lemma disconnect_returns (amb : Ambient) (reconnect error : value) (s : St) :
  exists s',
    disconnect amb reconnect error s = Ret tt s' /\
    ws s' = None /\ ready s' = false /\ connecting s' = false /\
    lastPingAck s' = true /\ callbacks s' = ∅ /\
    options s' = options s /\ token s' = token s /\
    (if strict_eq reconnect (VStr "auto") && autoReconnect (options s)
     then
       trace s' = trace s ++ close_effects amb (ws s) reconnect error ++ [queueing s] /\
       timers s'
       = <[nextTimer s := mkTimer Reconnect (reconnectInterval s) false]>
           (timers_after_disconnect s) /\
       reconnectInterval s' = grow (reconnectInterval s) (Math_random amb)
     else
       trace s' = trace s ++ close_effects amb (ws s) reconnect error /\
       timers s' = timers_after_disconnect s /\
       reconnectInterval s'
       = if truthy reconnect then reconnectInterval s else 1000).
Proof.
  destruct_state s. destruct amb as [now rnd uu raises].
  unfold timers_after_disconnect, close_effects, queueing.
  cbn [options ws trace pingInterval callbacks timers nextTimer reconnectInterval
       connectAttempts close_raises Math_random token].
  destruct (strict_eq reconnect (VStr "auto") && autoReconnect opts) eqn:Hauto;
    destruct (truthy reconnect) eqn:Htruthy;
    destruct pi as [h|], held as [sock|], raises as [exn|];
    unfold disconnect; msimpl; rewrite forEach_clearTimeout; msimpl;
    rewrite ?Hauto; msimpl; rewrite ?Htruthy; msimpl;
    (eexists; split; [reflexivity|]); msimpl;
    rewrite <- ?app_assoc, ?app_nil_r; simpl app; repeat split.
Qed.

(** ** Backoff *)

Lemma Math_round_scale (n : Z) (r : Q) :
  0 <= n -> (1 <= r < 3)%Q ->
  n <= Math_round (inject_Z n * r) <= 3 * n.
Proof.
  intros Hn [Hr1 Hr3]. unfold Math_round.
  assert (Hn' : (0 <= inject_Z n)%Q)
    by (change 0%Q with (inject_Z 0); rewrite <- Zle_Qle; exact Hn).
  assert (Hlo : (inject_Z n <= inject_Z n * r + (1 # 2))%Q) by nra.
  assert (Hhi : (inject_Z n * r + (1 # 2) < inject_Z (3 * n + 1))%Q).
  { rewrite inject_Z_plus, inject_Z_mult.
    change (inject_Z 3) with 3%Q. change (inject_Z 1) with 1%Q. nra. }
  split.
  - rewrite <- (Qfloor_Z n) at 1. now apply Qfloor_resp_le.
  - pose proof (Qfloor_le (inject_Z n * r + (1 # 2))) as Hf.
    assert (H : (inject_Z (Qfloor (inject_Z n * r + (1 # 2))) < inject_Z (3 * n + 1))%Q)
      by (eapply Qle_lt_trans; eassumption).
    rewrite <- Zlt_Qlt in H. lia.
Qed.

Lemma emissions_app (a b : list Effect) : emissions (a ++ b) = emissions a ++ emissions b.
Proof. apply omap_app. Qed.

Lemma emissions_map_Call (g : Registration -> Cont) (v : value) (fs : list Registration) :
  emissions (map (fun f => Call (g f) v) fs) = [].
Proof. induction fs as [|f fs IH]; [reflexivity | exact IH]. Qed.

Lemma emissions_reply_calls (fs : list Registration) (err ok : value) :
  emissions (reply_calls fs err ok) = [].
Proof.
  unfold reply_calls. rewrite emissions_app.
  destruct (truthy err), (truthy ok);
    rewrite ?(emissions_map_Call errCallback), ?(emissions_map_Call callback);
    reflexivity.
Qed.

(** The resolution of pending requests changes the timers and the trace
    only, and emits nothing. *)
Lemma resolve_shape (id : option string) (err ok : value) (s : St) :
  exists tm calls,
    resolve id err ok s = Ret tt (set_timers tm (set_trace (trace s ++ calls) s)) /\
    emissions calls = [].
Proof.
  assert (Hid : Ret tt s = Ret tt (set_timers (timers s) (set_trace (trace s ++ []) s)))
    by (rewrite app_nil_r; destruct s; reflexivity).
  destruct id as [k|]; [| exists (timers s), []; split; [exact Hid | reflexivity]].
  destruct (callbacks s !! k) as [fs|] eqn:Hfs.
  - destruct (String.eqb_spec k "") as [->|Hk].
    + exists (timers s), []. split; [exact Hid | reflexivity].
    + exists (cancel_all fs (timers s)), (reply_calls fs err ok).
      split; [now apply resolve_spec | apply emissions_reply_calls].
  - exists (timers s), []. split; [| reflexivity].
    rewrite <- Hid. now apply resolve_unknown.
Qed.

Lemma wsEvent_after_break (pk : packet.t) (s s1 : St) :
  wsEvent_switch pk s = Ret Break s1 ->
  exists tm calls,
    wsEvent pk s = Ret tt (set_timers tm (set_trace (trace s1 ++ calls) s1)) /\
    emissions calls = [].
Proof.
  intros Hsw. rewrite (wsEvent_break pk s s1 Hsw).
  destruct (resolve_shape (packet.ref pk) (packet.e pk) (packet.p pk) s1)
    as (tm1 & c1 & H1 & E1).
  unfold bind. rewrite H1.
  destruct (resolve_shape (packet.fetchId pk) (packet.e pk) (packet.d pk)
              (set_timers tm1 (set_trace (trace s1 ++ c1) s1)))
    as (tm2 & c2 & H2 & E2).
  rewrite H2. exists tm2, (c1 ++ c2). split.
  - destruct s1; simpl. now rewrite <- app_assoc.
  - now rewrite emissions_app, E1, E2.
Qed.

Lemma auth_reply_switch (pk : packet.t) (s : St) :
  packet.op pk = AUTH_REPLY ->
  wsEvent_switch pk s
  = Ret Break
      (set_trace (trace s ++ [Emit "ready" [AVal (packet.p pk)]])
         (set_pingInterval (Some (nextTimer s))
            (set_nextTimer (S (nextTimer s))
               (set_timers
                  (<[nextTimer s := mkTimer Heartbeat (opt_pingInterval (options s)) true]>
                     (match pingInterval s with
                      | Some h => delete h (timers s)
                      | None => timers s
                      end))
                  (set_lastPingAck true
                     (set_user (Some (packet.p pk))
                        (set_ready true
                           (set_connecting false
                              (set_reconnectInterval 1000
                                 (set_connectAttempts 0 s)))))))))).
Proof.
  intros Hop. destruct_state s.
  destruct pk as [op p d e ref fid vs]. cbn [packet.op packet.p] in *. subst op.
  destruct pi as [h|]; lazy; reflexivity.
Qed.

(** C5.  A disconnect requested with [reconnect: "auto"] while
    auto-reconnect is enabled arms a retry after the current reconnect
    interval [prev], and then sets the interval to
    [min(round(prev * r), 60000)] for the jitter factor
    [r = Math.random() * 2 + 1], which lies in [1,3): the rounded product
    lies in [prev, 3 * prev].  An authentication reply resets the interval
    to 1000 and the attempt counter to zero. *)
Theorem C5_reconnect_backoff (amb : Ambient) (error : value) (s : St) :
  autoReconnect (options s) = true ->
  0 <= reconnectInterval s ->
  (0 <= Math_random amb < 1)%Q ->
  let prev := reconnectInterval s in
  let r := (Math_random amb * 2 + 1)%Q in
  (exists s',
      disconnect amb (VStr "auto") error s = Ret tt s' /\
      timers s' !! nextTimer s = Some (mkTimer Reconnect prev false) /\
      (1 <= r < 3)%Q /\
      reconnectInterval s' = Z.min (Math_round (inject_Z prev * r)) 60000 /\
      prev <= Math_round (inject_Z prev * r) <= 3 * prev) /\
  (forall pk s0,
      packet.op pk = AUTH_REPLY ->
      exists s',
        wsEvent pk s0 = Ret tt s' /\
        reconnectInterval s' = 1000 /\ connectAttempts s' = 0).
Proof.
  intros Hauto Hprev [Hr0 Hr1] prev r.
  assert (Hr : (1 <= r < 3)%Q) by (unfold r; split; lra).
  split.
  - destruct (disconnect_returns amb (VStr "auto") error s)
      as (s' & Hd & _ & _ & _ & _ & _ & _ & _ & Hbranch).
    rewrite Hauto in Hbranch. simpl in Hbranch.
    destruct Hbranch as (_ & Htm & Hri).
    exists s'. split; [exact Hd|]. split; [rewrite Htm; apply lookup_insert_eq|].
    split; [exact Hr|]. split; [exact Hri|].
    now apply Math_round_scale.
  - intros pk s0 Hop.
    destruct (wsEvent_after_break pk s0 _ (auth_reply_switch pk s0 Hop))
      as (tm & c & Hev & _).
    eexists. split; [exact Hev|].
    destruct s0; split; reflexivity.
Qed.

Lemma C5_reconnect_backoff_witness :
  autoReconnect (options Sample.connected) = true /\
  0 <= reconnectInterval Sample.connected /\
  (0 <= Math_random Sample.amb < 1)%Q /\
  exists s',
    disconnect Sample.amb (VStr "auto") VUndef Sample.connected = Ret tt s' /\
    timers s' !! nextTimer Sample.connected = Some (mkTimer Reconnect 1000 false) /\
    reconnectInterval s' = 2000.
Proof.
  assert (H1 : autoReconnect (options Sample.connected) = true)
    by (vm_compute; reflexivity).
  assert (H2 : 0 <= reconnectInterval Sample.connected)
    by (vm_compute; discriminate).
  assert (H3 : (0 <= Math_random Sample.amb < 1)%Q)
    by (split; vm_compute; [discriminate | reflexivity]).
  split; [exact H1|]. split; [exact H2|]. split; [exact H3|].
  destruct (C5_reconnect_backoff Sample.amb VUndef Sample.connected H1 H2 H3)
    as ((s' & Hd & Htm & _ & Hri & _) & _).
  exists s'. split; [exact Hd|]. split; [exact Htm|]. exact Hri.
Defined.

(** ** Heartbeat *)

(** The interval callback when no pong came since the last ping: it
    disconnects, then goes on to the statements after the branch, and
    raises on [this.ws.send] since [this.ws] is null by then. *)
Lemma heartbeat_missed (amb : Ambient) (s s1 : St) :
  lastPingAck s = false ->
  disconnect amb (VStr "auto") missed_pong s = Ret tt s1 ->
  ws s1 = None ->
  heartbeat amb s
  = Throw JsTypeError
      (set_lastPingSent (Some (Date_now amb)) (set_lastPingAck false s1)).
Proof.
  intros Hack Hd Hws.
  unfold heartbeat. cbn [bind gets]. rewrite Hack. cbn [negb when].
  fold missed_pong. rewrite Hd. msimpl. rewrite Hws. reflexivity.
Qed.

Lemma fire_heartbeat (amb : Ambient) (h : nat) (ms : Z) (s : St) :
  timers s !! h = Some (mkTimer Heartbeat ms true) ->
  fire amb h s = heartbeat amb s.
Proof. intros H. unfold fire. cbn [bind gets]. rewrite H. reflexivity. Qed.

Lemma close_effects_held (amb : Ambient) (sock : nat) (reconnect error : value) :
  Close sock reconnect ∈ close_effects amb (Some sock) reconnect error /\
  Emit "disconnect" [AVal (or_null error)] ∈ close_effects amb (Some sock) reconnect error.
Proof.
  unfold close_effects. split.
  - apply elem_of_app. left. apply list_elem_of_here.
  - apply elem_of_app. right. apply elem_of_app. right. apply list_elem_of_here.
Qed.

(** C6.  A [pong] frame sets the latency to the receive time minus the
    send time and clears the awaiting-ack flag (it sets [lastPingAck]).
    When the heartbeat timer fires with the flag still set ([lastPingAck]
    false: no pong since the previous ping), the connection is torn down
    -- the socket reference is dropped and, when a socket was held, it is
    closed and a disconnect notification carries the cause -- and, when
    auto-reconnect is enabled, a reconnect is armed after the current
    reconnect interval. *)
Theorem C6_heartbeat_protocol (amb : Ambient) (s : St) :
  (exists s',
      on_message amb Pong s = Ret tt s' /\
      lastPingAck s' = true /\
      lastPingReceived s' = Some (Date_now amb) /\
      latency s' = Millis (Date_now amb - default 0 (lastPingSent s)) /\
      (forall sent, lastPingSent s = Some sent ->
                    latency s' = Millis (Date_now amb - sent))) /\
  (forall h ms,
      timers s !! h = Some (mkTimer Heartbeat ms true) ->
      lastPingAck s = false ->
      let s' := state_of (fire amb h s) in
      ws s' = None /\ ready s' = false /\ connecting s' = false /\
      (forall sock, ws s = Some sock ->
         Close sock (VStr "auto") ∈ trace s' /\
         Emit "disconnect" [AVal missed_pong] ∈ trace s') /\
      (autoReconnect (options s) = true ->
         timers s' !! nextTimer s
         = Some (mkTimer Reconnect (reconnectInterval s) false))).
Proof.
  split.
  - destruct_state s. unfold on_message. msimpl.
    eexists. split; [reflexivity|]. msimpl.
    repeat split. intros sent ->. reflexivity.
  - intros h ms Hh Hack.
    rewrite (fire_heartbeat amb h ms s Hh).
    destruct (disconnect_returns amb (VStr "auto") missed_pong s)
      as (s1 & Hd & Hws & Hready & Hconn & _ & _ & _ & _ & Hbranch).
    rewrite (heartbeat_missed amb s s1 Hack Hd Hws).
    cbn [state_of]. destruct s1 as [tok1 opts1 cbs1 cache1 rms1 held1 rdy1 cing1 pi1 ack1
      lpr1 lps1 lat1 interval1 attempts1 usr1 cur1 hp1 nr1 socks1 ns1 tms1 nt1 raw1 tr1].
    msimpl. msimpl in Hws. msimpl in Hready. msimpl in Hconn. msimpl in Hbranch.
    split; [exact Hws|]. split; [exact Hready|]. split; [exact Hconn|].
    change (strict_eq (VStr "auto") (VStr "auto")) with true in Hbranch.
    cbn [andb] in Hbranch.
    split.
    + intros sock Hsock. rewrite Hsock in Hbranch.
      destruct (close_effects_held amb sock (VStr "auto") missed_pong) as [Hc He].
      destruct (autoReconnect (options s)); destruct Hbranch as (-> & _);
        split; apply elem_of_app; right; rewrite ?elem_of_app; auto.
    + intros Hauto. rewrite Hauto in Hbranch. destruct Hbranch as (_ & -> & _).
      apply lookup_insert_eq.
Qed.

(** C10, on the code: when the interval callback finds the awaiting-ack
    flag still set, it disconnects -- which nulls the socket reference --
    and then falls through to the statements after the branch: it sets
    the flag and the send time, and the final [this.ws.send] is reached
    with a null socket reference and raises a TypeError. *)
Theorem C10_ping_sent_on_null_socket (amb : Ambient) (s : St) :
  lastPingAck s = false ->
  exists s',
    heartbeat amb s = Throw JsTypeError s' /\
    ws s' = None /\
    lastPingAck s' = false /\
    lastPingSent s' = Some (Date_now amb).
Proof.
  intros Hack.
  destruct (disconnect_returns amb (VStr "auto") missed_pong s)
    as (s1 & Hd & Hws & _).
  rewrite (heartbeat_missed amb s s1 Hack Hd Hws).
  eexists. split; [reflexivity|].
  destruct s1; msimpl; msimpl in Hws. repeat split. exact Hws.
Qed.

Lemma C6_heartbeat_protocol_witness :
  timers Sample.awaiting !! 1%nat = Some (mkTimer Heartbeat 8000 true) /\
  lastPingAck Sample.awaiting = false /\
  let s' := state_of (fire Sample.amb 1 Sample.awaiting) in
  ws s' = None /\
  timers s' !! nextTimer Sample.awaiting = Some (mkTimer Reconnect 1000 false).
Proof.
  assert (H1 : timers Sample.awaiting !! 1%nat = Some (mkTimer Heartbeat 8000 true))
    by (vm_compute; reflexivity).
  assert (H2 : lastPingAck Sample.awaiting = false) by (vm_compute; reflexivity).
  split; [exact H1|]. split; [exact H2|].
  destruct (C6_heartbeat_protocol Sample.amb Sample.awaiting) as (_ & Hfire).
  destruct (Hfire 1%nat 8000 H1 H2) as (Hws & _ & _ & _ & Harm).
  split; [exact Hws|]. apply Harm. vm_compute; reflexivity.
Defined.

Lemma C10_ping_sent_on_null_socket_witness :
  lastPingAck Sample.awaiting = false /\
  exists s',
    heartbeat Sample.amb Sample.awaiting = Throw JsTypeError s' /\ ws s' = None.
Proof.
  assert (H : lastPingAck Sample.awaiting = false) by (vm_compute; reflexivity).
  split; [exact H|].
  destruct (C10_ping_sent_on_null_socket Sample.amb Sample.awaiting H)
    as (s' & Hh & Hws & _).
  exists s'. split; [exact Hh | exact Hws].
Defined.

(** ** Connect *)

Lemma connect_with_tokens (s : St) :
  str_truthy (apiKey (token s)) = None ->
  connect s
  = Ret tt
      (set_nextTimer (S (nextTimer s))
         (set_timers
            (<[nextTimer s := mkTimer ConnectionTimeout (connectionTimeout (options s)) false]>
               (timers s))
            (set_ws (Some (nextSocket s))
               (set_trace
                  (trace s
                   ++ (if existing_connection s
                       then [Emit "error" [AVal (JsError "Existing connection detected")]]
                       else [])
                   ++ [NewSocket (nextSocket s) (socketUrl (options s))])
                  (set_nextSocket (S (nextSocket s))
                     (set_sockets (<[nextSocket s := CONNECTING]> (sockets s))
                        (set_connecting true
                           (set_connectAttempts (connectAttempts s + 1) s)))))))).
Proof.
  destruct_state s. unfold existing_connection. cbn [token ws sockets].
  intros Hkey.
  destruct held as [sock|];
    [destruct (negb (ReadyState_eqb (readyState socks sock) CLOSED)) eqn:Hlive |];
    unfold connect; msimpl; rewrite ?Hlive; msimpl; rewrite Hkey; msimpl;
    rewrite <- ?app_assoc; reflexivity.
Qed.

Lemma connect_with_key (s : St) (key : string) :
  str_truthy (apiKey (token s)) = Some key ->
  connect s
  = Ret tt
      (set_nextTimer (S (nextTimer s))
         (set_timers
            (<[nextTimer s := mkTimer ConnectionTimeout (connectionTimeout (options s)) false]>
               (timers s))
            (set_trace
               (trace s
                ++ (if existing_connection s
                    then [Emit "error" [AVal (JsError "Existing connection detected")]]
                    else [])
                ++ [HttpPost "api.dogehouse.tv" "/bot/auth" key])
               (set_connecting true
                  (set_connectAttempts (connectAttempts s + 1) s))))).
Proof.
  destruct_state s. unfold existing_connection. cbn [token ws sockets].
  intros Hkey.
  destruct held as [sock|];
    [destruct (negb (ReadyState_eqb (readyState socks sock) CLOSED)) eqn:Hlive |];
    unfold connect; msimpl; rewrite ?Hlive; msimpl; rewrite Hkey; msimpl;
    rewrite <- ?app_assoc; reflexivity.
Qed.

Lemma ReadyState_eqb_neq (a b : ReadyState) : ReadyState_eqb a b = false <-> a <> b.
Proof. destruct a, b; simpl; split; congruence. Qed.

Lemma live_socket_elem (s : St) (sock : nat) :
  readyState (sockets s) sock <> CLOSED -> sock ∈ live_sockets s.
Proof.
  unfold readyState, live_sockets. intros Hlive.
  destruct (sockets s !! sock) as [rs|] eqn:Hrs; [| now simpl in Hlive].
  simpl in Hlive. apply list_elem_of_fmap. exists (sock, rs). split; [reflexivity|].
  apply list_elem_of_filter. split.
  - now apply ReadyState_eqb_neq.
  - now apply elem_of_map_to_list.
Qed.

Lemma live_sockets_opened (s s' : St) (sock : nat) :
  sockets s !! sock = None ->
  sockets s' = <[sock := CONNECTING]> (sockets s) ->
  live_sockets s' ≡ₚ sock :: live_sockets s.
Proof.
  intros Hfresh Hs'. unfold live_sockets. rewrite Hs'.
  rewrite (map_to_list_insert _ _ _ Hfresh).
  rewrite filter_cons_True by reflexivity. reflexivity.
Qed.

(** C7, on the code: [connect()] called while a socket is held and is not
    closed emits the existing-connection error and then goes on: it opens
    a second socket and keeps it in [this.ws], while the first socket is
    left as it was.  The client then has two sockets that are not closed. *)
Theorem C7_connect_opens_second_socket (s : St) (sock : nat) :
  ws s = Some sock ->
  readyState (sockets s) sock <> CLOSED ->
  str_truthy (apiKey (token s)) = None ->
  sockets s !! nextSocket s = None ->
  exists s',
    connect s = Ret tt s' /\
    trace s'
    = trace s ++ [Emit "error" [AVal (JsError "Existing connection detected")];
                  NewSocket (nextSocket s) (socketUrl (options s))] /\
    ws s' = Some (nextSocket s) /\
    sockets s' = <[nextSocket s := CONNECTING]> (sockets s) /\
    sock ∈ live_sockets s' /\ nextSocket s ∈ live_sockets s' /\
    sock <> nextSocket s.
Proof.
  intros Hws Hlive Hkey Hfresh.
  assert (Hexisting : existing_connection s = true).
  { unfold existing_connection. rewrite Hws.
    apply negb_true_iff, ReadyState_eqb_neq, Hlive. }
  rewrite (connect_with_tokens s Hkey), Hexisting.
  match goal with |- exists _, Ret tt ?x = _ /\ _ => exists x end.
  split; [reflexivity|].
  match goal with
  | |- context [ws ?x = _] =>
      assert (Hsocks : sockets x = <[nextSocket s := CONNECTING]> (sockets s))
        by (destruct s; reflexivity);
      pose proof (live_sockets_opened s x (nextSocket s) Hfresh Hsocks) as Hperm
  end.
  split; [destruct s; reflexivity|].
  split; [destruct s; reflexivity|].
  split; [exact Hsocks|].
  split; [| split].
  - rewrite Hperm. apply elem_of_cons. right. now apply live_socket_elem.
  - rewrite Hperm. apply list_elem_of_here.
  - intros ->. unfold readyState in Hlive. rewrite Hfresh in Hlive. now apply Hlive.
Qed.

Lemma C7_connect_opens_second_socket_witness :
  ws Sample.connected = Some 0%nat /\
  readyState (sockets Sample.connected) 0 <> CLOSED /\
  str_truthy (apiKey (token Sample.connected)) = None /\
  sockets Sample.connected !! nextSocket Sample.connected = None /\
  exists s',
    connect Sample.connected = Ret tt s' /\
    ws s' = Some 1%nat /\
    0%nat ∈ live_sockets s' /\ 1%nat ∈ live_sockets s'.
Proof.
  assert (H1 : ws Sample.connected = Some 0%nat) by (vm_compute; reflexivity).
  assert (H2 : readyState (sockets Sample.connected) 0 <> CLOSED)
    by (vm_compute; discriminate).
  assert (H3 : str_truthy (apiKey (token Sample.connected)) = None)
    by (vm_compute; reflexivity).
  assert (H4 : sockets Sample.connected !! nextSocket Sample.connected = None)
    by (vm_compute; reflexivity).
  split; [exact H1|]. split; [exact H2|]. split; [exact H3|]. split; [exact H4|].
  destruct (C7_connect_opens_second_socket Sample.connected 0 H1 H2 H3 H4)
    as (s' & Hc & _ & Hws & _ & Hold & Hnew & _).
  exists s'. split; [exact Hc|]. split; [exact Hws|]. split; [exact Hold | exact Hnew].
Defined.

(** ** The dispatcher *)

Lemma read_inl (v : value) (k : string) (x : value) (s : St) :
  prop v k = inl x -> read v k s = Ret x s.
Proof. intros H. unfold read. now rewrite H. Qed.

Lemma the_room_inl (pk : packet.t) (rid : value) (s : St) :
  prop (packet.d pk) "roomId" = inl rid ->
  the_room pk s = Ret (rooms_get s rid) s.
Proof. intros H. unfold the_room. cbn [bind]. now rewrite (read_inl _ _ _ _ H). Qed.

(** A payload of which one property can be read is not [undefined] or
    [null]: every property of it can be read. *)
Lemma prop_readable (v : value) (k k' : string) (x : value) :
  prop v k = inl x -> exists y, prop v k' = inl y.
Proof. destruct v; simpl; intros H; try discriminate; eauto. Qed.

Lemma guarded_absent_room (pk : packet.t) (rid : value) (s : St) :
  room_guarded (packet.op pk) = true ->
  prop (packet.d pk) "roomId" = inl rid ->
  rooms_get s rid = None ->
  wsEvent_switch pk s = Ret Break s.
Proof.
  intros Hop Hrid Hroom.
  destruct (packet.op pk) eqn:E; try discriminate Hop;
    unfold wsEvent_switch; rewrite E; cbn [bind];
    rewrite (the_room_inl pk rid s Hrid), Hroom; reflexivity.
Qed.

(** C9, on the code.  For a packet whose [roomId] matches no room of the
    mirror: the handlers that test the room leave the state as it is and
    emit nothing; the NEW_CREATOR handler has no such test, assigns to a
    property of the absent room and raises a TypeError, and nothing after
    the switch runs; the MSG_DELETED handler does not look at [roomId] at
    all: it reads the users of the current room, raises a TypeError when
    there is none, and emits [msgDeleted] when there is one. *)
Theorem C9_absent_room (pk : packet.t) (rid : value) (s : St) :
  prop (packet.d pk) "roomId" = inl rid ->
  rooms_get s rid = None ->
  (room_guarded (packet.op pk) = true -> wsEvent_switch pk s = Ret Break s) /\
  (packet.op pk = NEW_CREATOR -> wsEvent pk s = Throw JsTypeError s) /\
  (packet.op pk = MSG_DELETED -> currentRoom s = None ->
   wsEvent pk s = Throw JsTypeError s) /\
  (forall r a,
      packet.op pk = MSG_DELETED ->
      currentRoom s = Some r -> heap s !! r = Some (Active a) ->
      exists messageId deleterId,
        wsEvent_switch pk s
        = Ret Break
            (set_trace
               (trace s ++ [Emit "msgDeleted"
                              [AVal messageId; user_arg (users_get a deleterId)]])
               s)).
Proof.
  intros Hrid Hroom. repeat apply conj.
  - intros Hop. now apply (guarded_absent_room pk rid s).
  - intros Hop. unfold wsEvent, wsEvent_switch. rewrite Hop. cbn [bind].
    rewrite (the_room_inl pk rid s Hrid), Hroom. reflexivity.
  - intros Hop Hcur.
    destruct (prop_readable _ _ "messageId" _ Hrid) as (mid & Hmid).
    unfold wsEvent, wsEvent_switch. rewrite Hop. cbn [bind].
    rewrite (read_inl _ _ _ _ Hmid). cbn [gets]. rewrite Hcur. reflexivity.
  - intros r a Hop Hcur Hheap.
    destruct (prop_readable _ _ "messageId" _ Hrid) as (mid & Hmid).
    destruct (prop_readable _ _ "deleterId" _ Hrid) as (did & Hdid).
    exists mid, did.
    unfold wsEvent_switch. rewrite Hop. cbn [bind].
    rewrite (read_inl _ _ _ _ Hmid). cbn [gets]. rewrite Hcur.
    cbn [mbind option_bind]. rewrite Hheap. cbn [defined active ret].
    rewrite (read_inl _ _ _ _ Hdid). reflexivity.
Qed.

Lemma C9_absent_room_witness :
  prop (packet.d Sample.new_creator_nowhere) "roomId" = inl (VStr "nowhere") /\
  rooms_get Sample.connected (VStr "nowhere") = None /\
  wsEvent Sample.new_creator_nowhere Sample.connected
  = Throw JsTypeError Sample.connected.
Proof.
  assert (H1 : prop (packet.d Sample.new_creator_nowhere) "roomId" = inl (VStr "nowhere"))
    by reflexivity.
  assert (H2 : rooms_get Sample.connected (VStr "nowhere") = None)
    by (vm_compute; reflexivity).
  split; [exact H1|]. split; [exact H2|].
  destruct (C9_absent_room Sample.new_creator_nowhere (VStr "nowhere")
              Sample.connected H1 H2) as (_ & Hnew & _).
  apply Hnew. reflexivity.
Defined.

(** C3, on the code: the MOD_CHANGED handler leaves [wsEvent] with
    [return] when the moderator flag of the packet is the one the mirror
    holds.  The resolution of pending requests after the switch is then
    not reached: whatever correlation id the frame carries, no
    continuation is called and no timer is cancelled. *)
Theorem C3_mod_changed_returns_early
    (pk : packet.t) (s : St) (rid uid v : value) (r : nat) (a : ActiveRoom)
    (k : string) (u : ActiveUser) :
  packet.op pk = MOD_CHANGED ->
  prop (packet.d pk) "roomId" = inl rid ->
  rooms_get s rid = Some (r, Active a) ->
  prop (packet.d pk) "userId" = inl uid ->
  users_get a uid = Some (k, u) ->
  prop (packet.d pk) "isMod" = inl v ->
  strict_eq (isMod (roomPermissions u)) v = true ->
  wsEvent_switch pk s = Ret Return s /\
  wsEvent pk s = Ret tt s.
Proof.
  intros Hop Hrid Hroom Huid Huser Hmod Heq.
  assert (Hsw : wsEvent_switch pk s = Ret Return s).
  { unfold wsEvent_switch. rewrite Hop. cbn [bind].
    rewrite (the_room_inl pk rid s Hrid), Hroom. cbn [bind active ret].
    rewrite (read_inl _ _ _ _ Huid), Huser. cbn [bind defined ret].
    rewrite (read_inl _ _ _ _ Hmod), Heq. reflexivity. }
  split; [exact Hsw|].
  unfold wsEvent. cbn [bind]. rewrite Hsw. reflexivity.
Qed.

Lemma C3_mod_changed_returns_early_witness :
  packet.fetchId Sample.mod_unchanged = Some "ref-1" /\
  callbacks Sample.in_room !! "ref-1" = Some [Sample.reg1] /\
  timers Sample.in_room !! 2%nat = Some (mkTimer (ReplyTimeout 1) 2000 false) /\
  wsEvent Sample.mod_unchanged Sample.in_room = Ret tt Sample.in_room.
Proof.
  split; [reflexivity|]. split; [vm_compute; reflexivity|].
  split; [vm_compute; reflexivity|].
  refine (proj2 (C3_mod_changed_returns_early Sample.mod_unchanged Sample.in_room
                   (VStr "A") (VStr "U") (VBool false) 0 Sample.room_A
                   "U" (mkActiveUser "U" defaultVoiceState defaultPermissions VUndef)
                   _ _ _ _ _ _ _));
    vm_compute; reflexivity.
Defined.

(** ** Errors *)

Lemma on_close_disconnects (amb : Ambient) (code : Z) (err : value) (s : St) :
  on_close amb code err s
  = disconnect amb (match ws s with Some _ => VStr "auto" | None => VBool true end)
      (close_error code err)
      (if code =? 0 then s else set_trace (trace s ++ [close_warning code]) s).
Proof.
  unfold on_close, close_warning. destruct (code =? 0) eqn:Hcode.
  - apply Z.eqb_eq in Hcode. subst code. destruct s; reflexivity.
  - destruct s; reflexivity.
Qed.

Lemma connection_timeout_disconnects (amb : Ambient) (s : St) :
  connecting s = true ->
  connection_timeout amb s
  = disconnect amb (VStr "auto") (JsError "Connection timeout") s.
Proof.
  intros H. unfold connection_timeout. cbn [bind gets]. rewrite H. reflexivity.
Qed.

Lemma bootstrap_end_unparsable (str : string) (s : St) :
  bootstrap_end str None s = Throw (JsError ("Failed to get bot token: " +:+ str)) s.
Proof. reflexivity. Qed.

Lemma bootstrap_end_error (str : string) (v err : value) (s : St) :
  prop v "error" = inl err -> truthy err = true ->
  bootstrap_end str (Some v) s = Throw (JsError ("Failed to get bot token: " +:+ str)) s.
Proof.
  intros Hprop Herr. unfold bootstrap_end. cbn [try_catch bind ret].
  rewrite (read_inl _ _ _ _ Hprop), Herr. reflexivity.
Qed.

Lemma calls_close_effects (amb : Ambient) (held : option nat) (reconnect error : value) :
  calls (close_effects amb held reconnect error) = [].
Proof.
  unfold close_effects. destruct held; [| reflexivity].
  destruct (close_raises amb); reflexivity.
Qed.

Lemma disconnect_trace (amb : Ambient) (reconnect error : value) (s : St) :
  exists s' rest,
    disconnect amb reconnect error s = Ret tt s' /\
    ws s' = None /\
    trace s' = trace s ++ close_effects amb (ws s) reconnect error ++ rest /\
    calls (trace s') = calls (trace s).
Proof.
  destruct (disconnect_returns amb reconnect error s)
    as (s' & Hd & Hws & _ & _ & _ & _ & _ & _ & Hbranch).
  destruct (strict_eq reconnect (VStr "auto") && autoReconnect (options s));
    destruct Hbranch as (Htr & _).
  - exists s', [queueing s]. repeat split; try assumption.
    rewrite Htr, !calls_app, calls_close_effects. cbn. now rewrite app_nil_r.
  - exists s', []. rewrite app_nil_r. repeat split; try assumption.
    rewrite Htr, !calls_app, calls_close_effects. now rewrite app_nil_r.
Qed.

Lemma close_effects_raised (amb : Ambient) (sock : nat) (reconnect error exn : value) :
  close_raises amb = Some exn ->
  Emit "error" [AVal exn] ∈ close_effects amb (Some sock) reconnect error.
Proof.
  intros H. unfold close_effects. rewrite H.
  apply elem_of_app. right. apply elem_of_app. left. apply list_elem_of_here.
Qed.

(** With a listener of [error], the two functions are the ones of the
    connection manager. *)
Lemma connect_listened (n : nat) (s : St) : connect_on (S n) s = connect s.
Proof. reflexivity. Qed.

Lemma disconnect_listened (n : nat) (amb : Ambient) (reconnect error : value) (s : St) :
  disconnect_on (S n) amb reconnect error s = disconnect amb reconnect error s.
Proof. reflexivity. Qed.

(** Without one, the guard of [connect] raises before anything else is
    done ... *)
Lemma connect_unheard (s : St) :
  existing_connection s = true ->
  connect_on 0 s = Throw (JsError "Existing connection detected") s.
Proof.
  destruct_state s. unfold existing_connection. cbn [ws sockets]. intros H.
  destruct held as [sock|]; [| discriminate].
  unfold connect_on; msimpl; rewrite H; reflexivity.
Qed.

(** ... and a failure of [ws.close] leaves [disconnect] from its [catch]. *)
Lemma disconnect_unheard (amb : Ambient) (reconnect error exn : value) (s : St)
    (sock : nat) :
  ws s = Some sock -> close_raises amb = Some exn ->
  thrown (disconnect_on 0 amb reconnect error s) = Some (unhandled exn) /\
  emissions (trace (state_of (disconnect_on 0 amb reconnect error s)))
  = emissions (trace s).
Proof.
  destruct_state s. destruct amb as [now rnd uu raises]. cbn [ws close_raises trace].
  intros -> ->.
  destruct pi as [h|];
    unfold disconnect_on; msimpl; rewrite forEach_clearTimeout; msimpl;
    unfold emit_error; msimpl;
    rewrite emissions_app; cbn [emissions omap list_omap]; rewrite app_nil_r;
    split; reflexivity.
Qed.

(** When [ws.close] does not raise, [disconnect] emits no [error]: the
    listeners do not matter. *)
Lemma disconnect_closing_quietly (n : nat) (amb : Ambient) (reconnect error : value)
    (s : St) :
  close_raises amb = None ->
  disconnect_on n amb reconnect error s = disconnect amb reconnect error s.
Proof.
  destruct n; [| reflexivity].
  destruct_state s. destruct amb as [now rnd uu raises]. cbn [close_raises]. intros ->.
  destruct pi as [h|], held as [sock|];
    unfold disconnect_on, disconnect; msimpl; rewrite !forEach_clearTimeout; msimpl;
    reflexivity.
Qed.

(** A timeout of a client that holds no socket adds to the trace the
    message of the queued reconnect, and nothing else. *)
Lemma disconnect_auto_without_socket (amb : Ambient) (error : value) (s s' : St) :
  ws s = None ->
  disconnect amb (VStr "auto") error s = Ret tt s' ->
  trace s' = trace s ++ (if autoReconnect (options s) then [queueing s] else []).
Proof.
  intros Hnone Hd.
  destruct (disconnect_returns amb (VStr "auto") error s)
    as (s1 & Hd1 & _ & _ & _ & _ & _ & _ & _ & Hbranch).
  rewrite Hd in Hd1. injection Hd1 as <-. rewrite Hnone in Hbranch.
  change (strict_eq (VStr "auto") (VStr "auto")) with true in Hbranch.
  cbn [andb close_effects app] in Hbranch.
  destruct (autoReconnect (options s)); destruct Hbranch as (-> & _);
    [reflexivity | now rewrite app_nil_r].
Qed.

(** C8 (as amended).  On a client with a listener of the [error] event:
    the existing-connection condition is emitted as an [error] event and
    [connect()] returns; a failure while closing the socket is emitted as
    an [error] event, followed by the [disconnect] event, and
    [disconnect()] returns.  On a client without one, [connect()] raises
    the existing-connection error and [disconnect()] raises the failure of
    the close, and nothing is emitted.  When closing the socket does not
    raise, the listeners do not matter: a close code is emitted as a [warn]
    event and, when a socket is held, the closure is reported by a
    [disconnect] event carrying the error of the code (invalid
    authentication for 4001, superseded session for 4003, timeout for
    1006); a connection timeout and a heartbeat timeout are reported by a
    [disconnect] event carrying the error when a socket is held, and by
    nothing but the message of the queued reconnect when none is.  None of
    these calls a continuation of a pending request: a request timeout and
    a server-reported [e] field are what is passed to the error
    continuation of the pending call.  A bootstrap failure (a body that
    does not parse, or a response with an [error] field) is not emitted:
    the listener of the response raises
    ["Failed to get bot token: " + body] and leaves the client as it
    was. *)
Theorem C8_error_reporting (amb : Ambient) (s : St) :
  (forall n, (0 < n)%nat ->
     exists s',
       connect_on n s = Ret tt s' /\
       calls (trace s') = calls (trace s) /\
       (existing_connection s = true ->
        Emit "error" [AVal (JsError "Existing connection detected")] ∈ trace s')) /\
  (existing_connection s = true ->
   connect_on 0 s = Throw (JsError "Existing connection detected") s) /\
  (forall n reconnect error, (0 < n)%nat ->
     exists s',
       disconnect_on n amb reconnect error s = Ret tt s' /\
       calls (trace s') = calls (trace s) /\
       (forall sock exn,
           ws s = Some sock -> close_raises amb = Some exn ->
           Emit "error" [AVal exn] ∈ trace s' /\
           Emit "disconnect" [AVal (or_null error)] ∈ trace s')) /\
  (forall reconnect error sock exn,
      ws s = Some sock -> close_raises amb = Some exn ->
      thrown (disconnect_on 0 amb reconnect error s) = Some (unhandled exn) /\
      emissions (trace (state_of (disconnect_on 0 amb reconnect error s)))
      = emissions (trace s)) /\
  (close_raises amb = None ->
   (forall n reconnect error s0,
       disconnect_on n amb reconnect error s0 = disconnect amb reconnect error s0) /\
   (forall code err,
       exists s',
         on_close amb code err s = Ret tt s' /\
         calls (trace s') = calls (trace s) /\
         (code <> 0 -> close_warning code ∈ trace s') /\
         (forall sock, ws s = Some sock ->
            Emit "disconnect" [AVal (or_null (close_error code err))] ∈ trace s')) /\
   (connecting s = true ->
    exists s',
      connection_timeout amb s = Ret tt s' /\
      calls (trace s') = calls (trace s) /\
      (forall sock, ws s = Some sock ->
         Emit "disconnect" [AVal (JsError "Connection timeout")] ∈ trace s') /\
      (ws s = None ->
       trace s' = trace s ++ (if autoReconnect (options s) then [queueing s] else []))) /\
   (lastPingAck s = false ->
    calls (trace (state_of (heartbeat amb s))) = calls (trace s) /\
    (forall sock, ws s = Some sock ->
       Emit "disconnect" [AVal missed_pong] ∈ trace (state_of (heartbeat amb s))) /\
    (ws s = None ->
     trace (state_of (heartbeat amb s))
     = trace s ++ (if autoReconnect (options s) then [queueing s] else [])))) /\
  (forall h k ms,
      timers s !! h = Some (mkTimer (ReplyTimeout k) ms false) ->
      exists s',
        fire amb h s = Ret tt s' /\
        trace s' = trace s ++ [Call k (VStr "Reply timed out.")]) /\
  (forall k fs err ok,
      k <> "" -> callbacks s !! k = Some fs -> truthy err = true ->
      exists s',
        resolve (Some k) err ok s = Ret tt s' /\
        (forall f, f ∈ fs -> Call (errCallback f) err ∈ trace s')) /\
  (forall str,
      bootstrap_end str None s
      = Throw (JsError ("Failed to get bot token: " +:+ str)) s) /\
  (forall str v err,
      prop v "error" = inl err -> truthy err = true ->
      bootstrap_end str (Some v) s
      = Throw (JsError ("Failed to get bot token: " +:+ str)) s).
Proof.
  split; [| split; [| split; [| split; [| split; [| split; [| split; [| split]]]]]]].
  - intros [|n] Hn; [lia |]. rewrite connect_listened.
    destruct (str_truthy (apiKey (token s))) as [key|] eqn:Hkey.
    + rewrite (connect_with_key s key Hkey). eexists. split; [reflexivity|].
      destruct_state s; cbn [trace set_nextTimer set_timers set_trace]. split.
      * rewrite !calls_app. destruct (existing_connection _); cbn; now rewrite app_nil_r.
      * intros ->. apply elem_of_app. right. apply list_elem_of_here.
    + rewrite (connect_with_tokens s Hkey). eexists. split; [reflexivity|].
      destruct_state s; cbn [trace set_nextTimer set_timers set_ws set_trace]. split.
      * rewrite !calls_app. destruct (existing_connection _); cbn; now rewrite app_nil_r.
      * intros ->. apply elem_of_app. right. apply list_elem_of_here.
  - apply connect_unheard.
  - intros [|n] reconnect error Hn; [lia |]. rewrite disconnect_listened.
    destruct (disconnect_trace amb reconnect error s)
      as (s' & rest & Hd & _ & Htr & Hcalls).
    exists s'. split; [exact Hd|]. split; [exact Hcalls|].
    intros sock exn Hsock Hraises. rewrite Htr, Hsock. split.
    + apply elem_of_app. right. apply elem_of_app. left.
      now apply close_effects_raised.
    + apply elem_of_app. right. apply elem_of_app. left.
      apply close_effects_held.
  - intros reconnect error sock exn. apply disconnect_unheard.
  - intros Hnoraise. split; [| split; [| split]].
    + intros n reconnect error s0. now apply disconnect_closing_quietly.
    + intros code err. rewrite on_close_disconnects.
      match goal with
      | |- context [disconnect amb ?r ?e ?s0] =>
          destruct (disconnect_trace amb r e s0) as (s' & rest & Hd & _ & Htr & Hcalls)
      end.
      exists s'. split; [exact Hd|]. split; [| rewrite Htr; split].
      * rewrite Hcalls. destruct (code =? 0); [reflexivity|].
        destruct_state s; cbn [trace set_trace]. rewrite calls_app. cbn.
        now rewrite app_nil_r.
      * intros Hcode. apply Z.eqb_neq in Hcode. rewrite Hcode.
        apply elem_of_app. left. destruct_state s; cbn [trace set_trace].
        apply elem_of_app. right. apply list_elem_of_here.
      * intros sock Hsock.
        assert (Hheld : ws (if code =? 0 then s
                            else set_trace (trace s ++ [close_warning code]) s)
                        = Some sock)
          by (destruct (code =? 0); [exact Hsock | destruct_state s; exact Hsock]).
        rewrite Hheld, Hsock.
        apply elem_of_app. right. apply elem_of_app. left.
        apply close_effects_held.
    + intros Hconnecting. rewrite (connection_timeout_disconnects amb s Hconnecting).
      destruct (disconnect_trace amb (VStr "auto") (JsError "Connection timeout") s)
        as (s' & rest & Hd & _ & Htr & Hcalls).
      exists s'. split; [exact Hd|]. split; [exact Hcalls|]. split.
      * intros sock Hsock. rewrite Htr, Hsock.
        apply elem_of_app. right. apply elem_of_app. left.
        apply (close_effects_held amb sock (VStr "auto") (JsError "Connection timeout")).
      * intros Hnone. exact (disconnect_auto_without_socket amb _ s s' Hnone Hd).
    + intros Hack.
      destruct (disconnect_trace amb (VStr "auto") missed_pong s)
        as (s' & rest & Hd & Hws & Htr & Hcalls).
      rewrite (heartbeat_missed amb s s' Hack Hd Hws). cbn [state_of].
      assert (Hsame : trace (set_lastPingSent (Some (Date_now amb))
                               (set_lastPingAck false s')) = trace s')
        by (destruct_state s'; reflexivity).
      rewrite Hsame. split; [exact Hcalls|]. split.
      * intros sock Hsock. rewrite Htr, Hsock.
        apply elem_of_app. right. apply elem_of_app. left.
        apply (close_effects_held amb sock (VStr "auto") missed_pong).
      * intros Hnone. exact (disconnect_auto_without_socket amb _ s s' Hnone Hd).
  - intros h k ms Htimer. rewrite (fire_reply_timeout amb h k ms s Htimer).
    eexists. split; [reflexivity|]. destruct_state s; reflexivity.
  - intros k fs err ok Hk Hfs Herr. rewrite (resolve_spec k err ok fs s Hk Hfs).
    eexists. split; [reflexivity|]. intros f Hf.
    destruct_state s; cbn [trace set_timers set_trace]. unfold reply_calls. rewrite Herr.
    apply elem_of_app. right. apply elem_of_app. left.
    apply list_elem_of_fmap. now exists f.
  - intros str. apply bootstrap_end_unparsable.
  - intros str v err. apply bootstrap_end_error.
Qed.

Lemma C8_error_reporting_witness :
  (0 < 1)%nat /\
  existing_connection Sample.connected = true /\
  exists s',
    connect_on 1 Sample.connected = Ret tt s' /\
    Emit "error" [AVal (JsError "Existing connection detected")] ∈ trace s'.
Proof.
  assert (H : existing_connection Sample.connected = true) by (vm_compute; reflexivity).
  split; [exact Nat.lt_0_1 |]. split; [exact H|].
  destruct (C8_error_reporting Sample.amb Sample.connected) as (Hconnect & _).
  destruct (Hconnect 1%nat Nat.lt_0_1) as (s' & Hc & _ & Hemit).
  exists s'. split; [exact Hc | exact (Hemit H)].
Defined.

(** C8, as stated, fails in four ways.  A bootstrap error response is
    raised by the listener of the HTTP response, out of the event loop,
    and nothing is emitted.  The connection timeout of a client that holds
    no socket yet (the bootstrap exchange got no answer) reaches no
    [error], [warn] or [disconnect] event: the client only queues a
    reconnect.  On a client without a listener of [error], as the
    constructor leaves it, [connect()] on an existing connection raises
    the error to its caller, and a failure of [ws.close] is raised by
    [disconnect()], before the [disconnect] event. *)
Lemma C8_errors_raised_or_unreported :
  (let r := bootstrap_end Sample.error_body (Some Sample.error_response)
              Sample.bootstrapping in
   thrown r = Some (JsError ("Failed to get bot token: " +:+ Sample.error_body)) /\
   state_of r = Sample.bootstrapping /\
   emissions (trace (state_of r)) = []) /\
  (let r := fire Sample.amb 0 Sample.bootstrapping in
   ws Sample.bootstrapping = None /\
   thrown r = None /\
   emissions (trace (state_of r))
   = [("debug", [AVal (VStr "Queueing reconnect in 1000ms | Attempt 1")])]) /\
  (let r := connect_on 0 Sample.connected in
   existing_connection Sample.connected = true /\
   thrown r = Some (JsError "Existing connection detected") /\
   state_of r = Sample.connected) /\
  (let r := disconnect_on 0 Scenario.raising (VStr "auto") (JsError "lost")
              Sample.connected in
   thrown r = Some (JsError "close failed") /\
   emissions (trace (state_of r)) = emissions (trace Sample.connected)).
Proof.
  cbv zeta.
  split; [split; [| split] | split; [split; [| split] | split; [split; [| split] | split]]];
    vm_compute; reflexivity.
Qed.

(** ** The voice-state reconciler *)

Section Reconciler.

Variables (flag : VoiceState -> value) (obs : VoiceObs -> bool).

Lemma changed_users_insert (us : Collection ActiveUser) (uid : string) (x : ActiveUser)
    (delta : Delta) :
  uid ∉ delta.*1 ->
  changed_users flag obs (<[uid := x]> us) delta = changed_users flag obs us delta.
Proof.
  induction delta as [|[k o] rest IH]; intros Hnotin; [reflexivity|].
  cbn [fmap list_fmap fst] in Hnotin. apply not_elem_of_cons in Hnotin as [Hne Hrest].
  unfold changed_users in *. cbn [omap list_omap fst snd].
  rewrite lookup_insert_ne by congruence. now rewrite IH.
Qed.

Lemma changed_users_elem (us : Collection ActiveUser) (delta : Delta) (u : string) :
  u ∈ changed_users flag obs us delta
  <-> exists o old,
        (u, o) ∈ delta /\ us !! u = Some old /\ flag (voiceState old) <> VBool (obs o).
Proof.
  unfold changed_users. rewrite list_elem_of_omap. split.
  - intros ([k o] & Hin & Hsome). cbn [fst snd] in Hsome.
    destruct (us !! k) as [old|] eqn:Hold; [| discriminate].
    destruct (differs (flag (voiceState old)) (obs o)) eqn:Hd; [| discriminate].
    injection Hsome as <-. exists o, old. repeat split; try assumption.
    now apply differs_spec.
  - intros (o & old & Hin & Hold & Hne). exists (u, o). split; [assumption|].
    cbn [fst snd]. rewrite Hold.
    apply differs_spec in Hne. now rewrite Hne.
Qed.

Lemma changed_users_sublist (us : Collection ActiveUser) (delta : Delta) :
  changed_users flag obs us delta `sublist_of` delta.*1.
Proof.
  induction delta as [|[k o] rest IH]; [constructor|].
  unfold changed_users in *. cbn [omap list_omap fmap list_fmap fst snd].
  destruct (us !! k) as [old|]; [destruct (differs _ _)|];
    (now constructor).
Qed.

Lemma changed_users_NoDup (us : Collection ActiveUser) (delta : Delta) :
  NoDup delta.*1 -> NoDup (changed_users flag obs us delta).
Proof.
  intros H. exact (sublist_NoDup _ _ H (changed_users_sublist us delta)).
Qed.

End Reconciler.

Lemma snoc_if_app {A} (b : bool) (l : list A) (x : A) (rest : list A) :
  snoc_if b l x ++ rest = l ++ (if b then x :: rest else rest).
Proof. destruct b; simpl; [now rewrite <- app_assoc | reflexivity]. Qed.

Lemma reconcile_lists (us : Collection ActiveUser) (acc : Updates) (delta : Delta) :
  NoDup delta.*1 ->
  let upd := snd (reconcile us acc delta) in
  updatedSpeaking upd
  = updatedSpeaking acc ++ changed_users speaking obs_speaking us delta /\
  updatedMuted upd
  = updatedMuted acc ++ changed_users muted obs_muted us delta /\
  updatedDeafened upd
  = updatedDeafened acc ++ changed_users deafened obs_deafened us delta.
Proof.
  revert us acc. induction delta as [|[uid o] rest IH]; intros us acc Hnd.
  - cbn. now rewrite !app_nil_r.
  - cbn [fmap list_fmap fst] in Hnd. apply NoDup_cons in Hnd as [Hnotin Hnd].
    cbn [reconcile]. unfold changed_users. cbn [omap list_omap fst snd].
    destruct (us !! uid) as [u|] eqn:Hu.
    + destruct (IH (<[uid := observe u o]> us)
                  (mkUpdates
                     (snoc_if (differs (speaking (voiceState u)) (obs_speaking o))
                        (updatedSpeaking acc) uid)
                     (snoc_if (differs (muted (voiceState u)) (obs_muted o))
                        (updatedMuted acc) uid)
                     (snoc_if (differs (deafened (voiceState u)) (obs_deafened o))
                        (updatedDeafened acc) uid)) Hnd) as (H1 & H2 & H3).
      cbn zeta in H1, H2, H3. cbn [updatedSpeaking updatedMuted updatedDeafened] in H1, H2, H3.
      rewrite !changed_users_insert in H1, H2, H3 by assumption.
      rewrite snoc_if_app in H1, H2, H3.
      cbn zeta. rewrite H1, H2, H3. unfold changed_users.
      destruct (differs (speaking (voiceState u)) (obs_speaking o)),
               (differs (muted (voiceState u)) (obs_muted o)),
               (differs (deafened (voiceState u)) (obs_deafened o)); now repeat split.
    + apply (IH us acc Hnd).
Qed.

Lemma reconcile_untouched (us : Collection ActiveUser) (acc : Updates) (delta : Delta)
    (u : string) :
  u ∉ delta.*1 -> fst (reconcile us acc delta) !! u = us !! u.
Proof.
  revert us acc. induction delta as [|[uid o] rest IH]; intros us acc Hnotin; [reflexivity|].
  cbn [fmap list_fmap fst] in Hnotin. apply not_elem_of_cons in Hnotin as [Hne Hrest].
  cbn [reconcile]. destruct (us !! uid) as [x|] eqn:Hx.
  - rewrite IH by assumption. now rewrite lookup_insert_ne.
  - now apply IH.
Qed.

Lemma reconcile_observed (us : Collection ActiveUser) (acc : Updates) (delta : Delta)
    (u : string) (o : VoiceObs) (old : ActiveUser) :
  NoDup delta.*1 -> (u, o) ∈ delta -> us !! u = Some old ->
  fst (reconcile us acc delta) !! u = Some (observe old o).
Proof.
  revert us acc. induction delta as [|[uid o'] rest IH]; intros us acc Hnd Hin Hold.
  - inversion Hin.
  - cbn [fmap list_fmap fst] in Hnd. apply NoDup_cons in Hnd as [Hnotin Hnd].
    cbn [reconcile]. apply elem_of_cons in Hin as [Heq|Hin].
    + injection Heq as <- <-. rewrite Hold.
      rewrite reconcile_untouched by assumption. apply lookup_insert_eq.
    + assert (Hne : uid <> u).
      { intros ->. apply Hnotin. apply list_elem_of_fmap. now exists (u, o). }
      destruct (us !! uid) as [x|] eqn:Hx.
      * apply IH; try assumption. now rewrite lookup_insert_ne.
      * now apply IH.
Qed.

Lemma emissions_map_Emit {A} (ev : string) (args : A -> list Arg) (l : list A) :
  emissions (map (fun x => Emit ev (args x)) l) = map (fun x => (ev, args x)) l.
Proof. induction l as [|x l IH]; [reflexivity|]. cbn. now rewrite <- IH. Qed.

Lemma active_speaker_change_switch
    (pk : packet.t) (s : St) (rid : value) (r : nat) (a : ActiveRoom) :
  packet.op pk = ACTIVE_SPEAKER_CHANGE ->
  prop (packet.d pk) "roomId" = inl rid ->
  rooms_get s rid = Some (r, Active a) ->
  exists s1,
    wsEvent_switch pk s = Ret Break s1 /\
    rooms s1 = rooms s /\
    heap s1 = <[r := Active (fst (_updateVoiceStates a (packet.voiceStates pk)))]> (heap s) /\
    emissions (trace s1)
    = emissions (trace s)
      ++ voice_events (ar_id a) (snd (_updateVoiceStates a (packet.voiceStates pk))).
Proof.
  intros Hop Hrid Hroom.
  unfold wsEvent_switch. rewrite Hop. cbn [bind].
  rewrite (the_room_inl pk rid s Hrid), Hroom. cbn [bind active ret].
  destruct (_updateVoiceStates a (packet.voiceStates pk)) as [a' upd].
  cbn [fst snd bind put_room modify]. unfold emit.
  rewrite (forEach_log (fun u => Emit "activeSpeakerChange" [AUser u; ARoom (ar_id a)])).
  rewrite (forEach_log (fun u => Emit "muteChange" [AUser u; ARoom (ar_id a)])).
  rewrite (forEach_log (fun u => Emit "deafenChange" [AUser u; ARoom (ar_id a)])).
  cbn [ret].
  eexists. split; [reflexivity|].
  destruct s; cbn [rooms heap trace set_trace set_heap].
  split; [reflexivity|]. split; [reflexivity|].
  rewrite !emissions_app.
  rewrite (emissions_map_Emit "activeSpeakerChange" (fun u => [AUser u; ARoom (ar_id a)])).
  rewrite (emissions_map_Emit "muteChange" (fun u => [AUser u; ARoom (ar_id a)])).
  rewrite (emissions_map_Emit "deafenChange" (fun u => [AUser u; ARoom (ar_id a)])).
  unfold voice_events. now rewrite <- !app_assoc.
Qed.

(** C2.  For a voice-state delta applied by the ACTIVE_SPEAKER_CHANGE
    handler to a room of the mirror: the events emitted are one
    [activeSpeakerChange] per user of the "speaking changed" list, then one
    [muteChange] per user of the "mute changed" list, then one
    [deafenChange] per user of the "deafen changed" list; a user is in the
    "speaking changed" list exactly when the delta has an observation for
    that user whose speaking flag differs from the value the mirror held
    just before, and independently likewise for the two other lists; no
    user is twice in a list; the mirror then holds the observation for the
    users of the delta, and the users absent from the delta are left
    untouched -- so they are in no list and get no event. *)
Theorem C2_voice_state_changes
    (pk : packet.t) (s : St) (rid : value) (r : nat) (a : ActiveRoom) :
  packet.op pk = ACTIVE_SPEAKER_CHANGE ->
  prop (packet.d pk) "roomId" = inl rid ->
  rooms_get s rid = Some (r, Active a) ->
  NoDup (packet.voiceStates pk).*1 ->
  exists s' a' upd,
    wsEvent pk s = Ret tt s' /\
    _updateVoiceStates a (packet.voiceStates pk) = (a', upd) /\
    heap s' = <[r := Active a']> (heap s) /\
    emissions (trace s') = emissions (trace s) ++ voice_events (ar_id a) upd /\
    (forall u,
        u ∈ updatedSpeaking upd
        <-> exists o old, (u, o) ∈ packet.voiceStates pk /\ users a !! u = Some old /\
                          speaking (voiceState old) <> VBool (obs_speaking o)) /\
    (forall u,
        u ∈ updatedMuted upd
        <-> exists o old, (u, o) ∈ packet.voiceStates pk /\ users a !! u = Some old /\
                          muted (voiceState old) <> VBool (obs_muted o)) /\
    (forall u,
        u ∈ updatedDeafened upd
        <-> exists o old, (u, o) ∈ packet.voiceStates pk /\ users a !! u = Some old /\
                          deafened (voiceState old) <> VBool (obs_deafened o)) /\
    NoDup (updatedSpeaking upd) /\ NoDup (updatedMuted upd) /\
    NoDup (updatedDeafened upd) /\
    (forall u o old,
        (u, o) ∈ packet.voiceStates pk -> users a !! u = Some old ->
        users a' !! u = Some (observe old o)) /\
    (forall u,
        u ∉ (packet.voiceStates pk).*1 ->
        users a' !! u = users a !! u /\
        (u ∉ updatedSpeaking upd) /\ (u ∉ updatedMuted upd) /\
        (u ∉ updatedDeafened upd)).
Proof.
  intros Hop Hrid Hroom Hnd.
  destruct (active_speaker_change_switch pk s rid r a Hop Hrid Hroom)
    as (s1 & Hsw & _ & Hheap & Hemit).
  destruct (wsEvent_after_break pk s s1 Hsw) as (tm & c & Hev & Hc).
  pose proof (reconcile_lists (users a) no_updates (packet.voiceStates pk) Hnd)
    as (HL0 & HL1 & HL2).
  cbn zeta in HL0, HL1, HL2. cbn [no_updates updatedSpeaking updatedMuted updatedDeafened app]
    in HL0, HL1, HL2.
  pose proof (reconcile_untouched (users a) no_updates (packet.voiceStates pk)) as Hun.
  pose proof (reconcile_observed (users a) no_updates (packet.voiceStates pk)) as Hob.
  unfold _updateVoiceStates in *.
  destruct (reconcile (users a) no_updates (packet.voiceStates pk)) as [us upd].
  cbn [fst snd] in *.
  eexists _, _, upd. split; [exact Hev|]. split; [reflexivity|].
  split; [destruct s1; exact Hheap|].
  split.
  { destruct s1; cbn [trace set_timers set_trace] in *.
    now rewrite emissions_app, Hc, app_nil_r. }
  rewrite HL0, HL1, HL2. cbn [users].
  split; [intros u; apply changed_users_elem|].
  split; [intros u; apply changed_users_elem|].
  split; [intros u; apply changed_users_elem|].
  split; [now apply changed_users_NoDup|].
  split; [now apply changed_users_NoDup|].
  split; [now apply changed_users_NoDup|].
  split; [intros u o old Hin Hold; now apply Hob|].
  intros u Hnotin. split; [now apply Hun|].
  repeat split; intros Hin;
    apply Hnotin; exact (elem_of_sublist _ _ _ Hin (changed_users_sublist _ _ _ _)).
Qed.

(** *** Sequences of deltas *)

Lemma updateVoiceStates_lists (a : ActiveRoom) (delta : Delta) :
  NoDup delta.*1 ->
  ar_id (fst (_updateVoiceStates a delta)) = ar_id a /\
  updatedSpeaking (snd (_updateVoiceStates a delta))
  = changed_users speaking obs_speaking (users a) delta.
Proof.
  intros Hnd.
  pose proof (reconcile_lists (users a) no_updates delta Hnd) as (H & _).
  unfold _updateVoiceStates.
  destruct (reconcile (users a) no_updates delta) as [us upd].
  split; [reflexivity | exact H].
Qed.

Lemma speaking_events_app (u room : string) (a b : list Effect) :
  speaking_events u room (a ++ b)
  = (speaking_events u room a + speaking_events u room b)%nat.
Proof.
  unfold speaking_events. now rewrite emissions_app, filter_app, length_app.
Qed.

Lemma count_speaking_changed (u room : string) (l : list string) :
  NoDup l ->
  length (filter (fun e => is_speaking_event u room e = true)
            (map (fun x => ("activeSpeakerChange", [AUser x; ARoom room])) l))
  = if bool_decide (u ∈ l) then 1%nat else 0%nat.
Proof.
  induction l as [|x l IH]; intros Hnd; [reflexivity|].
  apply NoDup_cons in Hnd as [Hx Hnd]. specialize (IH Hnd).
  cbn [map]. destruct (String.eqb_spec x u) as [->|Hne].
  - rewrite filter_cons_True
      by (cbn; now rewrite !String.eqb_refl).
    cbn [length]. rewrite IH.
    rewrite (bool_decide_eq_false_2 _ Hx).
    rewrite bool_decide_eq_true_2 by apply list_elem_of_here. reflexivity.
  - rewrite filter_cons_False.
    2:{ cbn. apply String.eqb_neq in Hne. rewrite Hne. cbn. discriminate. }
    rewrite IH. destruct (decide (u ∈ l)) as [Hin|Hin].
    + rewrite !bool_decide_eq_true_2; [reflexivity | now right | assumption].
    + rewrite !bool_decide_eq_false_2; [reflexivity | | assumption].
      intros [->|H]%elem_of_cons; [now apply Hne | contradiction].
Qed.

Lemma count_other_event (u room ev : string) (l : list string) :
  String.eqb ev "activeSpeakerChange" = false ->
  length (filter (fun e => is_speaking_event u room e = true)
            (map (fun x => (ev, [AUser x; ARoom room])) l)) = 0%nat.
Proof.
  intros Hev. induction l as [|x l IH]; [reflexivity|].
  cbn [map]. rewrite filter_cons_False; [exact IH|].
  cbn. rewrite Hev. cbn. discriminate.
Qed.

Lemma count_voice_events (u room : string) (upd : Updates) :
  NoDup (updatedSpeaking upd) ->
  length (filter (fun e => is_speaking_event u room e = true) (voice_events room upd))
  = if bool_decide (u ∈ updatedSpeaking upd) then 1%nat else 0%nat.
Proof.
  intros Hnd. unfold voice_events. rewrite !filter_app, !length_app.
  rewrite (count_speaking_changed u room _ Hnd).
  rewrite (count_other_event u room "muteChange") by reflexivity.
  rewrite (count_other_event u room "deafenChange") by reflexivity.
  lia.
Qed.

Lemma rooms_get_updated (s s' : St) (rid : value) (r : nat) (a a' : ActiveRoom) :
  rooms_get s rid = Some (r, Active a) ->
  rooms s' = rooms s ->
  heap s' = <[r := Active a']> (heap s) ->
  rooms_get s' rid = Some (r, Active a').
Proof.
  unfold rooms_get. intros Hget Hrooms Hheap. rewrite Hrooms, Hheap.
  destruct (Collection_get (rooms s) rid) as [r0|]; [| discriminate].
  cbn [mbind option_bind] in *.
  destruct (heap s !! r0) as [entry|]; [| discriminate].
  cbn [mbind option_bind] in Hget. injection Hget as -> _.
  now rewrite lookup_insert_eq.
Qed.

(** Over a sequence of deltas dispatched in order to a room of the
    mirror, the number of [activeSpeakerChange] events emitted for a user
    is the number of deltas in which the speaking flag observed for that
    user differs from the value the mirror held just before that delta. *)
Lemma speaking_events_of_sequence
    (u : string) (rid : value) (r : nat) (pks : list packet.t) (s : St) (a : ActiveRoom) :
  Forall (fun pk => packet.op pk = ACTIVE_SPEAKER_CHANGE /\
                    prop (packet.d pk) "roomId" = inl rid /\
                    NoDup (packet.voiceStates pk).*1) pks ->
  rooms_get s rid = Some (r, Active a) ->
  exists s',
    forEach pks wsEvent s = Ret tt s' /\
    speaking_events u (ar_id a) (trace s')
    = (speaking_events u (ar_id a) (trace s)
       + speaking_changes u a (map packet.voiceStates pks))%nat.
Proof.
  revert s a. induction pks as [|pk pks IH]; intros s a Hall Hroom.
  - exists s. split; [reflexivity|]. cbn. lia.
  - apply Forall_cons in Hall as ((Hop & Hrid & Hnd) & Hall).
    destruct (active_speaker_change_switch pk s rid r a Hop Hrid Hroom)
      as (s1 & Hsw & Hrooms & Hheap & Hemit).
    destruct (wsEvent_after_break pk s s1 Hsw) as (tm & c & Hev & Hc).
    destruct (updateVoiceStates_lists a (packet.voiceStates pk) Hnd) as (Hid & Hlist).
    pose proof (changed_users_NoDup speaking obs_speaking (users a) _ Hnd) as Hnd'.
    rewrite <- Hlist in Hnd'.
    assert (Hroom' : rooms_get (set_timers tm (set_trace (trace s1 ++ c) s1)) rid
                     = Some (r, Active (fst (_updateVoiceStates a (packet.voiceStates pk))))).
    { apply (rooms_get_updated s _ rid r a); [assumption | |];
        destruct s1; assumption. }
    destruct (IH _ _ Hall Hroom') as (s' & Hrun & Hcount).
    exists s'. split.
    + cbn [forEach bind]. rewrite Hev. exact Hrun.
    + rewrite Hid in Hcount. rewrite Hcount. cbn [map speaking_changes].
      rewrite <- Hlist.
      assert (Hstep : speaking_events u (ar_id a)
                        (trace (set_timers tm (set_trace (trace s1 ++ c) s1)))
                      = (speaking_events u (ar_id a) (trace s)
                         + (if bool_decide
                                 (u ∈ updatedSpeaking
                                        (snd (_updateVoiceStates a (packet.voiceStates pk))))
                            then 1 else 0))%nat).
      { unfold speaking_events. destruct s1; cbn [trace set_timers set_trace] in *.
        rewrite emissions_app, Hc, app_nil_r, Hemit, filter_app, length_app.
        now rewrite (count_voice_events u _ _ Hnd'). }
      rewrite Hstep. lia.
Qed.

Lemma C2_voice_state_changes_witness :
  packet.op Sample.speaking_delta = ACTIVE_SPEAKER_CHANGE /\
  prop (packet.d Sample.speaking_delta) "roomId" = inl (VStr "A") /\
  rooms_get Sample.in_room (VStr "A") = Some (0%nat, Active Sample.room_A) /\
  NoDup (packet.voiceStates Sample.speaking_delta).*1 /\
  exists s',
    wsEvent Sample.speaking_delta Sample.in_room = Ret tt s' /\
    emissions (trace s')
    = emissions (trace Sample.in_room)
      ++ [("activeSpeakerChange", [AUser "U"; ARoom "A"])].
Proof.
  assert (H1 : packet.op Sample.speaking_delta = ACTIVE_SPEAKER_CHANGE) by reflexivity.
  assert (H2 : prop (packet.d Sample.speaking_delta) "roomId" = inl (VStr "A"))
    by reflexivity.
  assert (H3 : rooms_get Sample.in_room (VStr "A") = Some (0%nat, Active Sample.room_A))
    by (vm_compute; reflexivity).
  assert (H4 : NoDup (packet.voiceStates Sample.speaking_delta).*1)
    by (apply (bool_decide_unpack _); vm_compute; reflexivity).
  split; [exact H1|]. split; [exact H2|]. split; [exact H3|]. split; [exact H4|].
  destruct (C2_voice_state_changes Sample.speaking_delta Sample.in_room (VStr "A") 0
              Sample.room_A H1 H2 H3 H4)
    as (s' & a' & upd & Hev & Hupd & _ & Hemit & _).
  exists s'. split; [exact Hev|].
  assert (Hlists : upd = mkUpdates ["U"] [] []).
  { vm_compute in Hupd. now injection Hupd as _ <-. }
  rewrite Hlists in Hemit. exact Hemit.
Defined.

(** * Frames, invariants and round trips *)

(** ** Preservation, handler by handler *)

Section Preserves.
Context (P : St -> Prop).

Lemma preserves_ret {A} (a : A) : preserves P (ret a).
Proof. intros s H. exact H. Qed.

Lemma preserves_throw {A} (exn : value) : preserves P (@throw A exn).
Proof. intros s H. exact H. Qed.

Lemma preserves_gets {A} (f : St -> A) : preserves P (gets f).
Proof. intros s H. exact H. Qed.

Lemma preserves_modify (f : St -> St) :
  (forall s, P s -> P (f s)) -> preserves P (modify f).
Proof. intros Hf s H. exact (Hf s H). Qed.

Lemma preserves_bind {A B} (m : M A) (k : A -> M B) :
  preserves P m -> (forall a, preserves P (k a)) -> preserves P (bind m k).
Proof.
  intros Hm Hk s H. unfold bind. specialize (Hm s H).
  destruct (m s) as [a s'|exn s']; [exact (Hk a s' Hm) | exact Hm].
Qed.

Lemma preserves_try_catch {A} (m : M A) (h : value -> M A) :
  preserves P m -> (forall exn, preserves P (h exn)) -> preserves P (try_catch m h).
Proof.
  intros Hm Hh s H. unfold try_catch. specialize (Hm s H).
  destruct (m s) as [a s'|exn s']; [exact Hm | exact (Hh exn s' Hm)].
Qed.

Lemma preserves_when (b : bool) (m : M unit) :
  preserves P m -> preserves P (when b m).
Proof. intros Hm. destruct b; [exact Hm | apply preserves_ret]. Qed.

Lemma preserves_forEach {A} (l : list A) (f : A -> M unit) :
  (forall x, preserves P (f x)) -> preserves P (forEach l f).
Proof.
  intros Hf. induction l as [|x l IH]; [apply preserves_ret |].
  apply preserves_bind; [apply Hf | intros _; exact IH].
Qed.

Lemma preserves_read (v : value) (k : string) : preserves P (read v k).
Proof. unfold read. destruct (prop v k); [apply preserves_ret | apply preserves_throw]. Qed.

Lemma preserves_defined {A} (o : option A) : preserves P (defined o).
Proof. destruct o; [apply preserves_ret | apply preserves_throw]. Qed.

Lemma preserves_active (entry : RoomEntry) : preserves P (active entry).
Proof. destruct entry; [apply preserves_throw | apply preserves_ret]. Qed.

End Preserves.


Lemma preserves_arm (P : St -> Prop) (t : Timer) :
  (forall s, P s ->
     P (set_nextTimer (S (nextTimer s)) (set_timers (<[nextTimer s := t]> (timers s)) s))) ->
  preserves P (arm t).
Proof. intros Hf s H. exact (Hf s H). Qed.

Lemma preserves_WebSocket_new (P : St -> Prop) (url : string) :
  (forall s, P s ->
     P (set_trace (trace s ++ [NewSocket (nextSocket s) url])
          (set_nextSocket (S (nextSocket s))
             (set_sockets (<[nextSocket s := CONNECTING]> (sockets s)) s)))) ->
  preserves P (WebSocket_new url).
Proof. intros Hf s H. exact (Hf s H). Qed.

Lemma preserves_rooms_add (P : St -> Prop) (a : ActiveRoom) :
  (forall s, P s ->
     P (set_nextRoom (S (nextRoom s))
          (set_heap (<[nextRoom s := Active a]> (heap s))
             (set_rooms (<[ar_id a := nextRoom s]> (rooms s)) s)))) ->
  preserves P (rooms_add a).
Proof. intros Hf s H. exact (Hf s H). Qed.

Ltac frame_side :=
  idtac;
  let s := fresh "s" in let H := fresh "H" in
  intros s H; destruct s;
  first [exact H | msimpl; match goal with |- context [match ?x with _ => _ end] => destruct x end; exact H].

Ltac preserves_step side leaf :=
  lazymatch goal with
  | |- preserves _ (bind _ _) => apply preserves_bind; [| intro]
  | |- preserves _ (ret _) => apply preserves_ret
  | |- preserves _ (throw _) => apply preserves_throw
  | |- preserves _ (gets _) => apply preserves_gets
  | |- preserves _ (read _ _) => apply preserves_read
  | |- preserves _ (defined _) => apply preserves_defined
  | |- preserves _ (construct _) => apply preserves_defined
  | |- preserves _ (active _) => apply preserves_active
  | |- preserves _ (when _ _) => apply preserves_when
  | |- preserves _ (forEach _ _) => apply preserves_forEach; intro
  | |- preserves _ (try_catch _ _) => apply preserves_try_catch; [| intro]
  | |- preserves _ (modify _) => apply preserves_modify; side
  | |- preserves _ (log _) => apply preserves_modify; side
  | |- preserves _ (emit _ _) => apply preserves_modify; side
  | |- preserves _ (put_room _ _) => apply preserves_modify; side
  | |- preserves _ (set_readyState _ _) => apply preserves_modify; side
  | |- preserves _ reset => apply preserves_modify; side
  | |- preserves _ (rooms_add _) => apply preserves_rooms_add; side
  | |- preserves _ (WebSocket_new _) => apply preserves_WebSocket_new; side
  | |- preserves _ (clearTimeout _) => leaf
  | |- preserves _ (setTimeout _ _) => leaf
  | |- preserves _ (setInterval _ _) => leaf
  | |- preserves _ (disconnect _ _ _) => leaf
  | |- preserves _ (wsEvent_switch _) => leaf
  | |- preserves _ hardReset => leaf
  | |- preserves _ start_heartbeat => leaf
  | |- preserves _ (the_room _) => unfold the_room
  | |- preserves _ (update_cache _ _ _) => unfold update_cache
  | |- preserves _ (drop_audio _ _) => unfold drop_audio
  | |- preserves _ self_id => unfold self_id
  | |- preserves _ initWS => unfold initWS
  | |- preserves _ connect => unfold connect
  | |- preserves _ (sendWS _ _ _ _) => unfold sendWS
  | |- preserves _ (sendWSLegacy _ _ _ _) => unfold sendWSLegacy
  | |- preserves _ (auth _) => unfold auth
  | |- preserves _ (waitForRef _ _ _) => unfold waitForRef
  | |- preserves _ (bootstrap_end _ _) => unfold bootstrap_end
  | |- preserves _ (connection_timeout _) => unfold connection_timeout
  | |- preserves _ (resolve _ _ _) => unfold resolve
  | |- preserves _ (wsEvent _) => unfold wsEvent
  | |- preserves _ (on_open _) => unfold on_open
  | |- preserves _ (on_message _ _) => unfold on_message
  | |- preserves _ (on_error _ _ _) => unfold on_error
  | |- preserves _ (on_close _ _ _) => unfold on_close
  | |- preserves _ (heartbeat _) => unfold heartbeat
  | |- preserves _ (fire _ _) => unfold fire
  | |- preserves _ (step _ _) => unfold step
  | |- preserves _ (let _ := _ in _) => cbv zeta
  | |- preserves _ (match ?x with _ => _ end) => destruct x
  end.

Ltac preserves_tac side leaf := repeat preserves_step side leaf.

Ltac timer_leaf side :=
  idtac;
  lazymatch goal with
  | |- preserves _ (clearTimeout _) => apply preserves_modify; side
  | |- preserves _ (setTimeout _ _) => apply preserves_arm; side
  | |- preserves _ (setInterval _ _) => apply preserves_arm; side
  end.

Lemma switch_frame v (pk : packet.t) :
  packet.op pk <> AUTH_REPLY ->
  preserves (fun s => session_fields s = v) (wsEvent_switch pk).
Proof.
  intros Hop. destruct pk as [op p d e r f vs]. cbn [packet.op] in Hop.
  unfold wsEvent_switch. cbn [packet.op packet.d packet.p packet.voiceStates].
  destruct op; try congruence; clear Hop.
  all: preserves_tac frame_side ltac:(timer_leaf frame_side).
Qed.

Lemma switch_keeps_session (pk : packet.t) (s : St) :
  packet.op pk <> AUTH_REPLY ->
  session_fields (state_of (wsEvent_switch pk s)) = session_fields s.
Proof. intros Hop. exact (switch_frame _ pk Hop s eq_refl). Qed.

(** What [disconnect] does to the rest of the session. *)
Lemma disconnect_session (amb : Ambient) (reconnect error : value) (s : St) :
  exists s',
    disconnect amb reconnect error s = Ret tt s' /\
    sockets s' = match ws s with
                 | Some sock => closing sock (sockets s)
                 | None => sockets s
                 end /\
    nextSocket s' = nextSocket s /\ rooms s' = rooms s /\ heap s' = heap s /\
    nextRoom s' = nextRoom s /\ user s' = user s /\ currentRoom s' = currentRoom s /\
    rawWSListeners s' = rawWSListeners s /\ voiceDataCache s' = emptyCache /\
    latency s' = Infinity /\ lastPingSent s' = None /\ lastPingReceived s' = None /\
    (if strict_eq reconnect (VStr "auto") && autoReconnect (options s)
     then
       nextTimer s' = S (nextTimer s) /\ pingInterval s' = pingInterval s /\
       connectAttempts s' = connectAttempts s
     else
       nextTimer s' = nextTimer s /\
       pingInterval s' = (if truthy reconnect then pingInterval s else None) /\
       connectAttempts s' = (if truthy reconnect then connectAttempts s else 0)).
Proof.
  destruct_state s. destruct amb as [now rnd uu raises].
  cbn [options ws trace pingInterval callbacks timers nextTimer reconnectInterval
       connectAttempts close_raises Math_random token sockets nextSocket rooms heap
       nextRoom user currentRoom rawWSListeners].
  destruct (strict_eq reconnect (VStr "auto") && autoReconnect opts) eqn:Hauto;
    destruct (truthy reconnect) eqn:Htruthy;
    destruct pi as [h|], held as [sock|], raises as [exn|];
    unfold disconnect; msimpl; rewrite forEach_clearTimeout; msimpl;
    rewrite ?Hauto; msimpl; rewrite ?Htruthy; msimpl;
    (eexists; split; [reflexivity|]); msimpl; repeat split.
Qed.


Ltac session_eqs Heq :=
  unfold session_fields in Heq; injection Heq; clear Heq; intros;
  unfold backoff_bounds, one_heartbeat;
  repeat match goal with E : ?f _ = ?f _ |- _ => rewrite E; clear E end.

Lemma preserves_switch (P : St -> Prop) (pk : packet.t) :
  (forall s s', session_fields s' = session_fields s -> P s -> P s') ->
  (packet.op pk = AUTH_REPLY -> preserves P (wsEvent_switch pk)) ->
  preserves P (wsEvent_switch pk).
Proof.
  intros Hframe Hauth. destruct (packet.op pk) eqn:Hop; [now apply Hauth | ..].
  all: intros s H; apply (Hframe s); [| exact H].
  all: apply switch_keeps_session; rewrite Hop; discriminate.
Qed.

Lemma preserves_run (P : St -> Prop) (evs : list (Ambient * Event)) :
  Forall (fun ae => preserves P (step (fst ae) (snd ae))) evs ->
  preserves P (run evs).
Proof.
  induction 1 as [|[amb ev] evs Hstep _ IH]; [apply preserves_ret |].
  cbn [run]. apply preserves_bind; [exact Hstep | intros _; exact IH].
Qed.

(** *** The backoff along a run *)

Lemma grow_bounds (interval : Z) (random : Q) :
  1000 <= interval <= 60000 -> (0 <= random)%Q -> (random < 1)%Q ->
  1000 <= grow interval random <= 60000.
Proof.
  intros Hi H0 H1. unfold grow.
  destruct (Math_round_scale interval (random * 2 + 1)) as [Hlo _]; [lia | split; lra |].
  lia.
Qed.

Lemma backoff_disconnect (amb : Ambient) (reconnect error : value) :
  random_ok amb -> preserves backoff_bounds (disconnect amb reconnect error).
Proof.
  intros [H0 H1] s [Hi Hc].
  destruct (disconnect_returns amb reconnect error s)
    as (s' & Hd & _ & _ & _ & _ & _ & _ & _ & Hr).
  destruct (disconnect_session amb reconnect error s)
    as (s'' & Hd' & _ & _ & _ & _ & _ & _ & _ & _ & _ & _ & _ & _ & Hs).
  rewrite Hd in Hd'. injection Hd' as <-. rewrite Hd. cbn [state_of].
  unfold backoff_bounds.
  destruct (strict_eq reconnect (VStr "auto") && autoReconnect (options s)).
  - destruct Hr as (_ & _ & ->). destruct Hs as (_ & _ & ->).
    split; [now apply grow_bounds | exact Hc].
  - destruct Hr as (_ & _ & ->). destruct Hs as (_ & _ & ->).
    destruct (truthy reconnect); lia.
Qed.

Ltac backoff_side :=
  idtac;
  let s := fresh "s" in let H := fresh "H" in
  intros s H; destruct s;
  first [exact H
        | msimpl; match goal with |- context [match ?x with _ => _ end] => destruct x end;
          exact H
        | unfold backoff_bounds in *; msimpl in H; msimpl; lia].

Lemma backoff_switch (pk : packet.t) : preserves backoff_bounds (wsEvent_switch pk).
Proof.
  apply preserves_switch.
  - intros s s' Heq HP. session_eqs Heq. exact HP.
  - intros Hop s _. rewrite (auth_reply_switch pk s Hop).
    destruct s; unfold backoff_bounds; msimpl; lia.
Qed.

Ltac backoff_leaf Hamb :=
  idtac;
  lazymatch goal with
  | |- preserves _ (disconnect _ _ _) => apply backoff_disconnect; exact Hamb
  | |- preserves _ (wsEvent_switch _) => apply backoff_switch
  | |- _ => timer_leaf backoff_side
  end.

Lemma backoff_step (amb : Ambient) (ev : Event) :
  random_ok amb -> preserves backoff_bounds (step amb ev).
Proof.
  intros Hamb. destruct ev; preserves_tac backoff_side ltac:(backoff_leaf Hamb).
Qed.

(** X2.  Along every run of a freshly constructed client in which
    [Math.random()] is in [0,1), the reconnect interval stays between
    1000 and 60000 and the attempt counter is never negative. *)
Theorem reconnect_interval_bounded (t : Token) (o : Options) (evs : list (Ambient * Event)) :
  Forall (fun ae => random_ok (fst ae)) evs ->
  1000 <= reconnectInterval (state_of (run evs (Moonstone_new t o))) <= 60000 /\
  0 <= connectAttempts (state_of (run evs (Moonstone_new t o))).
Proof.
  intros Hevs. apply (preserves_run backoff_bounds).
  - eapply Forall_impl; [exact Hevs |]. intros [amb ev] Hamb. now apply backoff_step.
  - unfold backoff_bounds. cbn. lia.
Qed.

Lemma reconnect_interval_bounded_witness :
  Forall (fun ae => random_ok (fst ae))
    [(Sample.amb, CallConnect); (Sample.amb, SocketError 0 VUndef None)] /\
  1000 <= reconnectInterval
            (state_of (run [(Sample.amb, CallConnect); (Sample.amb, SocketError 0 VUndef None)]
                         Sample.client)) <= 60000.
Proof.
  assert (H : Forall (fun ae : Ambient * Event => random_ok (fst ae))
                [(Sample.amb, CallConnect); (Sample.amb, SocketError 0 VUndef None)]).
  { apply Forall_cons. split; [split; [discriminate | reflexivity] |].
    apply Forall_cons. split; [split; [discriminate | reflexivity] |].
    apply Forall_nil. trivial. }
  split; [exact H |].
  exact (proj1 (reconnect_interval_bounded (mkToken None (VStr "access") (VStr "refresh"))
                  defaultOptions _ H)).
Defined.

(** *** The heartbeat along a run *)

Lemma one_heartbeat_clearTimeout (h : nat) : preserves one_heartbeat (clearTimeout h).
Proof.
  intros s H h' t. destruct s. cbn. intros Ht Ha.
  apply lookup_delete_Some in Ht as [_ Ht]. exact (H h' t Ht Ha).
Qed.

Lemma one_heartbeat_arm (t : Timer) :
  action t <> Heartbeat -> preserves one_heartbeat (arm t).
Proof.
  intros Hne s H h' t'. destruct s. cbn. intros Ht Ha.
  apply lookup_insert_Some in Ht as [[_ <-]|[_ Ht]]; [contradiction | exact (H h' t' Ht Ha)].
Qed.

Lemma none_armed_after_disconnect (s : St) (h : nat) (t : Timer) :
  one_heartbeat s -> timers_after_disconnect s !! h = Some t -> action t <> Heartbeat.
Proof.
  intros H Ht Ha. unfold timers_after_disconnect in Ht.
  assert (Hsub : forall fs tm, cancel_all fs tm !! h = Some t -> tm !! h = Some t).
  { induction fs as [|f fs IH]; intros tm; [trivial |]. cbn. intros Hc.
    specialize (IH _ Hc). now apply lookup_delete_Some in IH as [_ IH]. }
  apply Hsub in Ht. specialize (H h t).
  destruct (pingInterval s) as [h0|].
  - apply lookup_delete_Some in Ht as [Hne Ht]. specialize (H Ht Ha). congruence.
  - specialize (H Ht Ha). discriminate.
Qed.

Lemma one_heartbeat_disconnect (amb : Ambient) (reconnect error : value) :
  preserves one_heartbeat (disconnect amb reconnect error).
Proof.
  intros s H.
  destruct (disconnect_returns amb reconnect error s)
    as (s' & Hd & _ & _ & _ & _ & _ & _ & _ & Hr).
  rewrite Hd. cbn [state_of]. intros h t Ht Ha. exfalso.
  destruct (strict_eq reconnect (VStr "auto") && autoReconnect (options s)).
  - destruct Hr as (_ & Htm & _). rewrite Htm in Ht.
    apply lookup_insert_Some in Ht as [[_ <-]|[_ Ht]]; [discriminate |].
    exact (none_armed_after_disconnect s h t H Ht Ha).
  - destruct Hr as (_ & Htm & _). rewrite Htm in Ht.
    exact (none_armed_after_disconnect s h t H Ht Ha).
Qed.

Lemma one_heartbeat_switch (pk : packet.t) : preserves one_heartbeat (wsEvent_switch pk).
Proof.
  apply preserves_switch.
  - intros s s' Heq HP. session_eqs Heq. exact HP.
  - intros Hop s H. rewrite (auth_reply_switch pk s Hop).
    destruct s as [tok opts cbs cache rms held rdy cing pi ack lpr lps lat interval
                   attempts usr cur hp nr socks ns tms nt raw tr].
    unfold one_heartbeat in *. cbn in *. intros h t Ht Ha.
    apply lookup_insert_Some in Ht as [[-> _]|[Hne Ht]]; [reflexivity | exfalso].
    destruct pi as [h0|].
    + apply lookup_delete_Some in Ht as [Hne0 Ht]. specialize (H h t Ht Ha). congruence.
    + specialize (H h t Ht Ha). discriminate.
Qed.

Ltac heartbeat_leaf :=
  idtac;
  lazymatch goal with
  | |- preserves _ (disconnect _ _ _) => apply one_heartbeat_disconnect
  | |- preserves _ (wsEvent_switch _) => apply one_heartbeat_switch
  | |- preserves _ (clearTimeout _) => apply one_heartbeat_clearTimeout
  | |- preserves _ (setTimeout _ _) => apply one_heartbeat_arm; discriminate
  end.

Lemma one_heartbeat_step (amb : Ambient) (ev : Event) :
  preserves one_heartbeat (step amb ev).
Proof. destruct ev; preserves_tac frame_side heartbeat_leaf. Qed.

(** X3.  Along every run of a freshly constructed client, an armed
    heartbeat interval is the one [this.pingInterval] holds: two heartbeats
    are never armed at once. *)
Theorem heartbeat_interval_unique (t : Token) (o : Options) (evs : list (Ambient * Event))
    (h : nat) (tm : Timer) :
  timers (state_of (run evs (Moonstone_new t o))) !! h = Some tm ->
  action tm = Heartbeat ->
  pingInterval (state_of (run evs (Moonstone_new t o))) = Some h.
Proof.
  revert h tm. change (one_heartbeat (state_of (run evs (Moonstone_new t o)))).
  apply (preserves_run one_heartbeat).
  - apply Forall_forall. intros [amb ev] _. apply one_heartbeat_step.
  - intros h tm Ht. cbn in Ht. rewrite lookup_empty in Ht. discriminate.
Qed.

Lemma heartbeat_interval_unique_witness :
  timers Sample.connected !! 1%nat = Some (mkTimer Heartbeat 8000 true) /\
  pingInterval Sample.connected = Some 1%nat.
Proof.
  unfold Sample.connected, Sample.client.
  assert (H : timers (state_of (run [(Sample.amb, CallConnect); (Sample.amb, SocketOpen 0);
                                     (Sample.amb, SocketMessage 0 (Frame Sample.auth_reply))]
                                  (Moonstone_new (mkToken None (VStr "access") (VStr "refresh"))
                                     defaultOptions))) !! 1%nat
              = Some (mkTimer Heartbeat 8000 true))
    by (vm_compute; reflexivity).
  split; [exact H |].
  apply (heartbeat_interval_unique _ _ _ _ _ H). reflexivity.
Defined.

Lemma sendWS_open (amb : Ambient) (op : Request) (data : value) (ref : option string)
    (s : St) (sock : nat) :
  ws s = Some sock -> readyState (sockets s) sock = OPEN ->
  let r := default (uuid amb) (str_truthy ref) in
  sendWS amb op data ref s
  = Ret (Some r)
      (set_trace (trace s ++ [Send sock (EnvelopeA op data "0.2.0" r);
                              Emit "debug" [AFrame (EnvelopeA op data "0.2.0" r)]]) s).
Proof.
  destruct_state s. cbn [ws sockets trace]. intros -> Hopen.
  unfold sendWS. msimpl. rewrite Hopen. cbn [ReadyState_eqb]. msimpl.
  now rewrite <- app_assoc.
Qed.

Lemma sendWSLegacy_open (amb : Ambient) (op : Request) (data : value) (ref : option string)
    (s : St) (sock : nat) :
  ws s = Some sock -> readyState (sockets s) sock = OPEN ->
  let r := default (uuid amb) (str_truthy ref) in
  sendWSLegacy amb op data ref s
  = Ret (Some r)
      (set_trace (trace s ++ [Send sock (EnvelopeB op data r);
                              Emit "debug" [AFrame (EnvelopeB op data r)]]) s).
Proof.
  destruct_state s. cbn [ws sockets trace]. intros -> Hopen.
  unfold sendWSLegacy. msimpl. rewrite Hopen. cbn [ReadyState_eqb]. msimpl.
  now rewrite <- app_assoc.
Qed.

Lemma sendWS_not_open (amb : Ambient) (op : Request) (data : value) (ref : option string)
    (s : St) :
  connection_open s = false ->
  sendWS amb op data ref s = Ret None s /\ sendWSLegacy amb op data ref s = Ret None s.
Proof.
  destruct_state s. unfold connection_open. cbn [ws sockets]. intros Hc.
  destruct held as [sock|]; unfold sendWS, sendWSLegacy; msimpl; rewrite ?Hc; split; reflexivity.
Qed.

Lemma waitForRef_fresh (k : string) (cb err : Cont) (s : St) :
  callbacks s !! k = None ->
  waitForRef (Some k) cb err s
  = Ret tt
      (set_callbacks (<[k := [mkRegistration cb err (nextTimer s)]]> (callbacks s))
         (set_nextTimer (S (nextTimer s))
            (set_timers
               (<[nextTimer s := mkTimer (ReplyTimeout err) (callbackTimeout (options s)) false]>
                  (timers s)) s))).
Proof.
  destruct_state s. cbn [callbacks nextTimer timers options]. intros Hk.
  unfold waitForRef. change (key_of (Some k)) with k. msimpl. rewrite Hk. msimpl.
  rewrite !lookup_insert_eq. cbn [default app]. rewrite insert_insert_eq. reflexivity.
Qed.


(** ** What the switch never does *)
Ltac calls_side :=
  idtac;
  let s := fresh "s" in let H := fresh "H" in
  intros s H; destruct s;
  first [exact H
        | msimpl in H; msimpl; rewrite calls_app, H; apply app_nil_r ].

Lemma switch_never_calls (pk : packet.t) (s : St) :
  calls (trace (state_of (wsEvent_switch pk s))) = calls (trace s).
Proof.
  enough (H : forall c, preserves (fun s => calls (trace s) = c) (wsEvent_switch pk))
    by exact (H _ s eq_refl).
  intros c. destruct pk as [op p d e r f vs].
  unfold wsEvent_switch. cbn [packet.op packet.d packet.p packet.voiceStates].
  destruct op.
  all: preserves_tac calls_side ltac:(first [timer_leaf calls_side | unfold start_heartbeat]).
Qed.

Lemma switch_keeps_pending (pk : packet.t) (s s' : St) :
  packet.op pk <> AUTH_REPLY ->
  wsEvent_switch pk s = Ret Break s' ->
  callbacks s' = callbacks s /\ timers s' = timers s /\ calls (trace s') = calls (trace s).
Proof.
  intros Hop Hsw.
  pose proof (switch_keeps_session pk s Hop) as Hf.
  pose proof (switch_never_calls pk s) as Hc.
  rewrite Hsw in Hf, Hc. cbn [state_of] in Hf, Hc.
  unfold session_fields in Hf. injection Hf. intros. auto.
Qed.

(** ** Requests and their replies *)

(** One registration under its id, then a packet with that id. *)
Lemma reply_to_one (amb : Ambient) (pk : packet.t) (s s' : St) (k : string)
    (f : Registration) (ok : value) :
  k <> "" ->
  callbacks s !! k = Some [f] ->
  packet.op pk <> AUTH_REPLY ->
  wsEvent_switch pk s = Ret Break s' ->
  (packet.ref pk = Some k /\ packet.fetchId pk = None /\ ok = packet.p pk) \/
  (packet.ref pk = None /\ packet.fetchId pk = Some k /\ ok = packet.d pk) ->
  exists s2,
    wsEvent pk s = Ret tt s2 /\
    calls (trace s2) = calls (trace s) ++ calls (reply_calls [f] (packet.e pk) ok) /\
    callbacks s2 = callbacks s /\
    fire amb (timer f) s2 = Ret tt s2.
Proof.
  intros Hk Hfs Hop Hsw Hid.
  destruct (switch_keeps_pending pk s s' Hop Hsw) as (Hcb & Htm & Hcalls).
  rewrite <- Hcb in Hfs. rewrite <- Hcalls, <- Hcb. clear Hcb Htm Hcalls Hop.
  rewrite (wsEvent_break pk s s' Hsw). unfold bind.
  destruct Hid as [(-> & -> & ->)|(-> & -> & ->)].
  - rewrite (resolve_spec k _ _ [f] s' Hk Hfs), resolve_none.
    eexists. split; [reflexivity |]. destruct_state s'. cbn [trace callbacks set_timers set_trace].
    split; [apply calls_app |]. split; [reflexivity |].
    apply fire_unarmed. cbn [timers set_timers set_trace]. cbn [cancel_all foldl].
    apply lookup_delete_eq.
  - rewrite resolve_none, (resolve_spec k _ _ [f] s' Hk Hfs).
    eexists. split; [reflexivity |]. destruct_state s'. cbn [trace callbacks set_timers set_trace].
    split; [apply calls_app |]. split; [reflexivity |].
    apply fire_unarmed. cbn [timers set_timers set_trace]. cbn [cancel_all foldl].
    apply lookup_delete_eq.
Qed.

Lemma request_registered (amb : Ambient) (k : string) (cb rej : Cont) (s : St)
    (effs : list Effect) :
  callbacks s !! k = None ->
  exists s1,
    waitForRef (Some k) cb rej (set_trace (trace s ++ effs) s) = Ret tt s1 /\
    trace s1 = trace s ++ effs /\
    callbacks s1 !! k = Some [mkRegistration cb rej (nextTimer s)] /\
    timers s1 !! nextTimer s
    = Some (mkTimer (ReplyTimeout rej) (callbackTimeout (options s)) false).
Proof.
  intros Hk. rewrite waitForRef_fresh by (destruct s; exact Hk).
  eexists. split; [reflexivity |]. destruct_state s. msimpl.
  split; [reflexivity |]. split; apply lookup_insert_eq.
Qed.

(** X5.  [getTopRooms] on an open socket sends one envelope-A frame (the
    cursor defaulting to 0) under a fresh uuid and registers the caller's
    continuations under that uuid with a reply timer.  A later packet with
    that [ref] calls the rejection when [e] is truthy and the registered
    success closure when [p] is truthy, and cancels the timer. *)
Theorem getTopRooms_round_trip (amb : Ambient) (cursor : value) (cb rej : Cont)
    (s : St) (sock : nat) :
  ws s = Some sock -> readyState (sockets s) sock = OPEN ->
  uuid amb <> "" -> callbacks s !! uuid amb = None ->
  exists s1,
    getTopRooms amb cursor cb rej s = Ret tt s1 /\
    trace s1
    = trace s
      ++ [Send sock (EnvelopeA TOP_ROOMS (VObj [("cursor", default_cursor cursor)])
                       "0.2.0" (uuid amb));
          Emit "debug" [AFrame (EnvelopeA TOP_ROOMS (VObj [("cursor", default_cursor cursor)])
                                  "0.2.0" (uuid amb))]] /\
    callbacks s1 !! uuid amb = Some [mkRegistration cb rej (nextTimer s)] /\
    timers s1 !! nextTimer s
    = Some (mkTimer (ReplyTimeout rej) (callbackTimeout (options s)) false) /\
    forall amb' pk s',
      packet.op pk <> AUTH_REPLY ->
      wsEvent_switch pk s1 = Ret Break s' ->
      packet.ref pk = Some (uuid amb) -> packet.fetchId pk = None ->
      exists s2,
        wsEvent pk s1 = Ret tt s2 /\
        calls (trace s2)
        = calls (trace s)
          ++ (if truthy (packet.e pk) then [(rej, packet.e pk)] else [])
          ++ (if truthy (packet.p pk) then [(cb, packet.p pk)] else []) /\
        fire amb' (nextTimer s) s2 = Ret tt s2.
Proof.
  intros Hws Hopen Hid Hfresh.
  destruct (request_registered amb (uuid amb) cb rej s
              [Send sock (EnvelopeA TOP_ROOMS (VObj [("cursor", default_cursor cursor)])
                            "0.2.0" (uuid amb));
               Emit "debug" [AFrame (EnvelopeA TOP_ROOMS
                                       (VObj [("cursor", default_cursor cursor)])
                                       "0.2.0" (uuid amb))]] Hfresh)
    as (s1 & Hreq & Htr & Hcb & Htm).
  exists s1. split.
  { unfold getTopRooms, bind.
    rewrite (sendWS_open amb _ _ None s sock Hws Hopen). exact Hreq. }
  split; [exact Htr |]. split; [exact Hcb |]. split; [exact Htm |].
  intros amb' pk s' Hop Hsw Href Hfid.
  destruct (reply_to_one amb' pk s1 s' (uuid amb) _ (packet.p pk) Hid Hcb Hop Hsw)
    as (s2 & Hev & Hcalls & _ & Hfire); [left; auto |].
  exists s2. split; [exact Hev |]. split; [| exact Hfire].
  rewrite Hcalls, calls_reply_calls, Htr, calls_app. cbn [calls omap]. rewrite app_nil_r.
  reflexivity.
Qed.

Lemma getTopRooms_round_trip_witness :
  ws Sample.connected = Some 0%nat /\
  exists s1,
    getTopRooms Sample.amb VUndef 0 1 Sample.connected = Ret tt s1 /\
    callbacks s1 !! "ref-1" = Some [mkRegistration 0 1 2].
Proof.
  assert (Hws : ws Sample.connected = Some 0%nat) by (vm_compute; reflexivity).
  split; [exact Hws |].
  destruct (getTopRooms_round_trip Sample.amb VUndef 0%nat 1%nat Sample.connected 0%nat Hws)
    as (s1 & Hreq & _ & Hcb & _).
  - vm_compute; reflexivity.
  - discriminate.
  - vm_compute; reflexivity.
  - exists s1. split; [exact Hreq | exact Hcb].
Defined.

(** X6.  [joinRoom] raises what the computation of the room id raises,
    before anything is sent.  Otherwise, on an open socket, it sends one
    envelope-B frame with the room id (the string itself, or the [id] of
    the room, or else its [roomId]); a later packet with that [fetchId]
    settles the request from [e] and [d] and cancels the timer. *)
Theorem joinRoom_round_trip (amb : Ambient) (room : value) (cb rej : Cont)
    (s : St) (sock : nat) :
  ws s = Some sock -> readyState (sockets s) sock = OPEN ->
  uuid amb <> "" -> callbacks s !! uuid amb = None ->
  match room_id_of room with
  | inr exn => joinRoom amb room cb rej s = Throw exn s
  | inl roomId =>
      exists s1,
        joinRoom amb room cb rej s = Ret tt s1 /\
        trace s1
        = trace s
          ++ [Send sock (EnvelopeB JOIN_ROOM (VObj [("roomId", roomId)]) (uuid amb));
              Emit "debug"
                [AFrame (EnvelopeB JOIN_ROOM (VObj [("roomId", roomId)]) (uuid amb))]] /\
        callbacks s1 !! uuid amb = Some [mkRegistration cb rej (nextTimer s)] /\
        forall amb' pk s',
          packet.op pk <> AUTH_REPLY ->
          wsEvent_switch pk s1 = Ret Break s' ->
          packet.ref pk = None -> packet.fetchId pk = Some (uuid amb) ->
          exists s2,
            wsEvent pk s1 = Ret tt s2 /\
            calls (trace s2)
            = calls (trace s)
              ++ (if truthy (packet.e pk) then [(rej, packet.e pk)] else [])
              ++ (if truthy (packet.d pk) then [(cb, packet.d pk)] else []) /\
            fire amb' (nextTimer s) s2 = Ret tt s2
  end.
Proof.
  intros Hws Hopen Hid Hfresh.
  destruct (room_id_of room) as [roomId|exn] eqn:Hroom.
  2: { unfold joinRoom, bind. rewrite Hroom. reflexivity. }
  destruct (request_registered amb (uuid amb) cb rej s
              [Send sock (EnvelopeB JOIN_ROOM (VObj [("roomId", roomId)]) (uuid amb));
               Emit "debug"
                 [AFrame (EnvelopeB JOIN_ROOM (VObj [("roomId", roomId)]) (uuid amb))]]
              Hfresh)
    as (s1 & Hreq & Htr & Hcb & Htm).
  exists s1. split.
  { unfold joinRoom, bind. rewrite Hroom. cbn [ret].
    rewrite (sendWSLegacy_open amb _ _ None s sock Hws Hopen). exact Hreq. }
  split; [exact Htr |]. split; [exact Hcb |].
  intros amb' pk s' Hop Hsw Href Hfid.
  destruct (reply_to_one amb' pk s1 s' (uuid amb) _ (packet.d pk) Hid Hcb Hop Hsw)
    as (s2 & Hev & Hcalls & _ & Hfire); [right; auto |].
  exists s2. split; [exact Hev |]. split; [| exact Hfire].
  rewrite Hcalls, calls_reply_calls, Htr, calls_app. cbn [calls omap]. rewrite app_nil_r.
  reflexivity.
Qed.

Lemma joinRoom_round_trip_witness :
  ws Sample.connected = Some 0%nat /\
  exists s1,
    joinRoom Sample.amb (VStr "A") 0 1 Sample.connected = Ret tt s1 /\
    callbacks s1 !! "ref-1" = Some [mkRegistration 0 1 2].
Proof.
  assert (Hws : ws Sample.connected = Some 0%nat) by (vm_compute; reflexivity).
  split; [exact Hws |].
  assert (Hopen : readyState (sockets Sample.connected) 0 = OPEN) by (vm_compute; reflexivity).
  assert (Hid : uuid Sample.amb <> "") by discriminate.
  assert (Hfresh : callbacks Sample.connected !! uuid Sample.amb = None)
    by (vm_compute; reflexivity).
  pose proof (joinRoom_round_trip Sample.amb (VStr "A") 0%nat 1%nat Sample.connected 0%nat
                Hws Hopen Hid Hfresh) as H.
  cbn [room_id_of] in H. destruct H as (s1 & Hreq & _ & Hcb & _).
  exists s1. split; [exact Hreq | exact Hcb].
Defined.

(** X7.  Without an open socket [sendWS] returns [undefined]: [createRoom]
    sends nothing, registers the continuations under the key
    ["undefined"], after the registrations already there, and the request
    ends when its timer calls the error continuation. *)
Theorem request_without_open_socket (amb amb' : Ambient) (fields : list (string * value))
    (cb rej : Cont) (s : St) :
  connection_open s = false ->
  exists s1,
    createRoom amb (VObj fields) cb rej s = Ret tt s1 /\
    trace s1 = trace s /\
    callbacks s1 !! "undefined"
    = Some (default [] (callbacks s !! "undefined") ++ [mkRegistration cb rej (nextTimer s)]) /\
    (forall k, k <> "undefined" -> callbacks s1 !! k = callbacks s !! k) /\
    exists s2,
      fire amb' (nextTimer s) s1 = Ret tt s2 /\
      trace s2 = trace s ++ [Call rej (VStr "Reply timed out.")].
Proof.
  intros Hclosed.
  destruct (waitForRef_spec None cb rej s) as (s1 & Hw & Hcb & Hother & Htm & _ & Htr).
  exists s1. split.
  { unfold createRoom. cbn [read prop]. unfold bind at 1 2 3. cbn [ret]. cbv zeta.
    unfold bind. destruct (sendWS_not_open amb CREATE_ROOM
      (VObj [("name", assoc "name" fields);
             ("description", match assoc "description" fields with
                             | VUndef => VStr "" | _ => assoc "description" fields end);
             ("privacy", match assoc "privacy" fields with
                         | VUndef => VStr "public" | _ => assoc "privacy" fields end)])
      None s Hclosed) as [-> _]. exact Hw. }
  split; [exact Htr |]. split; [exact Hcb |]. split; [exact Hother |].
  eexists. split.
  - apply fire_reply_timeout with (ms := callbackTimeout (options s)).
    rewrite Htm. apply lookup_insert_eq.
  - destruct_state s1. msimpl. msimpl in Htr. now rewrite Htr.
Qed.

Lemma request_without_open_socket_witness :
  connection_open Sample.client = false /\
  exists s1,
    createRoom Sample.amb (VObj [("name", VStr "room")]) 0 1 Sample.client = Ret tt s1 /\
    trace s1 = trace Sample.client /\
    callbacks s1 !! "undefined" = Some [mkRegistration 0 1 0].
Proof.
  assert (H : connection_open Sample.client = false) by reflexivity.
  split; [exact H |].
  destruct (request_without_open_socket Sample.amb Sample.amb [("name", VStr "room")]
              0%nat 1%nat Sample.client H)
    as (s1 & Hreq & Htr & Hcb & _).
  exists s1. split; [exact Hreq |]. split; [exact Htr | exact Hcb].
Defined.


(** ** Disconnect and the pending requests *)

Lemma indexed_registrations_elem (cbs : gmap string (list Registration)) (k : string)
    (fs : list Registration) (f : Registration) :
  cbs !! k = Some fs -> is_array_index k = true -> f ∈ fs ->
  f ∈ indexed_registrations cbs.
Proof.
  intros Hk Hidx Hf. unfold indexed_registrations.
  apply list_elem_of_In, in_concat. exists fs. split; [| now apply list_elem_of_In].
  apply in_map_iff. exists (k, fs). split; [reflexivity |].
  apply list_elem_of_In, list_elem_of_filter. split; [exact Hidx |].
  now apply elem_of_map_to_list.
Qed.

Lemma timers_after_disconnect_other (s : St) (h : nat) :
  pingInterval s <> Some h ->
  (forall g, g ∈ indexed_registrations (callbacks s) -> timer g <> h) ->
  timers_after_disconnect s !! h = timers s !! h.
Proof.
  intros Hpi Hidx. unfold timers_after_disconnect.
  rewrite cancel_all_lookup_other by exact Hidx.
  destruct (pingInterval s) as [h0|]; [| reflexivity].
  apply lookup_delete_ne. congruence.
Qed.

Lemma timers_after_disconnect_indexed (s : St) (f : Registration) :
  f ∈ indexed_registrations (callbacks s) ->
  timers_after_disconnect s !! timer f = None.
Proof. intros Hf. unfold timers_after_disconnect. now apply cancel_all_lookup_in. Qed.

Lemma disconnect_never_calls (amb : Ambient) (reconnect error : value) (s s' : St) :
  disconnect amb reconnect error s = Ret tt s' -> calls (trace s') = calls (trace s).
Proof.
  intros Hd.
  destruct (disconnect_returns amb reconnect error s)
    as (s1 & Hd1 & _ & _ & _ & _ & _ & _ & _ & Hr).
  rewrite Hd in Hd1. injection Hd1 as <-.
  assert (Hce : calls (close_effects amb (ws s) reconnect error) = []).
  { unfold close_effects. destruct (ws s); [| reflexivity].
    destruct (close_raises amb); reflexivity. }
  destruct (strict_eq reconnect (VStr "auto") && autoReconnect (options s));
    destruct Hr as (-> & _); rewrite !calls_app, Hce; cbn; now rewrite ?app_nil_r.
Qed.

Lemma switch_keeps_callbacks (pk : packet.t) (s : St) :
  callbacks (state_of (wsEvent_switch pk s)) = callbacks s.
Proof.
  enough (H : forall c, preserves (fun s => callbacks s = c) (wsEvent_switch pk))
    by exact (H _ s eq_refl).
  intros c. destruct pk as [op p d e r f vs].
  unfold wsEvent_switch. cbn [packet.op packet.d packet.p packet.voiceStates].
  destruct op.
  all: preserves_tac frame_side ltac:(first [timer_leaf frame_side | unfold start_heartbeat]).
Qed.

(** X1.  The switch of the dispatcher never calls a continuation and never
    changes the pending-request table; and unless the packet is the
    authentication reply it changes no field of the session (socket, flags,
    heartbeat, backoff, timers, user, current room): whether it breaks,
    returns or raises, it only touches the tokens, the mirror, the voice
    transport cache and the trace. *)
Theorem switch_frame_rule (pk : packet.t) (s : St) :
  calls (trace (state_of (wsEvent_switch pk s))) = calls (trace s) /\
  callbacks (state_of (wsEvent_switch pk s)) = callbacks s /\
  (packet.op pk <> AUTH_REPLY ->
   session_fields (state_of (wsEvent_switch pk s)) = session_fields s).
Proof.
  split; [apply switch_never_calls |]. split; [apply switch_keeps_callbacks |].
  apply switch_keeps_session.
Qed.

Lemma switch_frame_rule_witness :
  packet.op Sample.user_joined <> AUTH_REPLY /\
  session_fields (state_of (wsEvent_switch Sample.user_joined Sample.pending1))
  = session_fields Sample.pending1.
Proof.
  assert (H : packet.op Sample.user_joined <> AUTH_REPLY) by discriminate.
  split; [exact H |].
  exact (proj2 (proj2 (switch_frame_rule Sample.user_joined Sample.pending1)) H).
Defined.

Lemma uncorrelated_calls_nothing (pk : packet.t) (s : St) :
  (forall k, packet.ref pk = Some k -> callbacks s !! k = None) ->
  (forall k, packet.fetchId pk = Some k -> callbacks s !! k = None) ->
  calls (trace (state_of (wsEvent pk s))) = calls (trace s).
Proof.
  intros Href Hfid.
  pose proof (switch_never_calls pk s) as Hc.
  pose proof (switch_keeps_callbacks pk s) as Hcb.
  unfold wsEvent, bind.
  destruct (wsEvent_switch pk s) as [[|] s'|exn s']; cbn [state_of] in *;
    [| exact Hc | exact Hc].
  assert (H1 : resolve (packet.ref pk) (packet.e pk) (packet.p pk) s' = Ret tt s').
  { destruct (packet.ref pk) as [k|]; [| reflexivity].
    apply resolve_unknown. rewrite Hcb. now apply Href. }
  assert (H2 : resolve (packet.fetchId pk) (packet.e pk) (packet.d pk) s' = Ret tt s').
  { destruct (packet.fetchId pk) as [k|]; [| reflexivity].
    apply resolve_unknown. rewrite Hcb. now apply Hfid. }
  rewrite H1, H2. exact Hc.
Qed.

Lemma empty_table_calls_nothing (pk : packet.t) (s : St) :
  callbacks s = ∅ -> calls (trace (state_of (wsEvent pk s))) = calls (trace s).
Proof.
  intros Hcb. apply uncorrelated_calls_nothing; intros k _; rewrite Hcb; apply lookup_empty.
Qed.

(** X8.  [disconnect] calls no continuation and empties the table, and it
    cancels only the heartbeat and the timers of registrations whose id is
    an array index.  Any other reply timer stays armed: after the
    disconnect no packet calls a continuation, and the timer still calls
    its error continuation when it fires. *)
Theorem reply_timer_outlives_disconnect (amb amb' : Ambient) (reconnect error : value)
    (s : St) (h : nat) (rej : Cont) (ms : Z) :
  timers s !! h = Some (mkTimer (ReplyTimeout rej) ms false) ->
  (forall g, g ∈ indexed_registrations (callbacks s) -> timer g <> h) ->
  pingInterval s <> Some h ->
  h <> nextTimer s ->
  exists s1,
    disconnect amb reconnect error s = Ret tt s1 /\
    callbacks s1 = ∅ /\
    calls (trace s1) = calls (trace s) /\
    (forall pk, calls (trace (state_of (wsEvent pk s1))) = calls (trace s)) /\
    timers s1 !! h = Some (mkTimer (ReplyTimeout rej) ms false) /\
    exists s2,
      fire amb' h s1 = Ret tt s2 /\
      calls (trace s2) = calls (trace s) ++ [(rej, VStr "Reply timed out.")].
Proof.
  intros Ht Hidx Hpi Hnt.
  destruct (disconnect_returns amb reconnect error s)
    as (s1 & Hd & _ & _ & _ & _ & Hcb & _ & _ & Hr).
  pose proof (disconnect_never_calls amb reconnect error s s1 Hd) as Hcalls.
  assert (Ht1 : timers s1 !! h = Some (mkTimer (ReplyTimeout rej) ms false)).
  { destruct (strict_eq reconnect (VStr "auto") && autoReconnect (options s));
      destruct Hr as (_ & -> & _).
    - rewrite lookup_insert_ne by congruence.
      now rewrite timers_after_disconnect_other.
    - now rewrite timers_after_disconnect_other. }
  exists s1. split; [exact Hd |]. split; [exact Hcb |]. split; [exact Hcalls |].
  split; [intros pk; now rewrite empty_table_calls_nothing |].
  split; [exact Ht1 |].
  eexists. split; [exact (fire_reply_timeout amb' h rej ms s1 Ht1) |].
  destruct_state s1. msimpl. msimpl in Hcalls. rewrite calls_app, Hcalls. reflexivity.
Qed.

Lemma reply_timer_outlives_disconnect_witness :
  timers Sample.pending1 !! 2%nat = Some (mkTimer (ReplyTimeout 1) 2000 false) /\
  exists s1,
    disconnect Sample.amb (VStr "auto") VUndef Sample.pending1 = Ret tt s1 /\
    callbacks s1 = ∅ /\
    timers s1 !! 2%nat = Some (mkTimer (ReplyTimeout 1) 2000 false).
Proof.
  assert (H : timers Sample.pending1 !! 2%nat = Some (mkTimer (ReplyTimeout 1) 2000 false))
    by (vm_compute; reflexivity).
  split; [exact H |].
  destruct (reply_timer_outlives_disconnect Sample.amb Sample.amb (VStr "auto") VUndef
              Sample.pending1 2%nat 1%nat 2000 H)
    as (s1 & Hd & Hcb & _ & _ & Ht & _).
  - intros g Hg. vm_compute in Hg. inversion Hg.
  - vm_compute. discriminate.
  - vm_compute. discriminate.
  - exists s1. split; [exact Hd |]. split; [exact Hcb | exact Ht].
Defined.

(** X9.  A request registered under an id that is an array index is
    dropped by [disconnect]: its timer is cancelled and the table emptied,
    so neither the timer nor any later packet calls its continuations. *)
Theorem indexed_request_dropped_by_disconnect (amb amb' : Ambient) (reconnect error : value)
    (s : St) (k : string) (fs : list Registration) (f : Registration) :
  callbacks s !! k = Some fs -> is_array_index k = true -> f ∈ fs ->
  timer f <> nextTimer s ->
  exists s1,
    disconnect amb reconnect error s = Ret tt s1 /\
    calls (trace s1) = calls (trace s) /\
    timers s1 !! timer f = None /\
    fire amb' (timer f) s1 = Ret tt s1 /\
    forall pk, calls (trace (state_of (wsEvent pk s1))) = calls (trace s).
Proof.
  intros Hk Hidx Hf Hnt.
  pose proof (indexed_registrations_elem _ k fs f Hk Hidx Hf) as Hin.
  destruct (disconnect_returns amb reconnect error s)
    as (s1 & Hd & _ & _ & _ & _ & Hcb & _ & _ & Hr).
  pose proof (disconnect_never_calls amb reconnect error s s1 Hd) as Hcalls.
  assert (Ht1 : timers s1 !! timer f = None).
  { destruct (strict_eq reconnect (VStr "auto") && autoReconnect (options s));
      destruct Hr as (_ & -> & _).
    - rewrite lookup_insert_ne by congruence.
      now apply timers_after_disconnect_indexed.
    - now apply timers_after_disconnect_indexed. }
  exists s1. split; [exact Hd |]. split; [exact Hcalls |]. split; [exact Ht1 |].
  split; [now apply fire_unarmed |].
  intros pk. now rewrite empty_table_calls_nothing.
Qed.

Lemma indexed_request_dropped_by_disconnect_witness :
  callbacks Scenario.indexed !! "0" = Some [mkRegistration 4 5 2] /\
  is_array_index "0" = true /\
  exists s1,
    disconnect Sample.amb (VStr "auto") VUndef Scenario.indexed = Ret tt s1 /\
    timers s1 !! 2%nat = None.
Proof.
  assert (Hk : callbacks Scenario.indexed !! "0" = Some [mkRegistration 4 5 2])
    by (vm_compute; reflexivity).
  split; [exact Hk |]. split; [reflexivity |].
  destruct (indexed_request_dropped_by_disconnect Sample.amb Sample.amb (VStr "auto") VUndef
              Scenario.indexed "0" [mkRegistration 4 5 2] (mkRegistration 4 5 2) Hk)
    as (s1 & Hd & _ & Ht & _).
  - reflexivity.
  - apply list_elem_of_here.
  - vm_compute. discriminate.
  - exists s1. split; [exact Hd | exact Ht].
Defined.

(** X4.  A packet whose [ref] and [fetchId] name no pending request calls
    no continuation and leaves the table as it is; unless it is the
    authentication reply it leaves every timer as it is. *)
Theorem uncorrelated_packet (pk : packet.t) (s : St) :
  (forall k, packet.ref pk = Some k -> callbacks s !! k = None) ->
  (forall k, packet.fetchId pk = Some k -> callbacks s !! k = None) ->
  calls (trace (state_of (wsEvent pk s))) = calls (trace s) /\
  callbacks (state_of (wsEvent pk s)) = callbacks s /\
  (packet.op pk <> AUTH_REPLY -> timers (state_of (wsEvent pk s)) = timers s).
Proof.
  intros Href Hfid. split; [now apply uncorrelated_calls_nothing |].
  pose proof (switch_keeps_callbacks pk s) as Hcb.
  assert (Hres : forall s', callbacks s' = callbacks s ->
            (resolve (packet.ref pk) (packet.e pk) (packet.p pk) ;;
             resolve (packet.fetchId pk) (packet.e pk) (packet.d pk)) s' = Ret tt s').
  { intros s' Hs'. unfold bind.
    assert (H1 : resolve (packet.ref pk) (packet.e pk) (packet.p pk) s' = Ret tt s').
    { destruct (packet.ref pk) as [k|]; [| reflexivity].
      apply resolve_unknown. rewrite Hs'. now apply Href. }
    rewrite H1.
    destruct (packet.fetchId pk) as [k|]; [| reflexivity].
    apply resolve_unknown. rewrite Hs'. now apply Hfid. }
  assert (Hst : state_of (wsEvent pk s) = state_of (wsEvent_switch pk s)).
  { unfold wsEvent. unfold bind at 1.
    destruct (wsEvent_switch pk s) as [[|] s'|exn s']; cbn [state_of] in *;
      [| reflexivity | reflexivity].
    now rewrite (Hres s' Hcb). }
  rewrite Hst. split; [exact Hcb |].
  intros Hop. pose proof (switch_keeps_session pk s Hop) as Hf.
  unfold session_fields in Hf. injection Hf. intros. assumption.
Qed.

Lemma uncorrelated_packet_witness :
  calls (trace (state_of (wsEvent Sample.user_joined Sample.pending1)))
  = calls (trace Sample.pending1).
Proof.
  apply (uncorrelated_packet Sample.user_joined Sample.pending1); intros k Hk; discriminate Hk.
Defined.


(** ** An error event followed by a close event *)

Lemma on_error_disconnects (amb : Ambient) (err : value) (msg : option string) (s : St) :
  on_error amb err msg s
  = disconnect amb (VStr "auto") err
      (match str_truthy msg with
       | Some m => set_trace (trace s ++ [Emit "debug" [AVal (VStr ("WS error: " +:+ m))]]) s
       | None => s
       end).
Proof. unfold on_error. destruct (str_truthy msg); destruct s; reflexivity. Qed.

Lemma indexed_registrations_empty : indexed_registrations ∅ = [].
Proof. unfold indexed_registrations. now rewrite map_to_list_empty. Qed.

Lemma truthy_false_not_auto (v : value) :
  truthy v = false -> strict_eq v (VStr "auto") = false.
Proof.
  destruct v as [| |b|n|x|items|fields|k m]; try reflexivity; try discriminate.
  cbn. intros H. apply negb_false_iff, String.eqb_eq in H. now subst x.
Qed.

(** X12.  The [close] event that follows an [error] event finds no socket
    and disconnects with [reconnect: true]: it queues no second reconnect,
    does not grow the interval again and emits no second [disconnect]. *)
Theorem error_then_close (amb1 amb2 : Ambient) (err err2 : value) (msg : option string)
    (code : Z) (s : St) :
  autoReconnect (options s) = true ->
  (forall h, pingInterval s = Some h -> h <> nextTimer s) ->
  exists s1 s2,
    on_error amb1 err msg s = Ret tt s1 /\
    on_close amb2 code err2 s1 = Ret tt s2 /\
    timers s1 !! nextTimer s = Some (mkTimer Reconnect (reconnectInterval s) false) /\
    reconnectInterval s1 = grow (reconnectInterval s) (Math_random amb1) /\
    timers s2 = timers s1 /\
    nextTimer s2 = nextTimer s1 /\
    reconnectInterval s2 = reconnectInterval s1 /\
    connectAttempts s2 = connectAttempts s /\
    pingInterval s2 = pingInterval s /\
    trace s2 = trace s1 ++ (if code =? 0 then [] else [close_warning code]).
Proof.
  intros Hauto Hpi.
  rewrite on_error_disconnects.
  set (s0 := match str_truthy msg with Some m => _ | None => s end).
  assert (H0 : options s0 = options s /\ pingInterval s0 = pingInterval s /\
               nextTimer s0 = nextTimer s /\ reconnectInterval s0 = reconnectInterval s /\
               connectAttempts s0 = connectAttempts s)
    by (subst s0; destruct (str_truthy msg); destruct s; repeat split).
  destruct H0 as (Ho0 & Hp0 & Hn0 & Hr0 & Hc0).
  destruct (disconnect_returns amb1 (VStr "auto") err s0)
    as (s1 & Hd1 & Hws1 & _ & _ & _ & Hcb1 & Ho1 & _ & Hr1).
  destruct (disconnect_session amb1 (VStr "auto") err s0)
    as (s1' & Hd1' & _ & _ & _ & _ & _ & _ & _ & _ & _ & _ & _ & _ & Hs1).
  rewrite Hd1 in Hd1'. injection Hd1' as <-.
  rewrite Ho0, Hauto in Hr1, Hs1. cbn [strict_eq String.eqb andb] in Hr1, Hs1.
  change (String.eqb "auto" "auto") with true in Hr1, Hs1. cbn [andb] in Hr1, Hs1.
  destruct Hr1 as (_ & Htm1 & Hri1). destruct Hs1 as (Hnt1 & Hpi1 & Hca1).
  rewrite Hn0, Hr0 in Htm1. rewrite Hr0 in Hri1. rewrite Hn0 in Hnt1.
  rewrite Hp0 in Hpi1. rewrite Hc0 in Hca1.
  pose proof (on_close_disconnects amb2 code err2 s1) as Hoc. rewrite Hws1 in Hoc.
  set (s1c := if code =? 0 then s1 else _) in Hoc.
  assert (H1 : options s1c = options s1 /\ pingInterval s1c = pingInterval s1 /\
               nextTimer s1c = nextTimer s1 /\ reconnectInterval s1c = reconnectInterval s1 /\
               connectAttempts s1c = connectAttempts s1 /\ callbacks s1c = callbacks s1 /\
               timers s1c = timers s1 /\ ws s1c = ws s1 /\
               trace s1c = trace s1 ++ (if code =? 0 then [] else [close_warning code]))
    by (subst s1c; destruct (code =? 0); destruct s1; cbn; rewrite ?app_nil_r; repeat split).
  destruct H1 as (Ho1c & Hp1c & Hn1c & Hr1c & Hc1c & Hcb1c & Ht1c & Hws1c & Htr1c).
  destruct (disconnect_returns amb2 (VBool true) (close_error code err2) s1c)
    as (s2 & Hd2 & _ & _ & _ & _ & _ & _ & _ & Hr2).
  destruct (disconnect_session amb2 (VBool true) (close_error code err2) s1c)
    as (s2' & Hd2' & _ & _ & _ & _ & _ & _ & _ & _ & _ & _ & _ & _ & Hs2).
  rewrite Hd2 in Hd2'. injection Hd2' as <-.
  cbn [strict_eq andb truthy] in Hr2, Hs2.
  destruct Hr2 as (Htr2 & Htm2 & Hri2). destruct Hs2 as (Hnt2 & Hpi2 & Hca2).
  exists s1, s2. split; [exact Hd1 |]. split; [rewrite Hoc; exact Hd2 |].
  split; [rewrite Htm1; apply lookup_insert_eq |].
  split; [exact Hri1 |].
  split.
  { rewrite Htm2. unfold timers_after_disconnect at 1.
    rewrite Hcb1c, Hcb1, indexed_registrations_empty. cbn [cancel_all foldl].
    rewrite Hp1c, Hpi1, Ht1c.
    destruct (pingInterval s) as [h|] eqn:Eh; [| reflexivity].
    apply delete_id. rewrite Htm1, lookup_insert_ne by (symmetry; now apply Hpi).
    unfold timers_after_disconnect. apply cancel_all_keeps_none.
    rewrite Hp0. apply lookup_delete_eq. }
  split; [now rewrite Hnt2 |].
  split; [now rewrite Hri2 |].
  split; [now rewrite Hca2, Hc1c |].
  split; [now rewrite Hpi2, Hp1c |].
  rewrite Htr2, Hws1c, Hws1. cbn [close_effects]. rewrite app_nil_r. exact Htr1c.
Qed.

Lemma error_then_close_witness :
  autoReconnect (options Sample.connected) = true /\
  exists s1 s2,
    on_error Sample.amb VUndef None Sample.connected = Ret tt s1 /\
    on_close Sample.amb 1006 VUndef s1 = Ret tt s2 /\
    timers s2 = timers s1 /\ reconnectInterval s2 = reconnectInterval s1.
Proof.
  assert (H : autoReconnect (options Sample.connected) = true) by reflexivity.
  split; [exact H |].
  destruct (error_then_close Sample.amb Sample.amb VUndef VUndef None 1006
              Sample.connected H)
    as (s1 & s2 & He & Hc & _ & _ & Ht & _ & Hr & _).
  - intros h Hh. vm_compute in Hh. injection Hh as <-. vm_compute. discriminate.
  - exists s1, s2. split; [exact He |]. split; [exact Hc |]. split; [exact Ht | exact Hr].
Defined.

(** ** The connection timeout *)

Lemma fire_connection_timeout (amb : Ambient) (h : nat) (ms : Z) (s : St) :
  timers s !! h = Some (mkTimer ConnectionTimeout ms false) ->
  fire amb h s = connection_timeout amb (set_timers (delete h (timers s)) s).
Proof. intros H. unfold fire. cbn [bind gets]. rewrite H. reflexivity. Qed.

Lemma connect_arms (s : St) :
  exists s1,
    connect s = Ret tt s1 /\
    connecting s1 = true /\
    timers s1
    = <[nextTimer s := mkTimer ConnectionTimeout (connectionTimeout (options s)) false]>
        (timers s) /\
    ws s1 = match str_truthy (apiKey (token s)) with
            | Some _ => ws s
            | None => Some (nextSocket s)
            end.
Proof.
  destruct (str_truthy (apiKey (token s))) as [key|] eqn:Hkey.
  - rewrite (connect_with_key s key Hkey). eexists. split; [reflexivity |].
    destruct s; repeat split.
  - rewrite (connect_with_tokens s Hkey). eexists. split; [reflexivity |].
    destruct s; repeat split.
Qed.

(** X14.  The connection-timeout check only reads [this.connecting].  It
    does nothing once the client is no longer connecting; but [connect]
    leaves the check of an earlier attempt armed, and when that one fires
    during the new attempt it disconnects the new attempt. *)
Theorem stale_connection_timeout (amb : Ambient) (h : nat) (ms : Z) (s : St) :
  timers s !! h = Some (mkTimer ConnectionTimeout ms false) ->
  h <> nextTimer s ->
  (connecting s = false ->
   fire amb h s = Ret tt (set_timers (delete h (timers s)) s)) /\
  exists s1,
    connect s = Ret tt s1 /\
    timers s1 !! h = Some (mkTimer ConnectionTimeout ms false) /\
    timers s1 !! nextTimer s
    = Some (mkTimer ConnectionTimeout (connectionTimeout (options s)) false) /\
    exists s2,
      fire amb h s1 = Ret tt s2 /\
      ws s2 = None /\ connecting s2 = false /\
      (forall sock, ws s1 = Some sock ->
         Close sock (VStr "auto") ∈ trace s2 /\
         Emit "disconnect" [AVal (JsError "Connection timeout")] ∈ trace s2).
Proof.
  intros Ht Hnt. split.
  { intros Hc. rewrite (fire_connection_timeout amb h ms s Ht).
    unfold connection_timeout. destruct s. cbn in Hc. subst. reflexivity. }
  destruct (connect_arms s) as (s1 & Hcon & Hcing & Htm & Hws).
  exists s1. split; [exact Hcon |].
  assert (Ht1 : timers s1 !! h = Some (mkTimer ConnectionTimeout ms false))
    by (rewrite Htm, lookup_insert_ne by congruence; exact Ht).
  split; [exact Ht1 |]. split; [rewrite Htm; apply lookup_insert_eq |].
  rewrite (fire_connection_timeout amb h ms s1 Ht1).
  set (s1' := set_timers _ s1).
  assert (H1 : connecting s1' = true /\ ws s1' = ws s1 /\ trace s1' = trace s1)
    by (subst s1'; destruct s1; cbn in *; repeat split; assumption).
  destruct H1 as (Hc1 & Hw1 & Htr1).
  rewrite (connection_timeout_disconnects amb s1' Hc1).
  destruct (disconnect_returns amb (VStr "auto") (JsError "Connection timeout") s1')
    as (s2 & Hd & Hws2 & _ & Hcing2 & _ & _ & _ & _ & Hr).
  exists s2. split; [exact Hd |]. split; [exact Hws2 |]. split; [exact Hcing2 |].
  intros sock Hsock. rewrite Hw1, Hsock in Hr.
  destruct (close_effects_held amb sock (VStr "auto") (JsError "Connection timeout"))
    as [Hclose Hdisc].
  destruct (strict_eq (VStr "auto") (VStr "auto") && autoReconnect (options s1'));
    destruct Hr as (-> & _).
  - split; apply elem_of_app; right; apply elem_of_app; left; assumption.
  - split; apply elem_of_app; right; assumption.
Qed.

Lemma stale_connection_timeout_witness :
  timers Sample.connected !! 0%nat = Some (mkTimer ConnectionTimeout 30000 false) /\
  fire Sample.amb 0 Sample.connected
  = Ret tt (set_timers (delete 0%nat (timers Sample.connected)) Sample.connected).
Proof.
  assert (H : timers Sample.connected !! 0%nat = Some (mkTimer ConnectionTimeout 30000 false))
    by (vm_compute; reflexivity).
  split; [exact H |].
  refine (proj1 (stale_connection_timeout Sample.amb 0%nat 30000 Sample.connected H _) _).
  - vm_compute. discriminate.
  - vm_compute. reflexivity.
Defined.

(** ** The modes of disconnect *)

(** Cancelling arms nothing: a timer armed after the cancellations of
    [disconnect] was armed before. *)
Lemma timers_after_disconnect_sub (s : St) (h : nat) (t : Timer) :
  timers_after_disconnect s !! h = Some t -> timers s !! h = Some t.
Proof.
  unfold timers_after_disconnect. intros Ht.
  assert (Hsub : forall fs tm, cancel_all fs tm !! h = Some t -> tm !! h = Some t).
  { induction fs as [|f fs IH]; intros tm; [trivial |]. cbn. intros Hc.
    specialize (IH _ Hc). now apply lookup_delete_Some in IH as [_ IH]. }
  apply Hsub in Ht. destruct (pingInterval s) as [h0|]; [| exact Ht].
  now apply lookup_delete_Some in Ht as [_ Ht].
Qed.

(** X10.  [disconnect] with a falsy [reconnect] option is a hard reset:
    the session fields are those of a new client (interval 1000, no
    attempts, no heartbeat handle), and the tokens, the options, the user
    and the mirror are kept.  It arms no timer, and cancels only the
    heartbeat and the timers of registrations whose id is an array index:
    every other timer that was armed stays armed. *)
Theorem disconnect_without_reconnect (amb : Ambient) (reconnect error : value) (s : St) :
  truthy reconnect = false ->
  exists s',
    disconnect amb reconnect error s = Ret tt s' /\
    ws s' = None /\ ready s' = false /\ connecting s' = false /\
    pingInterval s' = None /\ lastPingAck s' = true /\
    lastPingReceived s' = None /\ lastPingSent s' = None /\ latency s' = Infinity /\
    reconnectInterval s' = 1000 /\ connectAttempts s' = 0 /\
    callbacks s' = ∅ /\ voiceDataCache s' = emptyCache /\
    token s' = token s /\ options s' = options s /\ user s' = user s /\
    currentRoom s' = currentRoom s /\ rooms s' = rooms s /\ heap s' = heap s /\
    timers s' = timers_after_disconnect s /\ nextTimer s' = nextTimer s /\
    (forall h t, timers s' !! h = Some t -> timers s !! h = Some t) /\
    (forall h t,
        timers s !! h = Some t -> pingInterval s <> Some h ->
        (forall g, g ∈ indexed_registrations (callbacks s) -> timer g <> h) ->
        timers s' !! h = Some t).
Proof.
  intros Hfalsy.
  destruct (disconnect_returns amb reconnect error s)
    as (s' & Hd & Hws & Hready & Hcing & Hack & Hcb & Ho & Htok & Hr).
  destruct (disconnect_session amb reconnect error s)
    as (s'' & Hd' & _ & _ & Hrooms & Hheap & _ & Husr & Hcur & _ & Hcache & Hlat & Hlps
        & Hlpr & Hs).
  rewrite Hd in Hd'. injection Hd' as <-.
  rewrite (truthy_false_not_auto reconnect Hfalsy), Hfalsy in Hr, Hs.
  cbn [andb] in Hr, Hs.
  destruct Hr as (_ & Htm & Hri). destruct Hs as (Hnt & Hpi & Hca).
  exists s'. repeat (split; [assumption |]). split.
  - intros h t. rewrite Htm. apply timers_after_disconnect_sub.
  - intros h t Ht Hping Hidx. rewrite Htm.
    now rewrite timers_after_disconnect_other.
Qed.

Lemma disconnect_without_reconnect_witness :
  truthy (VBool false) = false /\
  exists s',
    disconnect Sample.amb (VBool false) VUndef Sample.connected = Ret tt s' /\
    reconnectInterval s' = 1000 /\ connectAttempts s' = 0 /\ pingInterval s' = None.
Proof.
  split; [reflexivity |].
  destruct (disconnect_without_reconnect Sample.amb (VBool false) VUndef Sample.connected
              eq_refl)
    as (s' & Hd & _ & _ & _ & Hpi & _ & _ & _ & _ & Hri & Hca & _).
  exists s'. split; [exact Hd |]. split; [exact Hri |]. split; [exact Hca | exact Hpi].
Defined.

(** X11.  [disconnect] with a truthy [reconnect] option that is not
    ["auto"], or with auto-reconnect disabled, queues nothing and resets
    nothing: the interval, the attempt counter and the heartbeat handle
    stay as they are. *)
Theorem disconnect_without_auto_reconnect (amb : Ambient) (reconnect error : value) (s : St) :
  truthy reconnect = true ->
  strict_eq reconnect (VStr "auto") && autoReconnect (options s) = false ->
  exists s',
    disconnect amb reconnect error s = Ret tt s' /\
    ws s' = None /\ callbacks s' = ∅ /\
    timers s' = timers_after_disconnect s /\ nextTimer s' = nextTimer s /\
    reconnectInterval s' = reconnectInterval s /\
    connectAttempts s' = connectAttempts s /\
    pingInterval s' = pingInterval s /\
    trace s' = trace s ++ close_effects amb (ws s) reconnect error.
Proof.
  intros Htruthy Hno.
  destruct (disconnect_returns amb reconnect error s)
    as (s' & Hd & Hws & _ & _ & _ & Hcb & _ & _ & Hr).
  destruct (disconnect_session amb reconnect error s)
    as (s'' & Hd' & _ & _ & _ & _ & _ & _ & _ & _ & _ & _ & _ & _ & Hs).
  rewrite Hd in Hd'. injection Hd' as <-.
  rewrite Hno, Htruthy in Hr, Hs.
  destruct Hr as (Htr & Htm & Hri). destruct Hs as (Hnt & Hpi & Hca).
  exists s'. repeat split; assumption.
Qed.

Lemma disconnect_without_auto_reconnect_witness :
  truthy (VBool true) = true /\
  exists s',
    disconnect Sample.amb (VBool true) VUndef Sample.connected = Ret tt s' /\
    nextTimer s' = nextTimer Sample.connected /\
    reconnectInterval s' = reconnectInterval Sample.connected.
Proof.
  split; [reflexivity |].
  destruct (disconnect_without_auto_reconnect Sample.amb (VBool true) VUndef Sample.connected
              eq_refl eq_refl)
    as (s' & Hd & _ & _ & _ & Hnt & Hri & _).
  exists s'. split; [exact Hd |]. split; [exact Hnt | exact Hri].
Defined.

(** ** An acknowledged heartbeat *)

Lemma heartbeat_acked (amb : Ambient) (s : St) (sock : nat) :
  lastPingAck s = true -> ws s = Some sock ->
  heartbeat amb s
  = Ret tt (set_trace (trace s ++ [Send sock Ping])
              (set_lastPingSent (Some (Date_now amb)) (set_lastPingAck false s))).
Proof.
  destruct_state s. cbn [lastPingAck ws]. intros -> ->. reflexivity.
Qed.

(** X15.  An acknowledged heartbeat keeps the connection: a tick sends one
    ping on the held socket and clears the ack flag, the pong sets the
    latency to the difference of the two clock readings, and the next tick
    sends the next ping without disconnecting. *)
Theorem heartbeat_round_trip (amb1 amb2 amb3 : Ambient) (s : St) (sock : nat) :
  lastPingAck s = true -> ws s = Some sock ->
  exists s1 s2 s3,
    heartbeat amb1 s = Ret tt s1 /\
    on_message amb2 Pong s1 = Ret tt s2 /\
    heartbeat amb3 s2 = Ret tt s3 /\
    lastPingAck s1 = false /\
    latency s2 = Millis (Date_now amb2 - Date_now amb1) /\
    trace s3 = trace s ++ [Send sock Ping; Send sock Ping] /\
    ws s3 = Some sock /\ timers s3 = timers s /\ callbacks s3 = callbacks s /\
    ready s3 = ready s.
Proof.
  intros Hack Hws.
  rewrite (heartbeat_acked amb1 s sock Hack Hws).
  eexists. eexists. eexists. split; [reflexivity |].
  split; [reflexivity |].
  split; [apply (heartbeat_acked amb3 _ sock); destruct s; [reflexivity | exact Hws] |].
  destruct_state s. cbn in Hws. subst held. cbn. rewrite <- app_assoc.
  repeat split.
Qed.

Lemma heartbeat_round_trip_witness :
  lastPingAck Sample.connected = true /\ ws Sample.connected = Some 0%nat /\
  exists s1 s2 s3,
    heartbeat Sample.amb Sample.connected = Ret tt s1 /\
    on_message Sample.amb Pong s1 = Ret tt s2 /\
    heartbeat Sample.amb s2 = Ret tt s3 /\
    latency s2 = Millis 0 /\ ws s3 = Some 0%nat.
Proof.
  assert (Hack : lastPingAck Sample.connected = true) by (vm_compute; reflexivity).
  assert (Hws : ws Sample.connected = Some 0%nat) by (vm_compute; reflexivity).
  split; [exact Hack |]. split; [exact Hws |].
  destruct (heartbeat_round_trip Sample.amb Sample.amb Sample.amb Sample.connected 0%nat
              Hack Hws)
    as (s1 & s2 & s3 & H1 & H2 & H3 & _ & Hlat & _ & Hws3 & _).
  exists s1, s2, s3. split; [exact H1 |]. split; [exact H2 |]. split; [exact H3 |].
  split; [exact Hlat | exact Hws3].
Defined.

(** ** Tokens *)

Lemma on_open_sends (amb : Ambient) (s : St) (sock : nat) :
  ws s = Some sock -> readyState (sockets s) sock = OPEN ->
  on_open amb s
  = Ret tt (set_trace (trace s ++ [Send sock (auth_frame amb (token s));
                                   Emit "debug" [AFrame (auth_frame amb (token s))]]) s).
Proof.
  intros Hws Hopen. unfold on_open, auth. cbn [bind gets]. cbv zeta.
  unfold bind. rewrite (sendWS_open amb _ _ None s sock Hws Hopen). reflexivity.
Qed.

(** X16.  NEW_TOKENS stores the two tokens only when both are truthy, and
    emits [newTokens] either way; the tokens it leaves are the ones the
    next [auth()] sends. *)
Theorem new_tokens_then_auth (amb : Ambient) (pk : packet.t) (s : St)
    (access refresh : value) :
  packet.op pk = NEW_TOKENS ->
  prop (packet.d pk) "accessToken" = inl access ->
  prop (packet.d pk) "refreshToken" = inl refresh ->
  exists s1,
    wsEvent_switch pk s = Ret Break s1 /\
    token s1 = (if truthy access && truthy refresh
                then mkToken (apiKey (token s)) access refresh
                else token s) /\
    trace s1 = trace s ++ [Emit "newTokens" [AVal (packet.d pk)]] /\
    forall sock,
      ws s = Some sock -> readyState (sockets s) sock = OPEN ->
      exists s2,
        on_open amb s1 = Ret tt s2 /\
        trace s2 = trace s1 ++ [Send sock (auth_frame amb (token s1));
                                Emit "debug" [AFrame (auth_frame amb (token s1))]].
Proof.
  intros Hop Ha Hr.
  assert (Hsw : wsEvent_switch pk s
                = Ret Break
                    (set_trace (trace s ++ [Emit "newTokens" [AVal (packet.d pk)]])
                       (if truthy access && truthy refresh
                        then set_token (mkToken (apiKey (token s)) access refresh) s
                        else s))).
  { unfold wsEvent_switch. rewrite Hop. unfold read. rewrite Ha, Hr.
    destruct_state s. cbn [bind ret].
    destruct (truthy access && truthy refresh); reflexivity. }
  rewrite Hsw. eexists. split; [reflexivity |].
  split; [destruct (truthy access && truthy refresh); destruct s; reflexivity |].
  split; [destruct (truthy access && truthy refresh); destruct s; reflexivity |].
  intros sock Hws Hopen. eexists. split.
  - apply on_open_sends with (sock := sock);
      destruct (truthy access && truthy refresh); destruct s; assumption.
  - destruct (truthy access && truthy refresh); destruct s; reflexivity.
Qed.

Lemma new_tokens_then_auth_witness :
  packet.op Scenario.new_tokens = NEW_TOKENS /\
  exists s1,
    wsEvent_switch Scenario.new_tokens Sample.connected = Ret Break s1 /\
    token s1 = mkToken None (VStr "access-2") (VStr "refresh-2").
Proof.
  split; [reflexivity |].
  destruct (new_tokens_then_auth Sample.amb Scenario.new_tokens Sample.connected
              (VStr "access-2") (VStr "refresh-2") eq_refl eq_refl eq_refl)
    as (s1 & Hsw & Htok & _).
  exists s1. split; [exact Hsw | exact Htok].
Defined.

(** X17.  A bootstrap response without an [error] field is accepted
    whatever else it holds: its [accessToken] and [refreshToken] are
    stored, a socket is opened and held, and when that socket opens the
    AUTH frame carries those two values. *)
Theorem bootstrap_then_open (amb : Ambient) (str : string) (v err access refresh : value)
    (s : St) :
  prop v "error" = inl err -> truthy err = false ->
  prop v "accessToken" = inl access -> prop v "refreshToken" = inl refresh ->
  exists s1,
    bootstrap_end str (Some v) s = Ret tt s1 /\
    token s1 = mkToken (apiKey (token s)) access refresh /\
    ws s1 = Some (nextSocket s) /\
    sockets s1 = <[nextSocket s := CONNECTING]> (sockets s) /\
    trace s1 = trace s ++ [NewSocket (nextSocket s) (socketUrl (options s))] /\
    timers s1 = timers s /\ connecting s1 = connecting s /\
    exists s2,
      step amb (SocketOpen (nextSocket s)) s1 = Ret tt s2 /\
      trace s2 = trace s1 ++ [Send (nextSocket s) (auth_frame amb (token s1));
                              Emit "debug" [AFrame (auth_frame amb (token s1))]].
Proof.
  intros He Hfalsy Ha Hr.
  assert (Hb : bootstrap_end str (Some v) s
               = Ret tt
                   (set_ws (Some (nextSocket s))
                      (set_trace (trace s ++ [NewSocket (nextSocket s) (socketUrl (options s))])
                         (set_nextSocket (S (nextSocket s))
                            (set_sockets (<[nextSocket s := CONNECTING]> (sockets s))
                               (set_token (mkToken (apiKey (token s)) access refresh) s)))))).
  { unfold bootstrap_end, try_catch, read. destruct_state s.
    cbn [bind ret]. rewrite He. cbn [bind ret]. rewrite Hfalsy. cbn [bind ret].
    rewrite Ha. cbn [bind ret modify]. rewrite Hr. reflexivity. }
  rewrite Hb. eexists. split; [reflexivity |].
  destruct_state s. msimpl. repeat split.
  eexists. split.
  - unfold step, set_readyState. cbn [bind modify]. apply on_open_sends with (sock := ns).
    + reflexivity.
    + cbn. unfold readyState. now rewrite lookup_insert_eq.
  - reflexivity.
Qed.

Lemma bootstrap_then_open_witness :
  prop Scenario.bot_tokens "error" = inl VUndef /\
  exists s1,
    bootstrap_end "" (Some Scenario.bot_tokens) Sample.bootstrapping = Ret tt s1 /\
    token s1 = mkToken (Some "key") (VStr "access") (VStr "refresh") /\
    ws s1 = Some 0%nat.
Proof.
  split; [reflexivity |].
  destruct (bootstrap_then_open Sample.amb "" Scenario.bot_tokens VUndef (VStr "access")
              (VStr "refresh") Sample.bootstrapping eq_refl eq_refl eq_refl eq_refl)
    as (s1 & Hb & Htok & Hws & _).
  exists s1. split; [exact Hb |]. split; [exact Htok | exact Hws].
Defined.


(** ** Users the room does not know *)

(** X18.  In a known room, a packet about a user the room does not hold
    raises a TypeError in the six cases that use the user, before any
    event, mirror update or resolution of a pending request. *)
Theorem unknown_user (pk : packet.t) (s : St) (rid uid : value) (r : nat) (a : ActiveRoom) :
  user_required (packet.op pk) = true ->
  prop (packet.d pk) "roomId" = inl rid ->
  rooms_get s rid = Some (r, Active a) ->
  prop (packet.d pk) "userId" = inl uid ->
  users_get a uid = None ->
  wsEvent pk s = Throw JsTypeError s.
Proof.
  intros Hop Hrid Hroom Huid Hnone. unfold wsEvent. unfold bind at 1.
  enough (Hsw : wsEvent_switch pk s = Throw JsTypeError s) by now rewrite Hsw.
  destruct (packet.op pk) eqn:E; try discriminate Hop;
    unfold wsEvent_switch; rewrite E; cbn [bind];
    rewrite (the_room_inl pk rid s Hrid), Hroom; cbn [bind active ret];
    rewrite (read_inl _ _ _ _ Huid); cbn [bind]; rewrite Hnone; reflexivity.
Qed.

Lemma unknown_user_witness :
  user_required (packet.op Scenario.mute_unknown) = true /\
  rooms_get Sample.in_room (VStr "A") = Some (0%nat, Active Sample.room_A) /\
  users_get Sample.room_A (VStr "Z") = None /\
  wsEvent Scenario.mute_unknown Sample.in_room = Throw JsTypeError Sample.in_room.
Proof.
  assert (Hroom : rooms_get Sample.in_room (VStr "A") = Some (0%nat, Active Sample.room_A))
    by (vm_compute; reflexivity).
  assert (Hnone : users_get Sample.room_A (VStr "Z") = None) by (vm_compute; reflexivity).
  split; [reflexivity |]. split; [exact Hroom |]. split; [exact Hnone |].
  exact (unknown_user Scenario.mute_unknown Sample.in_room (VStr "A") (VStr "Z")
           0%nat Sample.room_A eq_refl eq_refl Hroom eq_refl Hnone).
Defined.

(** ** The voice transport cache *)

(** X19.  The voice transport cache is merged field by field: JOINED_PEER
    stores the receive transport and the router capabilities when they are
    truthy and never touches the send transport, NOW_SPEAKER stores the
    send transport and marks the self user a speaker; each event carries
    the cache as merged so far. *)
Theorem peer_then_speaker (pk1 pk2 : packet.t) (s : St) (rid1 rid2 recv router send : value)
    (r1 r2 : nat) (entry : RoomEntry) (a : ActiveRoom) :
  packet.op pk1 = JOINED_PEER -> packet.op pk2 = NOW_SPEAKER ->
  prop (packet.d pk1) "roomId" = inl rid1 -> rooms_get s rid1 = Some (r1, entry) ->
  prop (packet.d pk1) "recvTransportOptions" = inl recv ->
  prop (packet.d pk1) "routerRtpCapabilities" = inl router ->
  prop (packet.d pk2) "roomId" = inl rid2 -> rooms_get s rid2 = Some (r2, Active a) ->
  prop (packet.d pk2) "sendTransportOptions" = inl send ->
  let old := voiceDataCache s in
  let cache1 :=
    mkVoiceDataCache (merge_field recv (recvTransportOptions old))
      (sendTransportOptions old) (merge_field router (routerRtpCapabilities old)) in
  let cache2 :=
    mkVoiceDataCache (recvTransportOptions cache1)
      (merge_field send (sendTransportOptions old)) (routerRtpCapabilities cache1) in
  exists s1 s2,
    wsEvent_switch pk1 s = Ret Break s1 /\
    wsEvent_switch pk2 s1 = Ret Break s2 /\
    voiceDataCache s1 = cache1 /\ heap s1 = heap s /\
    voiceDataCache s2 = cache2 /\
    heap s2
    = <[r2 := Active (with_selfUser
                        (with_roomPermissions
                           (with_isSpeaker (VBool true) (roomPermissions (selfUser a)))
                           (selfUser a)) a)]> (heap s) /\
    trace s2 = trace s ++ [Emit "joinedAsPeer" [ARoom (entry_id entry); ACache cache1];
                           Emit "becameSpeaker" [ARoom (ar_id a); ACache cache2]].
Proof.
  intros Hop1 Hop2 Hrid1 Hroom1 Hrecv Hrouter Hrid2 Hroom2 Hsend old cache1 cache2.
  assert (H1 : wsEvent_switch pk1 s
               = Ret Break
                   (set_trace (trace s ++ [Emit "joinedAsPeer" [ARoom (entry_id entry);
                                                                ACache cache1]])
                      (set_voiceDataCache cache1 s))).
  { unfold wsEvent_switch. rewrite Hop1. cbn [bind].
    rewrite (the_room_inl pk1 rid1 s Hrid1), Hroom1.
    unfold update_cache. cbn [bind].
    rewrite (read_inl _ _ _ _ Hrecv). cbn [bind].
    subst cache1 old. unfold merge_field.
    destruct_state s. cbn [voiceDataCache].
    destruct (truthy recv); msimpl; rewrite (read_inl _ _ _ _ Hrouter); msimpl;
      destruct (truthy router); msimpl; destruct cache; reflexivity. }
  set (s1 := set_trace _ (set_voiceDataCache cache1 s)) in H1.
  assert (Hroom2' : rooms_get s1 rid2 = Some (r2, Active a))
    by (subst s1; destruct s; exact Hroom2).
  assert (H2 : wsEvent_switch pk2 s1
               = Ret Break
                   (set_trace (trace s1 ++ [Emit "becameSpeaker" [ARoom (ar_id a);
                                                                  ACache cache2]])
                      (set_heap
                         (<[r2 := Active (with_selfUser
                                            (with_roomPermissions
                                               (with_isSpeaker (VBool true)
                                                  (roomPermissions (selfUser a)))
                                               (selfUser a)) a)]> (heap s1))
                         (set_voiceDataCache cache2 s1)))).
  { unfold wsEvent_switch. rewrite Hop2. cbn [bind].
    rewrite (the_room_inl pk2 rid2 s1 Hrid2), Hroom2'.
    unfold update_cache. cbn [bind].
    rewrite (read_inl _ _ _ _ Hsend). cbn [bind].
    subst s1 cache2 cache1 old. unfold merge_field.
    destruct_state s. cbn [voiceDataCache].
    destruct (truthy send); msimpl; destruct cache; reflexivity. }
  exists s1. eexists. split; [exact H1 |]. split; [exact H2 |].
  subst s1. destruct_state s. msimpl. rewrite <- app_assoc. repeat split.
Qed.

Lemma peer_then_speaker_witness :
  rooms_get Sample.in_room (VStr "A") = Some (0%nat, Active Sample.room_A) /\
  exists s1 s2,
    wsEvent_switch Scenario.joined_peer Sample.in_room = Ret Break s1 /\
    wsEvent_switch Scenario.now_speaker s1 = Ret Break s2 /\
    voiceDataCache s2 = mkVoiceDataCache (VStr "recv") (VStr "send") (VStr "router").
Proof.
  assert (Hroom : rooms_get Sample.in_room (VStr "A") = Some (0%nat, Active Sample.room_A))
    by (vm_compute; reflexivity).
  split; [exact Hroom |].
  destruct (peer_then_speaker Scenario.joined_peer Scenario.now_speaker Sample.in_room
              (VStr "A") (VStr "A") (VStr "recv") (VStr "router") (VStr "send")
              0%nat 0%nat (Active Sample.room_A) Sample.room_A
              eq_refl eq_refl eq_refl Hroom eq_refl eq_refl eq_refl Hroom eq_refl)
    as (s1 & s2 & H1 & H2 & _ & _ & Hc & _).
  exists s1, s2. split; [exact H1 |]. split; [exact H2 |]. exact Hc.
Defined.


(** ** The reconnect cycle *)

Lemma fire_reconnect (amb : Ambient) (h : nat) (ms : Z) (s : St) :
  timers s !! h = Some (mkTimer Reconnect ms false) ->
  fire amb h s = connect (set_timers (delete h (timers s)) s).
Proof. intros H. unfold fire. cbn [bind gets]. rewrite H. reflexivity. Qed.

(** X13.  The reconnect queued by an automatic disconnect runs
    [connect()]: with a token pair, firing the timer opens a new socket,
    counts one more attempt, spends the timer and arms a connection
    timeout, the interval having grown at the disconnect. *)
Theorem reconnect_cycle (amb1 amb2 : Ambient) (error : value) (s : St) :
  autoReconnect (options s) = true ->
  str_truthy (apiKey (token s)) = None ->
  exists s1 s2,
    disconnect amb1 (VStr "auto") error s = Ret tt s1 /\
    fire amb2 (nextTimer s) s1 = Ret tt s2 /\
    ws s2 = Some (nextSocket s) /\
    sockets s2 !! nextSocket s = Some CONNECTING /\
    connecting s2 = true /\
    connectAttempts s2 = connectAttempts s + 1 /\
    reconnectInterval s2 = grow (reconnectInterval s) (Math_random amb1) /\
    timers s2 !! nextTimer s = None /\
    timers s2 !! S (nextTimer s)
    = Some (mkTimer ConnectionTimeout (connectionTimeout (options s)) false) /\
    trace s2 = trace s1 ++ [NewSocket (nextSocket s) (socketUrl (options s))].
Proof.
  intros Hauto Hkey.
  destruct (disconnect_returns amb1 (VStr "auto") error s)
    as (s1 & Hd & Hws & _ & _ & _ & _ & Ho & Htok & Hr).
  destruct (disconnect_session amb1 (VStr "auto") error s)
    as (s1' & Hd' & _ & Hns & _ & _ & _ & _ & _ & _ & _ & _ & _ & _ & Hs).
  rewrite Hd in Hd'. injection Hd' as <-.
  rewrite Hauto in Hr, Hs. change (strict_eq (VStr "auto") (VStr "auto")) with true in Hr, Hs.
  cbn [andb] in Hr, Hs.
  destruct Hr as (_ & Htm & Hri). destruct Hs as (Hnt & _ & Hca).
  assert (Hfire : timers s1 !! nextTimer s = Some (mkTimer Reconnect (reconnectInterval s) false))
    by (rewrite Htm; apply lookup_insert_eq).
  exists s1. eexists. split; [exact Hd |].
  rewrite (fire_reconnect amb2 _ _ s1 Hfire).
  rewrite connect_with_tokens by (destruct s1; cbn in *; now rewrite Htok).
  split; [reflexivity |].
  unfold existing_connection.
  destruct_state s1. msimpl. msimpl in Hws. msimpl in Ho. msimpl in Htok. msimpl in Hns.
  msimpl in Hnt. msimpl in Hca. msimpl in Hri. subst.
  repeat split.
  - apply lookup_insert_eq.
  - rewrite lookup_insert_ne by lia. apply lookup_delete_eq.
  - apply lookup_insert_eq.
Qed.

Lemma reconnect_cycle_witness :
  autoReconnect (options Sample.connected) = true /\
  exists s1 s2,
    disconnect Sample.amb (VStr "auto") VUndef Sample.connected = Ret tt s1 /\
    fire Sample.amb 2 s1 = Ret tt s2 /\
    ws s2 = Some 1%nat /\ connectAttempts s2 = 1.
Proof.
  split; [reflexivity |].
  destruct (reconnect_cycle Sample.amb Sample.amb VUndef Sample.connected eq_refl eq_refl)
    as (s1 & s2 & Hd & Hf & Hws & _ & _ & Hca & _).
  exists s1, s2. split; [exact Hd |]. split; [exact Hf |]. split; [exact Hws | exact Hca].
Defined.
